(** * IGVC-2023: the sensing, decision and actuation loop

    A shallow embedding of the three Python programs of the repository

      - [DepthSensorTests.py]            (module [DepthSensorTests]),
      - [NewDepthSensorTest.py]          (module [NewDepthSensorTest]),
      - [line_det_w_motor_controller.py] (module [LineDet]),

    followed by the properties of the navigation specification that can be
    stated on them.  Depth readings, slopes and intercepts are Python floats,
    that is IEEE-754 binary64 numbers: they are modelled by the inductive
    [spec_float] of the standard library, whose comparisons and arithmetic
    are the IEEE ones (not-a-number, infinities and signed zeros included). *)

From Stdlib Require Import String.
From Stdlib Require Import ZArith List Bool Lia SpecFloat.
Import ListNotations.
Open Scope Z_scope.

(** ** Python and NumPy floats *)

Module PyFloat.

Definition prec : Z := 53.
Definition emax : Z := 1024.

Definition float : Set := spec_float.

Definition nan : float := S754_nan.
Definition inf : float := S754_infinity false.
Definition neg_inf : float := S754_infinity true.

(** [math.isnan] *)
Definition isnan (x : float) : bool :=
  match x with S754_nan => true | _ => false end.

(** The comparison operators; each is false as soon as an operand is
    not-a-number. *)
Definition ltb (x y : float) : bool := SFltb x y.
Definition leb (x y : float) : bool := SFleb x y.
Definition gtb (x y : float) : bool := SFltb y x.
Definition geb (x y : float) : bool := SFleb y x.

(** Conversion of an integer, as in the mixed comparison [d > 300], in
    [lastCommandTime + 1e8] or in NumPy's true division of two [int32]:
    rounded to nearest even, exact below [2^53].  (Python raises on the
    integers beyond the range of doubles; none occurs here.) *)
Definition of_int (n : Z) : float := binary_normalize prec emax n 0 false.

Definition add : float -> float -> float := SFadd prec emax.
Definition sub : float -> float -> float := SFsub prec emax.
Definition mul : float -> float -> float := SFmul prec emax.
Definition div : float -> float -> float := SFdiv prec emax.
Definition opp : float -> float := SFopp.

(** The literals of the programs: the doubles nearest to 0.1, 0.3
    and 0.65. *)
Definition lit_0_1 : float := S754_finite false 7205759403792794 (-56).
Definition lit_0_3 : float := S754_finite false 5404319552844595 (-54).
Definition lit_0_65 : float := S754_finite false 5854679515581645 (-53).

(** Python compares an [int] with a [float] exactly, without rounding the
    integer: [n > f]. *)
Definition int_gtb (n : Z) (f : float) : bool :=
  match f with
  | S754_nan => false
  | S754_infinity s => s
  | S754_zero _ => n >? 0
  | S754_finite s m e =>
      if 0 <=? e then n >? cond_Zopp s (Zpos m * 2 ^ e)
      else n * 2 ^ (- e) >? cond_Zopp s (Zpos m)
  end.

Inductive Exception := ValueError | OverflowError.

(** [int(f)]: truncation toward zero; not-a-number and the infinities
    raise. *)
Definition int (f : float) : Exception + Z :=
  match f with
  | S754_nan => inl ValueError
  | S754_infinity _ => inl OverflowError
  | S754_zero _ => inr 0
  | S754_finite s m e =>
      inr (cond_Zopp s (if 0 <=? e then Zpos m * 2 ^ e else Zpos m / 2 ^ (- e)))
  end.

(** [int(n / 2)] on an integer [n]: true division, then truncation. The
    quotient is exact for [|n| < 2^53], which pixel coordinates are. *)
Definition int_half (n : Z) : Z := Z.quot n 2.

(** The sum NumPy takes of a contiguous array of doubles ([pairwise_sum]
    in its [add] loop).  Fewer than 8 items are added one after the other.
    Up to 128 items go to 8 partial sums [r], item [i] to [r[i % 8]], as
    far as full blocks of 8 reach; the partial sums are added in pairs and
    the items left over are added to that, one after the other.  A longer
    array is cut in two at half its length rounded down to a multiple of
    8, and the sums of the two parts are added. *)
Definition add_each (r block : list float) : list float :=
  map (fun p => add (fst p) (snd p)) (combine r block).

(** [for (i = 8; i < n - (n % 8); i += 8)]: the accumulators after
    [blocks] further blocks, and the items not yet read. *)
Fixpoint accumulate (blocks : nat) (r a : list float) : list float * list float :=
  match blocks with
  | O => (r, a)
  | S blocks' => accumulate blocks' (add_each r (firstn 8 a)) (skipn 8 a)
  end.

(** [((r[0] + r[1]) + (r[2] + r[3])) + ((r[4] + r[5]) + (r[6] + r[7]))] *)
Definition add_pairs (r : list float) : float :=
  let r_ (j : nat) := nth j r nan in
  add (add (add (r_ 0%nat) (r_ 1%nat)) (add (r_ 2%nat) (r_ 3%nat)))
      (add (add (r_ 4%nat) (r_ 5%nat)) (add (r_ 6%nat) (r_ 7%nat))).

(** The recursion on the two parts of a long array is bounded by [fuel];
    the length of the array is enough of it. *)
Fixpoint pairwise_sum (fuel : nat) (a : list float) : float :=
  let n := length a in
  if Nat.ltb n 8 then fold_left add a (S754_zero false)
  else if Nat.leb n 128 then
    let '(r, rest) := accumulate (Nat.div n 8 - 1) (firstn 8 a) (skipn 8 a) in
    fold_left add rest (add_pairs r)
  else
    match fuel with
    | O => nan
    | S fuel' =>
        let n2 := (Nat.div n 2 - Nat.modulo (Nat.div n 2) 8)%nat in
        add (pairwise_sum fuel' (firstn n2 a)) (pairwise_sum fuel' (skipn n2 a))
    end.

(** [numpy.sum]: the reduction starts from 0.0 and adds the pairwise sum
    to it.  (Releases of NumPy that start from -0.0 give another result
    on one kind of input only, a list of negative zeros.) *)
Definition np_sum (a : list float) : float :=
  add (S754_zero false) (pairwise_sum (length a) a).

(** [numpy.mean] of a list of doubles: the sum over the count, hence
    not-a-number on the empty list (0.0 / 0). *)
Definition np_mean (l : list float) : float :=
  div (np_sum l) (of_int (Z.of_nat (length l))).

End PyFloat.

Declare Scope pyfloat_scope.
Delimit Scope pyfloat_scope with pf.
Infix "<?" := PyFloat.ltb (at level 70, no associativity) : pyfloat_scope.
Infix "<=?" := PyFloat.leb (at level 70, no associativity) : pyfloat_scope.
Infix ">?" := PyFloat.gtb (at level 70, no associativity) : pyfloat_scope.
Infix ">=?" := PyFloat.geb (at level 70, no associativity) : pyfloat_scope.

Import PyFloat.

(** ** Python lists and loops *)

Module Py.

Definition len {A} (l : list A) : Z := Z.of_nat (length l).

(** [l[i]], used under the guard [0 <= i < len(l)] only. *)
Definition item (l : list float) (i : Z) : float := nth (Z.to_nat i) l nan.

(** [range(n)] *)
Definition range (n : Z) : list Z := map Z.of_nat (seq 0 (Z.to_nat n)).

(** [l[-n:]]: the last [n] items, the whole list when it is shorter. *)
Definition last_items {A} (n : nat) (l : list A) : list A :=
  skipn (length l - n) l.

(** The two shapes of the index loops of the obstacle locators:
    [while i < len(l) and p(l[i]): i += 1] and
    [while i >= 0 and p(l[i]): i -= 1].  The fuel bounds the number of
    iterations; the scans of the locators are instances of them. *)
Section Scan.
Variable p : float -> bool.

Fixpoint scan_up (fuel : nat) (l : list float) (i : Z) : Z :=
  match fuel with
  | O => i
  | S fuel' => if (i <? len l) && p (item l i) then scan_up fuel' l (i + 1) else i
  end.

Fixpoint scan_down (fuel : nat) (l : list float) (i : Z) : Z :=
  match fuel with
  | O => i
  | S fuel' => if (i >=? 0) && p (item l i) then scan_down fuel' l (i - 1) else i
  end.
End Scan.

(** A [while cond: body] loop whose body consumes one external input per
    iteration (a frame grab, a clock reading).  On a finite prefix of the
    inputs the loop either returns, leaving the inputs it did not consume,
    or is still running when the prefix ends. *)
Section While.
Context {I S : Type}.
Variable cond : S -> bool.
Variable body : I -> S -> S.

Inductive Run : Type :=
| Returned (s : S) (rest : list I)
| Running (s : S).

Fixpoint while (inputs : list I) (s : S) : Run :=
  match inputs with
  | [] => if cond s then Running s else Returned s []
  | i :: rest => if cond s then while rest (body i s) else Returned s inputs
  end.
End While.

Arguments Run : clear implicits.

End Py.

Import Py.

(** ** The collaborators: camera, motor controller, console *)

Module Robot.

(** [sl.ERROR_CODE] *)
Inductive ERROR_CODE :=
| SUCCESS | FAILURE | CAMERA_NOT_DETECTED | CAMERA_REBOOTING | END_OF_SVOFILE_REACHED.

Definition is_success (e : ERROR_CODE) : bool :=
  match e with SUCCESS => true | _ => false end.

(** [sl.Mat]: the left image and the depth measure of one frame have the
    same size; of their contents only the depth values are read. *)
Record Mat := {
  get_width : Z;
  get_height : Z;
  get_value : Z -> Z -> float
}.

(** [sl.Mat()] *)
Definition new_Mat : Mat :=
  {| get_width := 0; get_height := 0; get_value := fun _ _ => nan |}.

(** One call of [zed.grab]: its error code and, on success, what
    [retrieve_image], [retrieve_measure] and [get_timestamp] will hand out. *)
Record Grab := {
  error : ERROR_CODE;
  frame : Mat;
  timestamp : Z
}.

(** What the programs do to the outside: console lines, motor commands and
    process control, in program order. *)
Inductive Output :=
| PrintDistance (time : option Z) (x y : Z) (depthValue : float)
| PrintGrabFailed (e : ERROR_CODE)
| Print (text : string)
| Forward (speed : Z)
| Backward (speed : Z)
| TurnLeft (speed : Z)
| TurnRight (speed : Z)
| Stop
| ProcessStart
| EventSet
| ProcessJoin.

End Robot.

Import Robot.

(** ** [DepthSensorTests.py] *)

Module DepthSensorTests.

(** The thresholds and bounds are Python integers; where one meets a
    depth value it is read as the double of the same value. *)
Definition MIN_THRESHOLD_DISTANCE : Z := 100.
Definition MAX_THRESHOLD_DISTANCE : Z := 125.

Definition MIN_OBSTACLE_DEPTH : Z := 0.
Definition MAX_OBSTACLE_DEPTH : Z := 300.

Definition FORWARD_SPEED : Z := 25.
Definition TURNING_SPEED : Z := 10.

Definition clipData (data_to_fix lower_bound upper_bound : float) : float :=
  if (data_to_fix >? upper_bound)%pf || isnan data_to_fix then upper_bound
  else if (data_to_fix <? lower_bound)%pf then lower_bound
  else data_to_fix.

(** The cleaned depth values of the center row. *)
Definition depthList (image depth_matrix : Mat) : list float :=
  let centerY := int_half (get_height image) in
  map (fun currentX =>
         clipData (get_value depth_matrix currentX centerY)
           (of_int MIN_OBSTACLE_DEPTH) (of_int MAX_OBSTACLE_DEPTH))
      (range (get_width image)).

(** [while leftBoundX < len(depthList) and depthList[leftBoundX] >= MAX: leftBoundX += 1] *)
Fixpoint leftScan (fuel : nat) (depthList : list float) (leftBoundX : Z) : Z :=
  match fuel with
  | O => leftBoundX
  | S fuel' =>
      if (leftBoundX <? len depthList)
         && (item depthList leftBoundX >=? of_int MAX_OBSTACLE_DEPTH)%pf
      then leftScan fuel' depthList (leftBoundX + 1)
      else leftBoundX
  end.

(** [while rightBoundX < len(depthList) and depthList[rightBoundX] < MAX: rightBoundX += 1] *)
Fixpoint rightScan (fuel : nat) (depthList : list float) (rightBoundX : Z) : Z :=
  match fuel with
  | O => rightBoundX
  | S fuel' =>
      if (rightBoundX <? len depthList)
         && (item depthList rightBoundX <? of_int MAX_OBSTACLE_DEPTH)%pf
      then rightScan fuel' depthList (rightBoundX + 1)
      else rightBoundX
  end.

(** The two boundary pixels found on a cleaned row, [None] when the left
    scan runs off the row.  Each loop makes at most [len(depthList)]
    steps. *)
Definition obstacleBounds (depthList : list float) : option (Z * Z) :=
  let leftBoundX := leftScan (length depthList) depthList 0 in
  if leftBoundX >=? len depthList then None
  else
    let rightBoundX := rightScan (length depthList) depthList (leftBoundX + 1) in
    Some (leftBoundX, rightBoundX).

Definition getCoordinatesOfCloseObstacle (image depth_matrix : Mat) : option (Z * Z) :=
  let centerY := int_half (get_height image) in
  match obstacleBounds (depthList image depth_matrix) with
  | None => None
  | Some (leftBoundX, rightBoundX) =>
      let centerOfObstacleX := int_half (leftBoundX + rightBoundX) in
      Some (centerOfObstacleX, centerY)
  end.

(** The two [sl.Mat] objects a capture loop allocates and reuses. *)
Record Buffers := { image : Mat; depth_matrix : Mat }.

Definition new_Buffers : Buffers := {| image := new_Mat; depth_matrix := new_Mat |}.

(** Returns [(depthValue, x, y)], the buffers as the call leaves them and
    what it printed. *)
Definition captureImageAndCheckForObstacle (g : Grab) (b : Buffers)
  : (option float * Z * Z) * Buffers * list Output :=
  let x := int_half (get_width (image b)) in
  let y := int_half (get_height (image b)) in
  if is_success (error g) then
    let b' := {| image := frame g; depth_matrix := frame g |} in
    let '(x, y) :=
      match getCoordinatesOfCloseObstacle (image b') (depth_matrix b') with
      | None => (int_half (get_width (image b')), int_half (get_height (image b')))
      | Some xy => xy
      end in
    let depthValue :=
      clipData (get_value (depth_matrix b') x y)
        (of_int MIN_OBSTACLE_DEPTH) (of_int MAX_OBSTACLE_DEPTH) in
    ((Some depthValue, x, y), b', [PrintDistance (Some (timestamp g)) x y depthValue])
  else
    ((None, x, y), b, [PrintGrabFailed (error g)]).

(** The local variables of a capture loop. *)
Record Capture := {
  depthValue : option float;
  x : Z;
  y : Z;
  buffers : Buffers;
  printed : list Output
}.

Definition capture_init : Capture :=
  {| depthValue := None;
     x := int_half (get_width new_Mat);
     y := int_half (get_height new_Mat);
     buffers := new_Buffers;
     printed := [] |}.

Definition capture_body (g : Grab) (s : Capture) : Capture :=
  let '((d, x', y'), b', o) := captureImageAndCheckForObstacle g (buffers s) in
  {| depthValue := d; x := x'; y := y'; buffers := b'; printed := printed s ++ o |}.

(** [while depthValue is None or depthValue > MIN_THRESHOLD_DISTANCE] *)
Definition approaching (s : Capture) : bool :=
  match depthValue s with
  | None => true
  | Some d => (d >? of_int MIN_THRESHOLD_DISTANCE)%pf
  end.

(** [while depthValue is None or depthValue < MAX_THRESHOLD_DISTANCE] *)
Definition blocked (s : Capture) : bool :=
  match depthValue s with
  | None => true
  | Some d => (d <? of_int MAX_THRESHOLD_DISTANCE)%pf
  end.

Definition captureImagesUntilCloseToObstacle (zed : list Grab) : Run Grab Capture :=
  while approaching capture_body zed capture_init.

Definition captureImagesUntilClear (zed : list Grab) : Run Grab Capture :=
  while blocked capture_body zed capture_init.

(** [motor] tells whether a motor controller is connected.  The sender
    process runs beside this one; of it only [start], the event and [join]
    appear here.  The result is what this process printed and commanded,
    and whether the test run came to its end on the given grabs. *)
Definition moveForwardAndStopTest (cpu_count : Z) (motor : bool) (zed : list Grab)
  : list Output * bool :=
  if cpu_count >=? 2 then
    ([Print "Testing error: need at least 2 CPU's"%string], true)
  else
    let started := [ProcessStart; Print "Robot moving forward"%string] in
    match captureImagesUntilCloseToObstacle zed with
    | Running s => (started ++ printed s, false)
    | Returned s _ =>
        (started ++ printed s ++ [EventSet; ProcessJoin]
           ++ (if motor then [Stop] else []) ++ [Print "Robot has stopped"%string], true)
    end.

End DepthSensorTests.

(** ** [NewDepthSensorTest.py] *)

Module NewDepthSensorTest.

Definition THRESHOLD_DISTANCE : Z := 150.

Definition MIN_OBSTACLE_DEPTH : Z := 0.
Definition MAX_OBSTACLE_DEPTH : Z := 300.

Definition ONE_SECOND_DELAY : Z := 1000000000.

Definition clipData (data_to_fix lower_bound upper_bound : float) : float :=
  if (data_to_fix >? upper_bound)%pf || isnan data_to_fix then upper_bound
  else if (data_to_fix <? lower_bound)%pf then lower_bound
  else data_to_fix.

Definition depthList (image depth_matrix : Mat) : list float :=
  let centerY := int_half (get_height image) in
  map (fun currentX =>
         clipData (get_value depth_matrix currentX centerY)
           (of_int MIN_OBSTACLE_DEPTH) (of_int MAX_OBSTACLE_DEPTH))
      (range (get_width image)).

(** [while leftBoundX < len(depthList) and depthList[leftBoundX] >= MAX: leftBoundX += 1] *)
Fixpoint leftScan (fuel : nat) (depthList : list float) (leftBoundX : Z) : Z :=
  match fuel with
  | O => leftBoundX
  | S fuel' =>
      if (leftBoundX <? len depthList)
         && (item depthList leftBoundX >=? of_int MAX_OBSTACLE_DEPTH)%pf
      then leftScan fuel' depthList (leftBoundX + 1)
      else leftBoundX
  end.

(** [while rightBoundX >= 0 and depthList[rightBoundX] >= MAX: rightBoundX -= 1] *)
Fixpoint rightScan (fuel : nat) (depthList : list float) (rightBoundX : Z) : Z :=
  match fuel with
  | O => rightBoundX
  | S fuel' =>
      if (rightBoundX >=? 0)
         && (item depthList rightBoundX >=? of_int MAX_OBSTACLE_DEPTH)%pf
      then rightScan fuel' depthList (rightBoundX - 1)
      else rightBoundX
  end.

Definition obstacleBounds (depthList : list float) : option (Z * Z) :=
  let leftBoundX := leftScan (length depthList) depthList 0 in
  if leftBoundX >=? len depthList then None
  else
    let rightBoundX := rightScan (length depthList) depthList (len depthList - 1) in
    Some (leftBoundX, rightBoundX).

Definition getCoordinatesOfCloseObstacle (image depth_matrix : Mat) : option (Z * Z) :=
  let centerY := int_half (get_height image) in
  match obstacleBounds (depthList image depth_matrix) with
  | None => None
  | Some (leftBoundX, rightBoundX) =>
      let centerOfObstacleX := int_half (leftBoundX + rightBoundX) in
      Some (centerOfObstacleX, centerY)
  end.

Record Buffers := { image : Mat; depth_matrix : Mat }.

Definition new_Buffers : Buffers := {| image := new_Mat; depth_matrix := new_Mat |}.

(** The part common to the bodies of the two loops: grab, then either a
    new cleaned depth value at the obstacle (or at the center pixel), or
    the failure message and the old value. *)
Definition grab_and_measure (g : Grab) (depthValue : float) (b : Buffers)
  : float * Buffers * list Output :=
  if is_success (error g) then
    let b' := {| image := frame g; depth_matrix := frame g |} in
    let '(x, y) :=
      match getCoordinatesOfCloseObstacle (image b') (depth_matrix b') with
      | None => (int_half (get_width (image b')), int_half (get_height (image b')))
      | Some xy => xy
      end in
    let depthValue' :=
      clipData (get_value (depth_matrix b') x y)
        (of_int MIN_OBSTACLE_DEPTH) (of_int MAX_OBSTACLE_DEPTH) in
    (depthValue', b', [PrintDistance None x y depthValue'])
  else
    (depthValue, b, [PrintGrabFailed (error g)]).

(** One iteration of the approach loop reads the clock for the test of the
    forward command, reads it again after a command was sent, and grabs. *)
Record Tick := { clock : Z; clock_after : Z; grab : Grab }.

Record Approach := {
  depthValue : float;
  initialTime : Z;
  buffers : Buffers;
  printed : list Output
}.

Definition approach_init : Approach :=
  {| depthValue := of_int (THRESHOLD_DISTANCE + 10);
     initialTime := 0;
     buffers := new_Buffers;
     printed := [] |}.

(** [time.time_ns() > initialTime + (ONE_SECOND_DELAY*0.1)] *)
Definition command_due (now initialTime : Z) : bool :=
  int_gtb now (add (of_int initialTime) (mul (of_int ONE_SECOND_DELAY) lit_0_1)).

Definition approach_body (t : Tick) (s : Approach) : Approach :=
  let due := command_due (clock t) (initialTime s) in
  let '(d, b, o) := grab_and_measure (grab t) (depthValue s) (buffers s) in
  {| depthValue := d;
     initialTime := if due then clock_after t else initialTime s;
     buffers := b;
     printed := printed s ++ (if due then [Forward 20] else []) ++ o |}.

(** [while depthValue > THRESHOLD_DISTANCE] *)
Definition approaching (s : Approach) : bool :=
  (depthValue s >? of_int THRESHOLD_DISTANCE)%pf.

Definition captureImagesUntilCloseToObstacle (zed : list Tick) : Run Tick Approach :=
  while approaching approach_body zed approach_init.

Record Clear := {
  clear_depthValue : float;
  clear_buffers : Buffers;
  clear_printed : list Output
}.

Definition clear_init : Clear :=
  {| clear_depthValue := of_int (THRESHOLD_DISTANCE - 10);
     clear_buffers := new_Buffers;
     clear_printed := [] |}.

Definition clear_body (g : Grab) (s : Clear) : Clear :=
  let '(d, b, o) := grab_and_measure g (clear_depthValue s) (clear_buffers s) in
  {| clear_depthValue := d; clear_buffers := b; clear_printed := clear_printed s ++ o |}.

(** [while depthValue < THRESHOLD_DISTANCE] *)
Definition blocked (s : Clear) : bool :=
  (clear_depthValue s <? of_int THRESHOLD_DISTANCE)%pf.

Definition captureImagesUntilClear (zed : list Grab) : Run Grab Clear :=
  while blocked clear_body zed clear_init.

End NewDepthSensorTest.

(** ** [line_det_w_motor_controller.py] *)

Module LineDet.

Definition ROBOT_SPEED : Z := 20.
Definition ONE_SECOND_DELAY : Z := 1000000000.

(** The four module-level lists. *)
Record Buffers := {
  rightSlope : list float;
  leftSlope : list float;
  rightIntercept : list float;
  leftIntercept : list float
}.

Definition empty_Buffers : Buffers :=
  {| rightSlope := []; leftSlope := []; rightIntercept := []; leftIntercept := [] |}.

(** One row [x1, y1, x2, y2] of the array of [cv2.HoughLinesP]: four
    [int32] pixel coordinates. *)
Definition Segment : Set := Z * Z * Z * Z.

(** [(y1-y2)/(x1-x2)] on NumPy integers is a true division into a double:
    a zero divisor does not raise, it gives an infinity, or not-a-number
    for 0/0.  The differences of pixel coordinates do not wrap around. *)
Definition slope_of (seg : Segment) : float :=
  let '(x1, y1, x2, y2) := seg in
  div (of_int (y1 - y2)) (of_int (x1 - x2)).

(** The body of the inner [for]. *)
Definition ingest (b : Buffers) (seg : Segment) : Buffers :=
  let '(x1, y1, x2, y2) := seg in
  let slope := slope_of seg in
  if (slope >? lit_0_3)%pf then
    if x1 >? 500 then
      let yintercept := sub (of_int y2) (mul slope (of_int x2)) in
      {| rightSlope := rightSlope b ++ [slope];
         leftSlope := leftSlope b;
         rightIntercept := rightIntercept b ++ [yintercept];
         leftIntercept := leftIntercept b |}
    else b
  else if (slope <? opp lit_0_3)%pf then
    if x1 <? 600 then
      let yintercept := sub (of_int y2) (mul slope (of_int x2)) in
      {| rightSlope := rightSlope b;
         leftSlope := leftSlope b ++ [slope];
         rightIntercept := rightIntercept b;
         leftIntercept := leftIntercept b ++ [yintercept] |}
    else b
  else b.

(** [lines] is [None] or an array of shape (N, 1, 4). *)
Definition ingest_lines (lines : option (list (list Segment))) (b : Buffers) : Buffers :=
  match lines with
  | Some lines =>
      fold_left (fun b line => fold_left ingest line b) lines b
  | None => b
  end.

Inductive Result :=
| Return (coors : option Z * option Z)
| Raise (e : Exception).

(** [except ValueError: pass], with the two variables as they are when
    the exception arrives; any other exception leaves the function. *)
Definition except (e : Exception) (left_line_x1 right_line_x1 : option Z) : Result :=
  match e with
  | ValueError => Return (left_line_x1, right_line_x1)
  | _ => Raise e
  end.

(** [(y - avgIntercept)/avgSlope]: the line equation solved for [x]. *)
Definition line_x (y avgIntercept avgSlope : float) : float :=
  div (sub y avgIntercept) avgSlope.

(** The averages and the [try] block; [height] is [img.shape[0]].  The
    drawing calls that end the block write to [img] only. *)
Definition estimate (height : Z) (b : Buffers) : Result :=
  let leftavgSlope := np_mean (last_items 30 (leftSlope b)) in
  let leftavgIntercept := np_mean (last_items 30 (leftIntercept b)) in
  let rightavgSlope := np_mean (last_items 30 (rightSlope b)) in
  let rightavgIntercept := np_mean (last_items 30 (rightIntercept b)) in
  let near := mul lit_0_65 (of_int height) in
  let far := of_int height in
  match int (line_x near leftavgIntercept leftavgSlope) with
  | inl e => except e None None
  | inr left_line_x1 =>
  match int (line_x far leftavgIntercept leftavgSlope) with
  | inl e => except e (Some left_line_x1) None
  | inr left_line_x2 =>
  match int (line_x near rightavgIntercept rightavgSlope) with
  | inl e => except e (Some left_line_x1) None
  | inr right_line_x1 =>
  match int (line_x far rightavgIntercept rightavgSlope) with
  | inl e => except e (Some left_line_x1) (Some right_line_x1)
  | inr right_line_x2 => Return (Some left_line_x1, Some right_line_x1)
  end end end end.

(** The lists after the call, and what the call returns or raises. *)
Definition draw_lines (height : Z) (lines : option (list (list Segment))) (b : Buffers)
  : Buffers * Result :=
  let b' := ingest_lines lines b in
  (b', estimate height b').

(** [time.time_ns() > lastCommandTime + (ONE_SECOND_DELAY*0.1)] *)
Definition command_due (now lastCommandTime : Z) : bool :=
  int_gtb now (add (of_int lastCommandTime) (mul (of_int ONE_SECOND_DELAY) lit_0_1)).

(** [clock] is the reading of [time.time_ns()] in the test, [clock_after]
    the reading stored in [lastCommandTime].  Returns [lastCommandTime]
    and what was printed and commanded. *)
Definition sendMotorCommand (clock clock_after : Z) (command : string)
    (lastCommandTime : Z) : Z * list Output :=
  if command_due clock lastCommandTime then
    (clock_after,
     if (command =? "up")%string then [Print "Going Forward"%string; Forward ROBOT_SPEED]
     else if (command =? "down")%string then [Print "Going Backwards"%string; Backward ROBOT_SPEED]
     else if (command =? "left")%string then [Print "Going Left"%string; TurnLeft (ROBOT_SPEED * 2)]
     else if (command =? "right")%string then [Print "Going Right"%string; TurnRight (ROBOT_SPEED * 2)]
     else if (command =? "stop")%string then [Print "Stopping"%string; Stop]
     else [])
  else (lastCommandTime, []).

(** A caller that keeps the returned time for its next call, one call per
    clock reading; tells for each call what it sent. *)
Fixpoint send_all (command : string) (clocks : list Z) (lastCommandTime : Z)
  : list (list Output) :=
  match clocks with
  | [] => []
  | now :: later =>
      let '(lastCommandTime', sent) := sendMotorCommand now now command lastCommandTime in
      sent :: send_all command later lastCommandTime'
  end.

End LineDet.

(** ** Vocabulary of the properties *)

(** The depth value one iteration of a capture loop of [DepthSensorTests.py]
    derives from a grab: none when the grab fails. *)
Definition sample (g : Grab) : option float :=
  let '((d, _, _), _, _) :=
    DepthSensorTests.captureImageAndCheckForObstacle g DepthSensorTests.new_Buffers in
  d.

(** The same for the loops of [NewDepthSensorTest.py], which find the
    obstacle with their own locator. *)
Definition new_sample (g : Grab) : option float :=
  if is_success (error g) then
    let '(d, _, _) :=
      NewDepthSensorTest.grab_and_measure g nan NewDepthSensorTest.new_Buffers in
    Some d
  else None.

(** The minimum interval between two commands: 100 ms, in nanoseconds. *)
Definition MIN_INTERVAL : Z := 100000000.

(** The class the tests of [draw_lines] give a segment, if any. *)
Inductive Side := RightSide | LeftSide.

Definition side_of (seg : LineDet.Segment) : option Side :=
  let '(x1, y1, x2, y2) := seg in
  if (LineDet.slope_of seg >? lit_0_3)%pf then
    if x1 >? 500 then Some RightSide else None
  else if (LineDet.slope_of seg <? opp lit_0_3)%pf then
    if x1 <? 600 then Some LeftSide else None
  else None.

Definition is_side (s : Side) (seg : LineDet.Segment) : bool :=
  match side_of seg, s with
  | Some RightSide, RightSide | Some LeftSide, LeftSide => true
  | _, _ => false
  end.

Definition other_side (s : Side) : Side :=
  match s with RightSide => LeftSide | LeftSide => RightSide end.

(** Segments whose classes alternate, starting with [s]. *)
Fixpoint alternating (s : Side) (segs : list LineDet.Segment) : Prop :=
  match segs with
  | [] => True
  | seg :: rest => side_of seg = Some s /\ alternating (other_side s) rest
  end.

(** [y2 - (slope*x2)] *)
Definition yintercept_of (seg : LineDet.Segment) : float :=
  let '(x1, y1, x2, y2) := seg in
  sub (of_int y2) (mul (LineDet.slope_of seg) (of_int x2)).

(** The part of the four lists that the slices [[-30:]] read. *)
Definition window (b : LineDet.Buffers) : LineDet.Buffers :=
  {| LineDet.rightSlope := last_items 30 (LineDet.rightSlope b);
     LineDet.leftSlope := last_items 30 (LineDet.leftSlope b);
     LineDet.rightIntercept := last_items 30 (LineDet.rightIntercept b);
     LineDet.leftIntercept := last_items 30 (LineDet.leftIntercept b) |}.

(** ** Concrete frames and inputs *)

(** A frame whose cleaned center row is [300, 50, 300]. *)
Definition one_pixel_frame : Mat :=
  {| get_width := 3;
     get_height := 1;
     get_value := fun x _ => if x =? 1 then of_int 50 else of_int 300 |}.

(** A frame of one pixel at the given depth. *)
Definition flat_frame (depth : Z) : Mat :=
  {| get_width := 1; get_height := 1; get_value := fun _ _ => of_int depth |}.

(** A grab that succeeds with the given frame, and one that fails. *)
Definition grabbed (f : Mat) : Grab := {| error := SUCCESS; frame := f; timestamp := 0 |}.

Definition failed_grab : Grab := {| error := FAILURE; frame := new_Mat; timestamp := 0 |}.

(** An iteration of the approach loop of [NewDepthSensorTest.py] at the
    given clock reading. *)
Definition tick (now : Z) (g : Grab) : NewDepthSensorTest.Tick :=
  {| NewDepthSensorTest.clock := now;
     NewDepthSensorTest.clock_after := now;
     NewDepthSensorTest.grab := g |}.

(** The clock readings, in nanoseconds, of calls at 0, 30, 60, 105 and
    110 milliseconds. *)
Definition call_times : list Z := map (fun ms => ms * 1000000) [0; 30; 60; 105; 110].

(** Three segments: one of slope -1 on the left, one of slope 1 on the
    right, and a vertical one at [x = 550]. *)
Definition left_segment : LineDet.Segment := (100, 300, 200, 200).
Definition right_segment : LineDet.Segment := (600, 400, 500, 300).
Definition vertical_segment : LineDet.Segment := (550, 400, 550, 300).

(** 35 segments, left and right in turn, and one line of 31 right ones. *)
Definition alternating_35 : list LineDet.Segment :=
  concat (repeat [left_segment; right_segment] 17) ++ [left_segment].

Definition right_31 : list (list LineDet.Segment) := [repeat right_segment 31].

(** ** More of Python *)

Module PyCompare.

(** [n < f] on an [int] and a [float]: exact, as is [int_gtb]. *)
Definition int_ltb (n : Z) (f : float) : bool :=
  match f with
  | S754_nan => false
  | S754_infinity s => negb s
  | S754_zero _ => n <? 0
  | S754_finite s m e =>
      if 0 <=? e then n <? cond_Zopp s (Zpos m * 2 ^ e)
      else n * 2 ^ (- e) <? cond_Zopp s (Zpos m)
  end.

End PyCompare.

Import PyCompare.

(** ** The test runs of [DepthSensorTests.py] *)

Module DepthSensorRuns.
Import DepthSensorTests.

(** [if motor is not None: motor.c()] *)
Definition command (motor : bool) (c : Output) : list Output :=
  if motor then [c] else [].

(** As for [moveForwardAndStopTest], the result of a test run is what it
    printed and commanded, and whether it came to its end on the given
    grabs. *)
Definition turnLeftAndStopTest (motor : bool) (zed : list Grab) : list Output * bool :=
  let started := command motor (TurnLeft TURNING_SPEED) ++ [Print "Robot turning left"%string] in
  match captureImagesUntilClear zed with
  | Running s => (started ++ printed s, false)
  | Returned s _ =>
      (started ++ printed s ++ command motor Stop ++ [Print "Robot has stopped"%string], true)
  end.

Definition turnRightAndStopTest (motor : bool) (zed : list Grab) : list Output * bool :=
  let started := command motor (TurnRight TURNING_SPEED) ++ [Print "Robot turning right"%string] in
  match captureImagesUntilClear zed with
  | Running s => (started ++ printed s, false)
  | Returned s _ =>
      (started ++ printed s ++ command motor Stop ++ [Print "Robot has stopped"%string], true)
  end.

(** [centerX = imageWithCloseObstacle.get_width() / 2] is a true division;
    [obstacleX < centerX] compares an [int] with that [float]. *)
Definition obstacle_on_left (obstacleX : Z) (imageWithCloseObstacle : Mat) : bool :=
  let centerX := div (of_int (get_width imageWithCloseObstacle)) (of_int 2) in
  int_ltb obstacleX centerX.

(** The three capture loops of the run read the same camera one after the
    other: each goes on with the grabs the one before left. *)
Definition steerAwayFromObstacleTest (motor : bool) (zed : list Grab) : list Output * bool :=
  let moving := command motor (Forward FORWARD_SPEED) ++ [Print "Robot moving forward"%string] in
  let stopped := command motor Stop ++ [Print "Robot has stopped"%string] in
  match captureImagesUntilCloseToObstacle zed with
  | Running s => (moving ++ printed s, false)
  | Returned s1 zed1 =>
      let obstacleX := x s1 in
      let imageWithCloseObstacle := image (buffers s1) in
      let turning :=
        if obstacle_on_left obstacleX imageWithCloseObstacle
        then command motor (TurnRight TURNING_SPEED) ++ [Print "Robot turning right"%string]
        else command motor (TurnLeft TURNING_SPEED) ++ [Print "Robot turning left"%string] in
      let before_clear := moving ++ printed s1 ++ stopped ++ turning in
      match captureImagesUntilClear zed1 with
      | Running s => (before_clear ++ printed s, false)
      | Returned s2 zed2 =>
          let before_approach := before_clear ++ printed s2 ++ stopped ++ moving in
          match captureImagesUntilCloseToObstacle zed2 with
          | Running s => (before_approach ++ printed s, false)
          | Returned s3 _ => (before_approach ++ printed s3 ++ stopped, true)
          end
      end
  end.

End DepthSensorRuns.

(** ** The test runs of [NewDepthSensorTest.py] *)

Module NewDepthSensorRuns.
Import NewDepthSensorTest.

Definition FORWARD_SPEED : Z := 25.
Definition TURNING_SPEED : Z := 25.

(** [captureImagesUntilCloseToObstacle(zed, motors)] with the [motors] it
    is given.  The call [motors.forward(20)] is not guarded: on [None] it
    raises [AttributeError], which leaves the loop in the state of that
    moment.  With a motor the loop is the one of module
    [NewDepthSensorTest]. *)
Inductive Approached :=
| Close (s : Approach) (rest : list Tick)
| Waiting (s : Approach)
| NoMotor (s : Approach).

Fixpoint approach (motor : bool) (zed : list Tick) (s : Approach) : Approached :=
  match zed with
  | [] => if approaching s then Waiting s else Close s []
  | t :: rest =>
      if approaching s then
        if command_due (clock t) (initialTime s) && negb motor then NoMotor s
        else approach motor rest (approach_body t s)
      else Close s zed
  end.

Inductive Outcome := Finished | Unfinished | AttributeError.

(** The four [motor.backward(20)] after the loop are not guarded
    either. *)
Definition moveForwardAndStopTest (motor : bool) (zed : list Tick) : list Output * Outcome :=
  let started :=
    (if motor then [Forward FORWARD_SPEED] else []) ++ [Print "Robot moving forward"%string] in
  match approach motor zed approach_init with
  | Waiting s => (started ++ printed s, Unfinished)
  | NoMotor s => (started ++ printed s, AttributeError)
  | Close s _ =>
      if motor then
        (started ++ printed s
           ++ [Backward 20; Backward 20; Backward 20; Backward 20]
           ++ [Stop] ++ [Print "Robot has stopped"%string], Finished)
      else (started ++ printed s, AttributeError)
  end.

Definition turnLeftAndStopTest (motor : bool) (zed : list Grab) : list Output * bool :=
  let started :=
    (if motor then [TurnLeft TURNING_SPEED] else []) ++ [Print "Robot turning left"%string] in
  match captureImagesUntilClear zed with
  | Running s => (started ++ clear_printed s, false)
  | Returned s _ =>
      (started ++ clear_printed s ++ (if motor then [Stop] else [])
         ++ [Print "Robot has stopped"%string], true)
  end.

Definition turnRightAndStopTest (motor : bool) (zed : list Grab) : list Output * bool :=
  let started :=
    (if motor then [TurnRight TURNING_SPEED] else []) ++ [Print "Robot turning right"%string] in
  match captureImagesUntilClear zed with
  | Running s => (started ++ clear_printed s, false)
  | Returned s _ =>
      (started ++ clear_printed s ++ (if motor then [Stop] else [])
         ++ [Print "Robot has stopped"%string], true)
  end.

End NewDepthSensorRuns.

(** ** The steering decision of [line_det_w_motor_controller.py] *)

Module LineDetSteering.
Import LineDet.

(** The part of [hough_lines] between [draw_lines] and the send: the
    direction and what is printed.  The direction stays ["up"] when an
    estimate is missing and when no branch is taken. *)
Definition choose_direction (coors : option Z * option Z) : string * list Output :=
  match coors with
  | (Some left_line_x1, Some right_line_x1) =>
      let left_diff := left_line_x1 in
      let right_diff := 635 - right_line_x1 in
      let padding := 20 in
      if (right_diff - padding <? left_diff) && (left_diff <? right_diff + padding) then
        ("up"%string, [Print "stay straight"%string])
      else if left_diff <? right_diff - padding then
        ("left"%string, [Print "move left"%string])
      else if left_diff >? right_diff + padding then
        ("right"%string, [Print "move right"%string])
      else ("up"%string, [])
  | _ => ("up"%string, [])
  end.

(** [hough_lines] from the segments of [cv2.HoughLinesP] on: [height] is
    [img.shape[0]]; [started] is the clock reading stored in [initialTime]
    just before the call of [sendMotorCommand], [clock] and [clock_after]
    the readings that call takes.  Returns the lists as the call leaves
    them and what it printed and commanded, or the exception that leaves
    it. *)
Definition hough_lines (height : Z) (lines : option (list (list Segment))) (b : Buffers)
    (started clock clock_after : Z) : Buffers * (Exception + list Output) :=
  let '(b', r) := draw_lines height lines b in
  match r with
  | Raise e => (b', inl e)
  | Return coors =>
      let '(direction, said) := choose_direction coors in
      let '(_, sent) := sendMotorCommand clock clock_after direction started in
      (b', inr (said ++ sent))
  end.

End LineDetSteering.

(** ** More vocabulary *)

Definition is_motor_command (o : Output) : bool :=
  match o with
  | Forward _ | Backward _ | TurnLeft _ | TurnRight _ | Stop => true
  | _ => false
  end.

(** The motor commands among the outputs of a run, in order. *)
Definition motor_commands (out : list Output) : list Output :=
  filter is_motor_command out.

(** The outputs of a run that are not motor commands, in order. *)
Definition console (out : list Output) : list Output :=
  filter (fun o => negb (is_motor_command o)) out.

(** A line of a capture loop: a distance or a failed grab. *)
Definition is_capture_line (o : Output) : bool :=
  match o with
  | PrintDistance _ _ _ _ | PrintGrabFailed _ => true
  | _ => false
  end.

(** The local variables of the approach loop of [NewDepthSensorTest.py]
    when its iteration [k] begins, and whether that iteration sends the
    forward command. *)
Definition approach_state (zed : list NewDepthSensorTest.Tick) (k : nat)
  : NewDepthSensorTest.Approach :=
  fold_left (fun s t => NewDepthSensorTest.approach_body t s) (firstn k zed)
    NewDepthSensorTest.approach_init.

Definition sends_at (zed : list NewDepthSensorTest.Tick) (k : nat) : bool :=
  match nth_error zed k with
  | Some t =>
      NewDepthSensorTest.command_due (NewDepthSensorTest.clock t)
        (NewDepthSensorTest.initialTime (approach_state zed k))
  | None => false
  end.

(** An infinity or not-a-number. *)
Definition not_finite (f : float) : bool :=
  match f with
  | S754_nan | S754_infinity _ => true
  | _ => false
  end.

(** A frame one row high with the given depths, in centimetres. *)
Definition row_frame (depths : list Z) : Mat :=
  {| get_width := len depths;
     get_height := 1;
     get_value := fun x _ => nth (Z.to_nat x) (map of_int depths) nan |}.


(** ** The corridor run of [DepthSensorTests.py] *)

Module DepthSensorCorridor.
Import DepthSensorTests DepthSensorRuns.

(** [abs] of a double. *)
Definition abs : float -> float := SFabs.

(** One call of [zed.grab] during the run: what a capture loop reads of
    it, and the first coordinate of [zed_pose.get_translation().get()]
    after it, a double. *)
Record Shot := { shot : Grab; translation : float }.

(** The outputs of the run: those of the other runs and the line
    ["Distance from start: ..."]. *)
Inductive Line :=
| Out (o : Output)
| PrintDistanceFromStart (distanceFromStart : float).

(** How the run ends on the given grabs: by [exit], at the end of the
    function, not at all, or by the [TypeError] of [None[0]]. *)
Inductive Ending := Exit (code : Z) | Ended | Unended | TypeError.

(** The calls of [zed.grab] that are left when a capture loop has left
    the grabs [rest]. *)
Definition left_of (zed : list Shot) (rest : list Grab) : list Shot :=
  skipn (length zed - length rest) zed.

(** [while distanceFromStart < 1000: ...].  Each iteration consumes at
    least three grabs, which bounds the number of iterations by the number
    of grabs; the fuel is that bound. *)
Fixpoint corridor (fuel : nat) (motor : bool) (initialTranslationData : option float)
    (distanceFromStart : float) (zed : list Shot) : list Line * Ending :=
  match fuel with
  | O => ([], Unended)
  | S fuel' =>
      if (distanceFromStart <? of_int 1000)%pf then
        let moving :=
          command motor (Forward FORWARD_SPEED) ++ [Print "Robot moving forward"%string] in
        let stopped := command motor Stop ++ [Print "Robot has stopped"%string] in
        match captureImagesUntilCloseToObstacle (map shot zed) with
        | Running s => (map Out (moving ++ printed s), Unended)
        | Returned s1 rest1 =>
            let zed1 := left_of zed rest1 in
            let obstacleX := x s1 in
            let imageWithCloseObstacle := image (buffers s1) in
            let turning :=
              if obstacle_on_left obstacleX imageWithCloseObstacle
              then command motor (TurnRight TURNING_SPEED)
                     ++ [Print "Robot turning right"%string]
              else command motor (TurnLeft TURNING_SPEED)
                     ++ [Print "Robot turning left"%string] in
            let before_clear := moving ++ printed s1 ++ stopped ++ turning in
            match captureImagesUntilClear (map shot zed1) with
            | Running s => (map Out (before_clear ++ printed s), Unended)
            | Returned s2 rest2 =>
                let zed2 := left_of zed1 rest2 in
                let cycle := map Out (before_clear ++ printed s2 ++ stopped) in
                match zed2 with
                | [] => (cycle, Unended)
                | g :: zed3 =>
                    if is_success (error (shot g)) then
                      match initialTranslationData with
                      | None => (cycle, TypeError)
                      | Some initial =>
                          let distanceFromStart' := abs (sub initial (translation g)) in
                          let '(later, ending) :=
                            corridor fuel' motor initialTranslationData
                              distanceFromStart' zed3 in
                          (cycle ++ PrintDistanceFromStart distanceFromStart' :: later, ending)
                      end
                    else
                      let '(later, ending) :=
                        corridor fuel' motor initialTranslationData distanceFromStart zed3 in
                      (cycle ++ later, ending)
                end
            end
        end
      else ([], Ended)
  end.

(** [err] is what [zed.enable_positional_tracking] returns. *)
Definition zigzagDownCorridorTest (motor : bool) (err : ERROR_CODE) (zed : list Shot)
  : list Line * Ending :=
  if is_success err then
    match zed with
    | [] => ([], Unended)
    | g :: zed' =>
        let initialTranslationData :=
          if is_success (error (shot g)) then Some (translation g) else None in
        corridor (S (length zed')) motor initialTranslationData (of_int 0) zed'
    end
  else ([], Exit 1).

End DepthSensorCorridor.


(** * Properties *)

(** ** Tactics *)

(** Settles the integer tests of the goal that linear arithmetic decides. *)
Ltac Ztest :=
  repeat match goal with
  | |- context [Z.gtb ?a ?b] =>
      first [ replace (Z.gtb a b) with true by (symmetry; apply Z.gtb_gt; lia)
            | replace (Z.gtb a b) with false
                by (symmetry; rewrite Z.gtb_ltb; apply Z.ltb_ge; lia) ]
  | |- context [Z.geb ?a ?b] =>
      first [ replace (Z.geb a b) with true
                by (symmetry; rewrite Z.geb_leb; apply Z.leb_le; lia)
            | replace (Z.geb a b) with false
                by (symmetry; rewrite Z.geb_leb; apply Z.leb_gt; lia) ]
  | |- context [Z.ltb ?a ?b] =>
      first [ replace (Z.ltb a b) with true by (symmetry; apply Z.ltb_lt; lia)
            | replace (Z.ltb a b) with false by (symmetry; apply Z.ltb_ge; lia) ]
  | |- context [Z.leb ?a ?b] =>
      first [ replace (Z.leb a b) with true by (symmetry; apply Z.leb_le; lia)
            | replace (Z.leb a b) with false by (symmetry; apply Z.leb_gt; lia) ]
  end.

(** ** The order of binary64 numbers *)

Lemma compare_cont_Eq (p q : positive) : Pos.compare_cont Eq p q = (p ?= q)%positive.
Proof. reflexivity. Qed.

(** Swapping the operands of an IEEE comparison flips its result. *)
Lemma SFcompare_swap (x y : float) :
  SFcompare y x = option_map CompOpp (SFcompare x y).
Proof.
  destruct x as [sx|sx| |sx mx ex], y as [sy|sy| |sy my ey]; simpl;
    try reflexivity;
    try (destruct sx; reflexivity); try (destruct sy; reflexivity);
    try (destruct sx, sy; reflexivity).
  rewrite !compare_cont_Eq, (Z.compare_antisym ex ey), (Pos.compare_antisym mx my).
  destruct sx, sy; simpl; try reflexivity;
    destruct (ex ?= ey); simpl; try reflexivity;
    destruct (mx ?= my)%positive; reflexivity.
Qed.

Lemma SFcompare_refl (x : float) :
  isnan x = false -> SFcompare x x = Some Eq.
Proof.
  destruct x as [s|s| |s m e]; simpl; try discriminate; intros _;
    try (destruct s; reflexivity).
  rewrite compare_cont_Eq, Z.compare_refl, Pos.compare_refl.
  destruct s; reflexivity.
Qed.

Lemma compare_cont_spec (p q : positive) :
  CompareSpec (p = q) (p < q)%positive (q < p)%positive (PosDef.Pos.compare_cont Eq p q).
Proof. exact (Pos.compare_spec p q). Qed.

Lemma SFcompare_lt_trans (x y z : float) :
  SFcompare x y = Some Lt -> SFcompare y z = Some Lt -> SFcompare x z = Some Lt.
Proof.
  destruct x as [sx|sx| |sx mx ex], y as [sy|sy| |sy my ey], z as [sz|sz| |sz mz ez];
    simpl; try discriminate;
    try (destruct sx; simpl; try discriminate);
    try (destruct sy; simpl; try discriminate);
    try (destruct sz; simpl; try discriminate);
    try reflexivity.
  all: destruct (Z.compare_spec ex ey), (Z.compare_spec ey ez), (Z.compare_spec ex ez);
    try lia; try discriminate; try reflexivity.
  all: destruct (compare_cont_spec mx my), (compare_cont_spec my mz), (compare_cont_spec mx mz);
    cbn [CompOpp]; try lia; try discriminate; try reflexivity.
Qed.

Lemma SFcompare_eq_trans (x y z : float) (c : comparison) :
  SFcompare x y = Some Eq -> SFcompare y z = Some c -> SFcompare x z = Some c.
Proof.
  destruct x as [sx|sx| |sx mx ex], y as [sy|sy| |sy my ey], z as [sz|sz| |sz mz ez];
    simpl; try discriminate;
    try (destruct sx; simpl; try discriminate);
    try (destruct sy; simpl; try discriminate);
    try (destruct sz; simpl; try discriminate);
    try (intros _ H; exact H).
  all: destruct (Z.compare_spec ex ey); try discriminate.
  all: destruct (compare_cont_spec mx my); try discriminate.
  all: subst; intros _ H; exact H.
Qed.

Lemma ltb_not_nan (x y : float) :
  (x <? y)%pf = true -> isnan x = false /\ isnan y = false.
Proof. destruct x, y; simpl; try discriminate; auto. Qed.

Lemma leb_not_nan (x y : float) :
  (x <=? y)%pf = true -> isnan x = false /\ isnan y = false.
Proof. destruct x, y; simpl; try discriminate; auto. Qed.

Lemma SFcompare_not_nan (x y : float) :
  isnan x = false -> isnan y = false -> exists c, SFcompare x y = Some c.
Proof. destruct x, y; simpl; try discriminate; eauto. Qed.

Lemma leb_refl (x : float) : isnan x = false -> (x <=? x)%pf = true.
Proof.
  intros H. unfold leb, SFleb. now rewrite (SFcompare_refl x H).
Qed.

(** On numbers, [x < y] is the negation of [y <= x]. *)
Lemma ltb_negb_leb (x y : float) :
  isnan x = false -> isnan y = false -> (x <? y)%pf = negb (y <=? x)%pf.
Proof.
  intros Hx Hy. unfold ltb, leb, SFltb, SFleb.
  rewrite (SFcompare_swap x y).
  destruct (SFcompare_not_nan x y Hx Hy) as [c ->]. now destruct c.
Qed.

Lemma ltb_leb (x y : float) : (x <? y)%pf = true -> (x <=? y)%pf = true.
Proof.
  unfold ltb, leb, SFltb, SFleb. destruct (SFcompare x y) as [[]|]; auto.
Qed.

Lemma ltb_trans (x y z : float) :
  (x <? y)%pf = true -> (y <? z)%pf = true -> (x <? z)%pf = true.
Proof.
  unfold ltb, SFltb. intros Hxy Hyz.
  destruct (SFcompare x y) as [[]|] eqn:E1; try discriminate.
  destruct (SFcompare y z) as [[]|] eqn:E2; try discriminate.
  now rewrite (SFcompare_lt_trans x y z E1 E2).
Qed.

Lemma leb_ltb_trans (x y z : float) :
  (x <=? y)%pf = true -> (y <? z)%pf = true -> (x <? z)%pf = true.
Proof.
  unfold leb, ltb, SFleb, SFltb. intros Hxy Hyz.
  destruct (SFcompare y z) as [[]|] eqn:E2; try discriminate.
  destruct (SFcompare x y) as [[]|] eqn:E1; try discriminate.
  - now rewrite (SFcompare_eq_trans x y z Lt E1 E2).
  - now rewrite (SFcompare_lt_trans x y z E1 E2).
Qed.

Lemma ltb_leb_trans (x y z : float) :
  (x <? y)%pf = true -> (y <=? z)%pf = true -> (x <? z)%pf = true.
Proof.
  intros Hxy Hyz.
  destruct (ltb_not_nan _ _ Hxy) as [Nx Ny], (leb_not_nan _ _ Hyz) as [_ Nz].
  rewrite (ltb_negb_leb x z Nx Nz). apply negb_true_iff.
  destruct (z <=? x)%pf eqn:E; [|reflexivity].
  pose proof (leb_ltb_trans z x y E Hxy) as Hzy.
  rewrite (ltb_negb_leb z y Nz Ny), Hyz in Hzy. discriminate.
Qed.

Lemma leb_trans (x y z : float) :
  (x <=? y)%pf = true -> (y <=? z)%pf = true -> (x <=? z)%pf = true.
Proof.
  intros Hxy Hyz.
  destruct (leb_not_nan _ _ Hxy) as [Nx Ny], (leb_not_nan _ _ Hyz) as [_ Nz].
  destruct (x <=? z)%pf eqn:E; [reflexivity|].
  assert (Hzx : (z <? x)%pf = true) by (rewrite (ltb_negb_leb z x Nz Nx), E; reflexivity).
  pose proof (leb_ltb_trans y z x Hyz Hzx) as Hyx.
  rewrite (ltb_negb_leb y x Ny Nx), Hxy in Hyx. discriminate.
Qed.

Lemma of_int_not_nan_300 : isnan (of_int 300) = false.
Proof. reflexivity. Qed.


(** ** Exact conversions and sums of integers below [2^53] *)

Lemma iter_pos_iter {A : Type} (f : A -> A) (n : positive) (x : A) :
  iter_pos f n x = Pos.iter f x n.
Proof.
  revert x. induction n as [n IH|n IH|]; intros x; cbn [iter_pos Pos.iter].
  - rewrite !IH. now rewrite <- !Pos.iter_swap.
  - now rewrite !IH.
  - reflexivity.
Qed.

Lemma shiftl_succ (p : positive) (n : N) :
  Pos.shiftl p (N.succ n) = xO (Pos.shiftl p n).
Proof.
  destruct n as [|n]; [reflexivity|].
  cbn [N.succ Pos.shiftl]. apply Pos.iter_succ.
Qed.

Lemma shiftl_value (p : positive) (n : N) :
  Zpos (Pos.shiftl p n) = Zpos p * 2 ^ Z.of_N n.
Proof.
  induction n as [|n IH] using N.peano_ind.
  - cbn. lia.
  - rewrite shiftl_succ, N2Z.inj_succ, Z.pow_succ_r by lia.
    rewrite Pos2Z.inj_xO, IH. lia.
Qed.

Lemma shiftl_digits (p : positive) (n : N) :
  Zpos (digits2_pos (Pos.shiftl p n)) = Zpos (digits2_pos p) + Z.of_N n.
Proof.
  induction n as [|n IH] using N.peano_ind.
  - cbn. lia.
  - rewrite shiftl_succ, N2Z.inj_succ. cbn [digits2_pos].
    rewrite Pos2Z.inj_succ, IH. lia.
Qed.

Lemma shiftl_shiftl (p : positive) (a b : N) :
  Pos.shiftl (Pos.shiftl p a) b = Pos.shiftl p (a + b).
Proof.
  induction b as [|b IH] using N.peano_ind.
  - now rewrite N.add_0_r.
  - now rewrite N.add_succ_r, !shiftl_succ, IH.
Qed.

Lemma shr_shiftl (M : positive) (q : positive) :
  iter_pos shr_1 q {| shr_m := Zpos (Pos.shiftl M (Npos q)); shr_r := false; shr_s := false |}
  = {| shr_m := Zpos M; shr_r := false; shr_s := false |}.
Proof.
  rewrite iter_pos_iter. cbn [Pos.shiftl].
  induction q as [|q IH] using Pos.peano_ind.
  - reflexivity.
  - rewrite Pos.iter_succ_r. rewrite (Pos.iter_succ q _ xO M). exact IH.
Qed.

(** A mantissa of 53 bits followed by [delta] zero bits rounds to itself. *)
Lemma binary_round_aux_shifted (s : bool) (M : positive) (delta : N) (e : Z) :
  Zpos (digits2_pos M) = 53 ->
  -1074 <= e + Z.of_N delta <= 971 ->
  binary_round_aux prec emax s (Zpos (Pos.shiftl M delta)) e loc_Exact
  = S754_finite s M (e + Z.of_N delta).
Proof.
  intros Hd He.
  unfold binary_round_aux, shr_fexp, fexp, emin, prec, emax.
  cbn [Zdigits2]. rewrite shiftl_digits, Hd.
  replace (Z.max (53 + Z.of_N delta + e - 53) (3 - 1024 - 53) - e) with (Z.of_N delta) by lia.
  cbn [shr_record_of_loc].
  assert (Hshr : shr {| shr_m := Zpos (Pos.shiftl M delta); shr_r := false; shr_s := false |}
                   e (Z.of_N delta)
                 = ({| shr_m := Zpos M; shr_r := false; shr_s := false |}, e + Z.of_N delta)).
  { destruct delta as [|q]; cbn [Z.of_N shr].
    - now rewrite Z.add_0_r.
    - now rewrite shr_shiftl. }
  rewrite Hshr. cbn [shr_m loc_of_shr_record round_nearest_even Zdigits2].
  rewrite Hd.
  replace (Z.max (53 + (e + Z.of_N delta) - 53) (3 - 1024 - 53) - (e + Z.of_N delta))
    with 0 by lia.
  cbn [shr_record_of_loc shr shr_m].
  Ztest. reflexivity.
Qed.

(** The canonical mantissa of a positive integer of at most 53 bits. *)


Lemma digits2_pos_le (p : positive) :
  forall n, 0 <= n -> Zpos p < 2 ^ n -> Zpos (digits2_pos p) <= n.
Proof.
  induction p as [p IH|p IH|]; intros n Hn Hp; cbn [digits2_pos].
  - assert (n <> 0) by (intros ->; cbn in Hp; lia).
    replace n with (Z.succ (n - 1)) in Hp by lia. rewrite Z.pow_succ_r in Hp by lia.
    specialize (IH (n - 1) ltac:(lia) ltac:(lia)). lia.
  - assert (n <> 0) by (intros ->; cbn in Hp; lia).
    replace n with (Z.succ (n - 1)) in Hp by lia. rewrite Z.pow_succ_r in Hp by lia.
    specialize (IH (n - 1) ltac:(lia) ltac:(lia)). lia.
  - assert (n <> 0) by (intros ->; cbn in Hp; lia). lia.
Qed.

Lemma binary_round_exact (s : bool) (p : positive) (k : N) :
  Zpos (digits2_pos p) <= 53 -> Z.of_N k <= 1000 ->
  binary_round prec emax s (Pos.shiftl p k) (- Z.of_N k)
  = S754_finite s (Pos.shiftl p (Z.to_N (53 - Zpos (digits2_pos p))))
      (Zpos (digits2_pos p) - 53).
Proof.
  intros Hd Hk. set (d := Zpos (digits2_pos p)) in *.
  set (M := Pos.shiftl p (Z.to_N (53 - d))).
  assert (HM : Zpos (digits2_pos M) = 53)
    by (unfold M; rewrite shiftl_digits, Z2N.id; fold d; lia).
  unfold binary_round, shl_align, fexp, emin, prec, emax.
  rewrite shiftl_digits. fold d.
  replace (Z.max (d + Z.of_N k + - Z.of_N k - 53) (3 - 1024 - 53)) with (d - 53) by lia.
  destruct (d - 53 - - Z.of_N k) as [|q|q] eqn:Hdelta; cbv beta iota;
    change (binary_round_aux 53 1024) with (binary_round_aux prec emax).
  - replace (Pos.shiftl p k) with (Pos.shiftl M 0).
    + rewrite (binary_round_aux_shifted s M 0 (- Z.of_N k) HM) by (cbn [Z.of_N]; lia).
      f_equal. cbn [Z.of_N]. lia.
    + cbn [Pos.shiftl]. unfold M. f_equal. lia.
  - replace (Pos.shiftl p k) with (Pos.shiftl M (Npos q)).
    + rewrite (binary_round_aux_shifted s M (Npos q) (- Z.of_N k) HM) by (cbn [Z.of_N]; lia).
      f_equal. cbn [Z.of_N]. lia.
    + unfold M. rewrite shiftl_shiftl. f_equal. lia.
  - change (Pos.iter xO (Pos.shiftl p k) q) with (Pos.shiftl (Pos.shiftl p k) (Npos q)).
    rewrite shiftl_shiftl.
    replace (k + Npos q)%N with (Z.to_N (53 - d)) by lia. fold M.
    change (Zpos M) with (Zpos (Pos.shiftl M 0)).
    rewrite (binary_round_aux_shifted s M 0 (d - 53) HM) by (cbn [Z.of_N]; lia).
    f_equal. cbn [Z.of_N]. lia.
Qed.

Lemma binary_round_int (s : bool) (p : positive) :
  Zpos (digits2_pos p) <= 53 ->
  binary_round prec emax s p 0
  = S754_finite s (Pos.shiftl p (Z.to_N (53 - Zpos (digits2_pos p))))
      (Zpos (digits2_pos p) - 53).
Proof.
  intros Hd.
  change (binary_round prec emax s p 0)
    with (binary_round prec emax s (Pos.shiftl p 0) (- Z.of_N 0)).
  apply binary_round_exact; [exact Hd | cbn [Z.of_N]; lia].
Qed.

(** [r * 2^k] at exponent [-k] is normalized to the double of [r]. *)
Lemma binary_normalize_exact (r : Z) (k : N) :
  r <> 0 -> Z.abs r < 2 ^ 53 -> Z.of_N k <= 1000 ->
  binary_normalize prec emax (r * 2 ^ Z.of_N k) (- Z.of_N k) false = of_int r.
Proof.
  intros Hr Hlt Hk. unfold of_int.
  destruct r as [|p|p]; [lia| |].
  - assert (Hd : Zpos (digits2_pos p) <= 53) by (apply digits2_pos_le; lia).
    rewrite <- shiftl_value. cbn [binary_normalize].
    now rewrite (binary_round_exact false p k Hd Hk), (binary_round_int false p Hd).
  - assert (Hd : Zpos (digits2_pos p) <= 53) by (apply digits2_pos_le; lia).
    change (Zneg p) with (- Zpos p). rewrite Z.mul_opp_l, <- shiftl_value.
    cbn [Z.opp binary_normalize].
    now rewrite (binary_round_exact true p k Hd Hk), (binary_round_int true p Hd).
Qed.

(** The double of a non-zero integer below [2^53]: sign, a mantissa and an
    exponent [e <= 0] such that the mantissa is [|n| * 2^(-e)]. *)
Lemma of_int_form (n : Z) :
  n <> 0 -> Z.abs n < 2 ^ 53 ->
  exists M e, of_int n = S754_finite (n <? 0) M e
              /\ -52 <= e <= 0 /\ cond_Zopp (n <? 0) (Zpos M) = n * 2 ^ (- e).
Proof.
  intros Hn Hlt. unfold of_int.
  destruct n as [|p|p]; [lia| |].
  - assert (Hd : Zpos (digits2_pos p) <= 53) by (apply digits2_pos_le; lia).
    cbn [binary_normalize]. rewrite (binary_round_int false p Hd).
    eexists _, _. split; [reflexivity|].
    pose proof (Pos2Z.is_pos (digits2_pos p)).
    split; [lia|]. cbn [Z.ltb Z.compare cond_Zopp].
    rewrite shiftl_value, Z2N.id by lia. f_equal. f_equal. lia.
  - assert (Hd : Zpos (digits2_pos p) <= 53) by (apply digits2_pos_le; lia).
    cbn [binary_normalize]. rewrite (binary_round_int true p Hd).
    eexists _, _. split; [reflexivity|].
    pose proof (Pos2Z.is_pos (digits2_pos p)).
    split; [lia|]. cbn [Z.ltb Z.compare cond_Zopp].
    rewrite shiftl_value, Z2N.id by lia.
    replace (- (Zpos (digits2_pos p) - 53)) with (53 - Zpos (digits2_pos p)) by lia. lia.
Qed.

Lemma shl_align_value (M : positive) (e ez : Z) :
  ez <= e -> Zpos (fst (shl_align M e ez)) = Zpos M * 2 ^ (e - ez).
Proof.
  intros Hle. unfold shl_align.
  destruct (ez - e) as [|q|q] eqn:Hq; cbn [fst]; try lia.
  - replace (e - ez) with 0 by lia. lia.
  - change (Pos.iter xO M q) with (Pos.shiftl M (Npos q)).
    rewrite shiftl_value. f_equal. f_equal. cbn [Z.of_N]. lia.
Qed.

Lemma cond_Zopp_mul (s : bool) (m k : Z) : cond_Zopp s (m * k) = cond_Zopp s m * k.
Proof. destruct s; cbn [cond_Zopp]; lia. Qed.

(** Doubles add integers exactly as long as everything stays below [2^53]. *)
Lemma add_of_int (a b : Z) :
  Z.abs a < 2 ^ 53 -> Z.abs b < 2 ^ 53 -> Z.abs (a + b) < 2 ^ 53 ->
  add (of_int a) (of_int b) = of_int (a + b).
Proof.
  intros Ha Hb Hab.
  destruct (Z.eq_dec a 0) as [->|Na].
  { destruct (Z.eq_dec b 0) as [->|Nb]; [reflexivity|]. rewrite Z.add_0_l.
    destruct (of_int_form b Nb Hb) as (M & e & Hf & _). rewrite Hf. reflexivity. }
  destruct (Z.eq_dec b 0) as [->|Nb].
  { rewrite Z.add_0_r.
    destruct (of_int_form a Na Ha) as (M & e & Hf & _). rewrite Hf. reflexivity. }
  destruct (of_int_form a Na Ha) as (Ma & ea & Hfa & Hea & Hva).
  destruct (of_int_form b Nb Hb) as (Mb & eb & Hfb & Heb & Hvb).
  rewrite Hfa, Hfb.
  unfold add, SFadd. set (ez := Z.min ea eb).
  rewrite !shl_align_value by lia. rewrite !cond_Zopp_mul, Hva, Hvb.
  replace (a * 2 ^ (- ea) * 2 ^ (ea - ez) + b * 2 ^ (- eb) * 2 ^ (eb - ez))
    with ((a + b) * 2 ^ Z.of_N (Z.to_N (- ez))).
  2:{ rewrite Z2N.id by lia. rewrite <- !Z.mul_assoc, <- !Z.pow_add_r by lia.
      replace (- ea + (ea - ez)) with (- ez) by lia.
      replace (- eb + (eb - ez)) with (- ez) by lia. lia. }
  destruct (Z.eq_dec (a + b) 0) as [->|Nab]; [reflexivity|].
  replace ez with (- Z.of_N (Z.to_N (- ez))) at 2 by (rewrite Z2N.id; lia).
  apply binary_normalize_exact; auto. rewrite Z2N.id; lia.
Qed.

(** Comparing an integer with the double of an integer below [2^53]
    compares the integers. *)
Lemma int_gtb_of_int (n k : Z) :
  Z.abs k < 2 ^ 53 -> int_gtb n (of_int k) = (n >? k).
Proof.
  intros Hk.
  destruct (Z.eq_dec k 0) as [->|Nk]; [reflexivity|].
  destruct (of_int_form k Nk Hk) as (M & e & Hf & He & Hv).
  rewrite Hf. unfold int_gtb.
  destruct (0 <=? e) eqn:H0.
  - apply Z.leb_le in H0. assert (e = 0) by lia. subst e.
    rewrite cond_Zopp_mul, Hv. cbn [Z.opp Z.pow]. f_equal. lia.
  - apply Z.leb_gt in H0. rewrite Hv.
    assert (Hpos : 0 < 2 ^ (- e)) by (apply Z.pow_pos_nonneg; lia).
    rewrite !Z.gtb_ltb.
    destruct (Z.ltb_spec k n), (Z.ltb_spec (k * 2 ^ (- e)) (n * 2 ^ (- e)));
      try reflexivity; nia.
Qed.

Lemma tenth_of_a_second :
  mul (of_int 1000000000) lit_0_1 = of_int 100000000.
Proof. vm_compute. reflexivity. Qed.

(** The literals are the correctly rounded quotients 1/10, 3/10 and
    65/100. *)
Lemma literals_nearest :
  lit_0_1 = div (of_int 1) (of_int 10) /\
  lit_0_3 = div (of_int 3) (of_int 10) /\
  lit_0_65 = div (of_int 65) (of_int 100).
Proof. repeat split; vm_compute; reflexivity. Qed.

(** ** Rounded conversions and sums of larger integers *)

Lemma digits2_pos_bounds (p : positive) :
  2 ^ (Zpos (digits2_pos p) - 1) <= Zpos p < 2 ^ Zpos (digits2_pos p).
Proof.
  induction p as [p IH|p IH|]; cbn [digits2_pos].
  - rewrite Pos2Z.inj_succ, (Pos2Z.inj_xI p).
    replace (Z.succ (Zpos (digits2_pos p)) - 1) with (Z.succ (Zpos (digits2_pos p) - 1)) by lia.
    rewrite !Z.pow_succ_r by lia.
    destruct IH as [IH1 IH2]. revert IH1 IH2.
    generalize (2 ^ (Zpos (digits2_pos p) - 1)) (2 ^ Zpos (digits2_pos p)). lia.
  - rewrite Pos2Z.inj_succ, (Pos2Z.inj_xO p).
    replace (Z.succ (Zpos (digits2_pos p)) - 1) with (Z.succ (Zpos (digits2_pos p) - 1)) by lia.
    rewrite !Z.pow_succ_r by lia.
    destruct IH as [IH1 IH2]. revert IH1 IH2.
    generalize (2 ^ (Zpos (digits2_pos p) - 1)) (2 ^ Zpos (digits2_pos p)). lia.
  - cbn. lia.
Qed.

Lemma digits2_pos_eq (p : positive) (n : Z) :
  2 ^ (n - 1) <= Zpos p < 2 ^ n -> Zpos (digits2_pos p) = n.
Proof.
  intros [Hlo Hhi]. pose proof (digits2_pos_bounds p) as [Blo Bhi].
  assert (Hn : 0 < n).
  { destruct (Z.lt_trichotomy n 0) as [H|[H|H]]; [| |exact H].
    - rewrite (Z.pow_neg_r 2 n H) in Hhi. lia.
    - subst n. cbn in Hhi. lia. }
  destruct (Z.lt_trichotomy (Zpos (digits2_pos p)) n) as [H|[H|H]]; [|exact H|].
  - assert (2 ^ Zpos (digits2_pos p) <= 2 ^ (n - 1)) by (apply Z.pow_le_mono_r; lia). lia.
  - assert (2 ^ n <= 2 ^ (Zpos (digits2_pos p) - 1)) by (apply Z.pow_le_mono_r; lia). lia.
Qed.

Lemma shr_1_half (r : shr_record) :
  0 <= shr_m r -> shr_m (shr_1 r) = shr_m r / 2.
Proof.
  destruct r as [m rb sb]. cbn [shr_m]. intros Hm.
  destruct m as [|[p|p|]|p]; cbn [shr_1 shr_m]; try lia.
  - reflexivity.
  - rewrite (Pos2Z.inj_xI p). apply Z.div_unique with 1; lia.
  - rewrite (Pos2Z.inj_xO p). apply Z.div_unique with 0; lia.
  - reflexivity.
Qed.

Lemma shr_iter_div (k : positive) (r : shr_record) :
  0 <= shr_m r -> shr_m (iter_pos shr_1 k r) = shr_m r / 2 ^ Zpos k.
Proof.
  intros Hm. rewrite iter_pos_iter.
  induction k as [|k IH] using Pos.peano_ind.
  - cbn [Pos.iter]. rewrite shr_1_half by exact Hm. reflexivity.
  - rewrite Pos.iter_succ, shr_1_half.
    + rewrite IH, Pos2Z.inj_succ, Z.pow_succ_r by lia.
      rewrite Z.div_div by (try apply Z.pow_pos_nonneg; lia). f_equal. lia.
    + rewrite IH. apply Z.div_pos; [exact Hm | apply Z.pow_pos_nonneg; lia].
Qed.

Lemma round_nearest_even_cases (m : Z) (l : location) :
  round_nearest_even m l = m \/ round_nearest_even m l = m + 1.
Proof. destruct l as [|[]]; cbn; auto. destruct (Z.even m); auto. Qed.

(** The second half of [binary_round_aux]: a mantissa between [2^52] and
    [2^53] is kept, the value [2^53] itself becoming [2^52] one exponent
    higher. *)
Lemma round_carry (s : bool) (p1 : positive) (e1 : Z) :
  2 ^ 52 <= Zpos p1 <= 2 ^ 53 -> -1074 <= e1 -> e1 + 1 <= 971 ->
  exists M e2,
    (let '(mrs, e2) := shr_fexp prec emax (Zpos p1) e1 loc_Exact in
     match shr_m mrs with
     | Z0 => S754_zero s
     | Zpos m => if e2 <=? emax - prec then S754_finite s m e2 else S754_infinity s
     | Zneg _ => S754_nan
     end) = S754_finite s M e2
    /\ e1 <= e2 /\ 2 ^ 52 <= Zpos M < 2 ^ 53 /\ Zpos M * 2 ^ (e2 - e1) = Zpos p1.
Proof.
  intros Hp He Hhi.
  destruct (Z.eq_dec (Zpos p1) (2 ^ 53)) as [Heq|Hne].
  - assert (p1 = 9007199254740992%positive) by (apply Pos2Z.inj; rewrite Heq; reflexivity).
    subst p1. exists 4503599627370496%positive, (e1 + 1).
    unfold shr_fexp, fexp, emin, prec, emax. cbn [Zdigits2 digits2_pos Pos.succ].
    replace (Z.max (54 + e1 - 53) (3 - 1024 - 53) - e1) with 1 by lia.
    cbn [shr_record_of_loc shr iter_pos shr_1 shr_m].
    Ztest.
    split; [reflexivity|]. split; [lia|]. split; [cbn; lia|].
    replace (e1 + 1 - e1) with 1 by lia. reflexivity.
  - assert (Hd : Zpos (digits2_pos p1) = 53) by (apply digits2_pos_eq; cbn; lia).
    exists p1, e1.
    unfold shr_fexp, fexp, emin, prec, emax. cbn [Zdigits2]. rewrite Hd.
    replace (Z.max (53 + e1 - 53) (3 - 1024 - 53) - e1) with 0 by lia.
    cbn [shr_record_of_loc shr shr_m].
    Ztest.
    split; [reflexivity|]. split; [lia|]. split; [lia|].
    rewrite Z.sub_diag. cbn [Z.pow]. lia.
Qed.

(** Rounding a mantissa of [dm >= 53] bits keeps a 53-bit mantissa whose
    value is off by at most [2^(dm - 53)] units. *)
Lemma binary_round_aux_bracket (s : bool) (m : positive) (e : Z) :
  53 <= Zpos (digits2_pos m) -> -1074 <= e ->
  e + (Zpos (digits2_pos m) - 53) + 1 <= 971 ->
  exists M e2,
    binary_round_aux prec emax s (Zpos m) e loc_Exact = S754_finite s M e2
    /\ e + (Zpos (digits2_pos m) - 53) <= e2
    /\ 2 ^ 52 <= Zpos M < 2 ^ 53
    /\ Z.abs (Zpos M * 2 ^ (e2 - e) - Zpos m) <= 2 ^ (Zpos (digits2_pos m) - 53).
Proof.
  intros Hd He Hhi. set (dm := Zpos (digits2_pos m)) in *. set (k := dm - 53).
  pose proof (digits2_pos_bounds m) as [Blo Bhi]. fold dm in Blo, Bhi.
  assert (Hk : 0 <= k) by (unfold k; lia).
  assert (H2k : 0 < 2 ^ k) by (apply Z.pow_pos_nonneg; lia).
  assert (Hsplit_lo : 2 ^ (dm - 1) = 2 ^ 52 * 2 ^ k)
    by (rewrite <- Z.pow_add_r by lia; f_equal; unfold k; lia).
  assert (Hsplit_hi : 2 ^ dm = 2 ^ 53 * 2 ^ k)
    by (rewrite <- Z.pow_add_r by lia; f_equal; unfold k; lia).
  set (q := Zpos m / 2 ^ k).
  assert (Hq : 2 ^ 52 <= q < 2 ^ 53).
  { unfold q. split.
    - apply Z.div_le_lower_bound; lia.
    - apply Z.div_lt_upper_bound; lia. }
  assert (Hqm : 0 <= Zpos m - q * 2 ^ k < 2 ^ k).
  { unfold q. pose proof (Z.mod_pos_bound (Zpos m) (2 ^ k) H2k) as Hmod.
    rewrite Z.mod_eq in Hmod by lia. lia. }
  unfold binary_round_aux.
  assert (Hfirst : shr_fexp prec emax (Zpos m) e loc_Exact
                   = (fst (shr_fexp prec emax (Zpos m) e loc_Exact), e + k)
                   /\ shr_m (fst (shr_fexp prec emax (Zpos m) e loc_Exact)) = q).
  { unfold shr_fexp, fexp, emin, prec, emax. cbn [Zdigits2]. fold dm.
    replace (Z.max (dm + e - 53) (3 - 1024 - 53) - e) with k by (unfold k; lia).
    cbn [shr_record_of_loc]. unfold shr.
    destruct k as [|kp|kp] eqn:Ek; try lia; cbn [fst].
    - split; [f_equal; lia|]. unfold q. cbn [shr_m Z.pow]. now rewrite Z.div_1_r.
    - split; [reflexivity|]. unfold q. now rewrite shr_iter_div by (cbn; lia). }
  destruct Hfirst as [Hpair Hm]. rewrite Hpair.
  set (mrs := fst (shr_fexp prec emax (Zpos m) e loc_Exact)) in *.
  rewrite Hm.
  destruct (round_nearest_even_cases q (loc_of_shr_record mrs)) as [Hr|Hr]; rewrite Hr.
  - destruct q as [|p1|p1] eqn:Eq; try (cbn in Hq; lia).
    destruct (round_carry s p1 (e + k)) as (M & e2 & Hres & He2 & HM & Hval);
      [lia | lia | unfold k; lia |].
    exists M, e2. split; [exact Hres|]. split; [exact He2|]. split; [exact HM|].
    replace (e2 - e) with ((e2 - (e + k)) + k) by lia.
    rewrite Z.pow_add_r, Z.mul_assoc, Hval by lia. fold k. lia.
  - destruct (q + 1) as [|p1|p1] eqn:Eq; try lia.
    destruct (round_carry s p1 (e + k)) as (M & e2 & Hres & He2 & HM & Hval);
      [lia | lia | unfold k; lia |].
    exists M, e2. split; [exact Hres|]. split; [exact He2|]. split; [exact HM|].
    replace (e2 - e) with ((e2 - (e + k)) + k) by lia.
    rewrite Z.pow_add_r, Z.mul_assoc, Hval by lia. fold k. lia.
Qed.

Lemma pow2_lt_exponent (a b : Z) : 0 <= b -> 2 ^ a < 2 ^ b -> a < b.
Proof.
  intros Hb H. destruct (Z.lt_ge_cases a b) as [Hlt|Hge]; [exact Hlt|].
  assert (2 ^ b <= 2 ^ a) by (apply Z.pow_le_mono_r; lia). lia.
Qed.

(** The double of an integer between [2^53] and [2^62] is off by at most
    [2^9]. *)
Lemma of_int_bracket (n : Z) :
  2 ^ 53 <= n < 2 ^ 62 ->
  exists M e, of_int n = S754_finite false M e
              /\ 1 <= e <= 10 /\ 2 ^ 52 <= Zpos M < 2 ^ 53
              /\ Z.abs (Zpos M * 2 ^ e - n) <= 2 ^ 9.
Proof.
  intros Hn. destruct n as [|p|p]; try (cbn in Hn; lia).
  pose proof (digits2_pos_bounds p) as [Blo Bhi].
  set (d := Zpos (digits2_pos p)) in *.
  assert (Hd_pos : 0 < d) by (unfold d; lia).
  assert (Hd_lo : 53 < d) by (apply pow2_lt_exponent; lia).
  assert (Hd_hi : d <= 62).
  { assert (Hd1 : d - 1 < 62) by (apply pow2_lt_exponent; lia). lia. }
  unfold of_int. cbn [binary_normalize]. unfold binary_round, shl_align, fexp, emin.
  fold d. change prec with 53. change emax with 1024.
  replace (Z.max (d + 0 - 53) (3 - 1024 - 53) - 0) with (d - 53) by lia.
  destruct (d - 53) as [|kp|kp] eqn:Hk; try lia.
  change (binary_round_aux 53 1024) with (binary_round_aux prec emax).
  pose proof (binary_round_aux_bracket false p 0) as Hbr. fold d in Hbr.
  destruct Hbr as (M & e & Hres & He & HM & Hval); try lia.
  exists M, e. split; [exact Hres|].
  rewrite Z.sub_0_r in Hval.
  assert (Hpow : 2 ^ (d - 53) <= 2 ^ 9) by (apply Z.pow_le_mono_r; lia).
  assert (He_hi : e < 11).
  { apply pow2_lt_exponent; [lia|].
    assert (H52 : 0 < 2 ^ 52) by (cbn; lia).
    assert (Hpos : 0 < 2 ^ e) by (apply Z.pow_pos_nonneg; lia).
    assert (Hup : Zpos M * 2 ^ e < 2 ^ 63) by (change (2 ^ 63) with (2 * 2 ^ 62); lia).
    change (2 ^ 11) with 2048. change (2 ^ 63) with (2 ^ 52 * 2048) in Hup. nia. }
  repeat split; try lia.
Qed.

Lemma of_int_interval : of_int 100000000 = S754_finite false 6710886400000000 (-26).
Proof. vm_compute. reflexivity. Qed.

(** The deadline [lastCommandTime + 1e8] for a time between [2^53] and
    [2^62]: a double of integral value, off by at most [2^9 + 2^11]. *)
Lemma deadline_bracket (last : Z) :
  2 ^ 53 <= last < 2 ^ 62 ->
  exists M e, add (of_int last) (of_int 100000000) = S754_finite false M e
              /\ 0 <= e
              /\ Z.abs (Zpos M * 2 ^ e - (last + 100000000)) <= 2 ^ 9 + 2 ^ 11.
Proof.
  intros Hl.
  destruct (of_int_bracket last Hl) as (Mx & ex & Hx & Hex & HMx & Hvx).
  rewrite Hx, of_int_interval. unfold add, SFadd.
  replace (Z.min ex (-26)) with (-26) by lia.
  rewrite !shl_align_value by lia. cbn [cond_Zopp].
  replace (-26 - -26) with 0 by lia. rewrite Z.pow_0_r, Z.mul_1_r.
  replace (ex - -26) with (ex + 26) by lia.
  assert (Hpex : 0 < 2 ^ ex) by (apply Z.pow_pos_nonneg; lia).
  assert (H26 : 2 ^ (ex + 26) = 2 ^ ex * 2 ^ 26) by (apply Z.pow_add_r; lia).
  destruct (Zpos Mx * 2 ^ (ex + 26) + 6710886400000000) as [|N|N] eqn:HN; try nia.
  cbn [binary_normalize]. unfold binary_round, shl_align, fexp, emin.
  pose proof (digits2_pos_bounds N) as [Blo Bhi].
  set (dN := Zpos (digits2_pos N)) in *.
  assert (HdN_pos : 0 < dN) by (unfold dN; lia).
  assert (HN_lo : 2 ^ 78 <= Zpos N).
  { rewrite <- HN, H26. change (2 ^ 78) with (2 ^ 52 * 2 ^ 26).
    assert (2 ^ 52 * 1 <= Zpos Mx * 2 ^ ex) by (apply Z.mul_le_mono_nonneg; lia).
    change (2 ^ 26) with 67108864 in *. lia. }
  assert (HN_hi : Zpos N < 2 ^ (ex + 80)).
  { rewrite <- HN, H26.
    replace (2 ^ (ex + 80)) with (2 ^ ex * 2 ^ 80) by (symmetry; apply Z.pow_add_r; lia).
    change (2 ^ 80) with (2 ^ 53 * 2 ^ 26 + 2 ^ 53 * 2 ^ 26).
    change (2 ^ 26) with 67108864 in *. change (2 ^ 53) with 9007199254740992 in *. nia. }
  assert (HdN_lo : 78 < dN) by (apply pow2_lt_exponent; lia).
  assert (HdN_hi : dN - 1 < ex + 80) by (apply pow2_lt_exponent; lia).
  change prec with 53. change emax with 1024.
  replace (Z.max (dN + -26 - 53) (3 - 1024 - 53) - -26) with (dN - 53) by lia.
  destruct (dN - 53) as [|kp|kp] eqn:Hk; try lia.
  change (binary_round_aux 53 1024) with (binary_round_aux prec emax).
  pose proof (binary_round_aux_bracket false N (-26)) as Hbr. fold dN in Hbr.
  destruct Hbr as (M & e & Hres & He & HM & Hval); try lia.
  exists M, e. split; [exact Hres|]. split; [lia|].
  replace (e - -26) with (e + 26) in Hval by lia.
  rewrite Z.pow_add_r in Hval by lia.
  assert (Hpow : 2 ^ (dN - 53) <= 2 ^ 11 * 2 ^ 26).
  { change (2 ^ 11 * 2 ^ 26) with (2 ^ 37). apply Z.pow_le_mono_r; lia. }
  rewrite <- HN, H26, !Z.mul_assoc in Hval.
  remember (Zpos M * 2 ^ e) as v eqn:Ev.
  remember (Zpos Mx * 2 ^ ex) as vx eqn:Evx.
  remember (2 ^ (dN - 53)) as w eqn:Ew.
  change (2 ^ 26) with 67108864 in *. change (2 ^ 9) with 512 in *.
  change (2 ^ 11) with 2048 in *.
  clear - Hval Hvx Hpow. lia.
Qed.

(** For clock readings of the size [time.time_ns()] returns (between [2^53]
    and [2^62] ns) the deadline is a rounded double: the test agrees with
    the exact comparison except within 2560 ns of the deadline. *)
Lemma command_due_bracket (now last : Z) :
  2 ^ 53 <= last < 2 ^ 62 ->
  (now - last > 100000000 + 2560 -> LineDet.command_due now last = true) /\
  (now - last < 100000000 - 2560 -> LineDet.command_due now last = false).
Proof.
  intros Hl. unfold LineDet.command_due.
  change (of_int LineDet.ONE_SECOND_DELAY) with (of_int 1000000000).
  rewrite tenth_of_a_second.
  destruct (deadline_bracket last Hl) as (M & e & -> & He & Hv).
  unfold int_gtb. Ztest.
  cbn [cond_Zopp]. change (2 ^ 9 + 2 ^ 11) with 2560 in Hv.
  split; intros H.
  - apply Z.gtb_gt. lia.
  - rewrite Z.gtb_ltb. apply Z.ltb_ge. lia.
Qed.

(** ** The signal conditioner *)

Lemma clipData_same (v lower upper : float) :
  NewDepthSensorTest.clipData v lower upper = DepthSensorTests.clipData v lower upper.
Proof. reflexivity. Qed.

(** C4.  For bounds [lower <= upper], [clipData] (the same function in both
    depth programs) returns [upper] when the value is not-a-number or above
    [upper], [lower] when it is below [lower], and the value itself
    otherwise; its result lies in [[lower, upper]] and clipping it again
    changes nothing. *)
Theorem clipData_contract (v lower upper : float) :
  (lower <=? upper)%pf = true ->
  let r := DepthSensorTests.clipData v lower upper in
  NewDepthSensorTest.clipData v lower upper = r /\
  (isnan v = true \/ (v >? upper)%pf = true -> r = upper) /\
  ((v <? lower)%pf = true -> r = lower) /\
  (isnan v = false -> (v >? upper)%pf = false -> (v <? lower)%pf = false -> r = v) /\
  ((lower <=? r)%pf = true /\ (r <=? upper)%pf = true) /\
  DepthSensorTests.clipData r lower upper = r.
Proof.
  intros Hb r.
  destruct (leb_not_nan _ _ Hb) as [Nl Nu].
  assert (Hul : (upper <? lower)%pf = false)
    by (rewrite (ltb_negb_leb _ _ Nu Nl), Hb; reflexivity).
  assert (Huu : (upper >? upper)%pf = false).
  { unfold gtb. fold (ltb upper upper).
    rewrite (ltb_negb_leb _ _ Nu Nu), (leb_refl _ Nu). reflexivity. }
  assert (Hll : (lower <? lower)%pf = false)
    by (rewrite (ltb_negb_leb _ _ Nl Nl), (leb_refl _ Nl); reflexivity).
  assert (Hlu : (lower >? upper)%pf = false).
  { unfold gtb. fold (ltb upper lower). exact Hul. }
  split; [reflexivity|].
  subst r. unfold DepthSensorTests.clipData.
  destruct (isnan v) eqn:Nv.
  - rewrite orb_true_r, Huu, Nu, Hul. cbn [orb].
    repeat split; auto using leb_refl; try discriminate.
    intros H. destruct v; discriminate.
  - rewrite orb_false_r.
    destruct (v >? upper)%pf eqn:Hgt.
    + rewrite Huu, Nu, Hul. cbn [orb].
      repeat split; auto using leb_refl; try discriminate.
      intros Hlt. unfold gtb in Hgt. fold (ltb upper v) in Hgt.
      pose proof (ltb_trans _ _ _ Hgt Hlt) as H. rewrite Hul in H. discriminate.
    + destruct (v <? lower)%pf eqn:Hlt.
      * rewrite Hlu, Nl, Hll. cbn [orb].
        repeat split; auto using leb_refl; try discriminate.
        intros [H|H]; discriminate.
      * rewrite Hgt, Nv, Hlt. cbn [orb].
        repeat split; auto; try discriminate.
        -- intros [H|H]; discriminate.
        -- rewrite (ltb_negb_leb _ _ Nv Nl) in Hlt. now apply negb_false_iff in Hlt.
        -- unfold gtb in Hgt. fold (ltb upper v) in Hgt.
           rewrite (ltb_negb_leb _ _ Nu Nv) in Hgt. now apply negb_false_iff in Hgt.
Qed.

Lemma clipData_contract_witness :
  (of_int 0 <=? of_int 300)%pf = true /\
  let r := DepthSensorTests.clipData nan (of_int 0) (of_int 300) in
  NewDepthSensorTest.clipData nan (of_int 0) (of_int 300) = r /\
  (isnan nan = true \/ (nan >? of_int 300)%pf = true -> r = of_int 300) /\
  ((nan <? of_int 0)%pf = true -> r = of_int 0) /\
  (isnan nan = false -> (nan >? of_int 300)%pf = false -> (nan <? of_int 0)%pf = false -> r = nan) /\
  ((of_int 0 <=? r)%pf = true /\ (r <=? of_int 300)%pf = true) /\
  DepthSensorTests.clipData r (of_int 0) (of_int 300) = r.
Proof.
  split; [reflexivity|].
  apply (clipData_contract nan (of_int 0) (of_int 300)). reflexivity.
Defined.

(** ** The index loops *)

Lemma scan_up_spec (p : float -> bool) (fuel : nat) (l : list float) :
  forall k, 0 <= k <= len l -> len l - k <= Z.of_nat fuel ->
  let r := scan_up p fuel l k in
  k <= r <= len l /\
  (forall j, k <= j < r -> p (item l j) = true) /\
  (r < len l -> p (item l r) = false).
Proof.
  induction fuel as [|fuel IH]; intros k Hk Hfuel; cbn [scan_up].
  - repeat split; try lia.
  - destruct (k <? len l) eqn:Hlt; cbn [andb].
    + apply Z.ltb_lt in Hlt.
      destruct (p (item l k)) eqn:Hp.
      * destruct (IH (k + 1)) as (Hr & Hbefore & Hat); try lia.
        repeat split; try lia; auto.
        intros j Hj. destruct (Z.eq_dec j k) as [->|Hne]; [exact Hp|].
        apply Hbefore. lia.
      * repeat split; try lia. intros _. exact Hp.
    + apply Z.ltb_ge in Hlt. repeat split; try lia.
Qed.

Lemma scan_down_spec (p : float -> bool) (fuel : nat) (l : list float) :
  forall k, -1 <= k -> k + 1 <= Z.of_nat fuel ->
  let r := scan_down p fuel l k in
  -1 <= r <= k /\
  (forall j, r < j <= k -> p (item l j) = true) /\
  (0 <= r -> p (item l r) = false).
Proof.
  induction fuel as [|fuel IH]; intros k Hk Hfuel; cbn [scan_down].
  - repeat split; try lia.
  - destruct (k >=? 0) eqn:Hge; cbn [andb].
    + apply Z.geb_le in Hge.
      destruct (p (item l k)) eqn:Hp.
      * destruct (IH (k - 1)) as (Hr & Hafter & Hat); try lia.
        repeat split; try lia; auto.
        intros j Hj. destruct (Z.eq_dec j k) as [->|Hne]; [exact Hp|].
        apply Hafter. lia.
      * repeat split; try lia. intros _. exact Hp.
    + rewrite Z.geb_leb in Hge. apply Z.leb_gt in Hge. repeat split; try lia.
Qed.

(** The three scans of the locators leave their loops by the loop
    condition, not for lack of fuel. *)
Lemma leftScan_exits (l : list float) :
  let leftBoundX := DepthSensorTests.leftScan (length l) l 0 in
  0 <= leftBoundX <= len l /\
  (leftBoundX <? len l) && (item l leftBoundX >=? of_int 300)%pf = false.
Proof.
  change (DepthSensorTests.leftScan (length l) l 0)
    with (scan_up (fun d => (d >=? of_int 300)%pf) (length l) l 0).
  destruct (scan_up_spec (fun d => (d >=? of_int 300)%pf) (length l) l 0)
    as (Hr & _ & Hat); [unfold len; lia | unfold len; lia |].
  split; [exact Hr|].
  destruct (Z.ltb_spec (scan_up (fun d => (d >=? of_int 300)%pf) (length l) l 0) (len l));
    [now rewrite Hat | reflexivity].
Qed.

Lemma forward_rightScan_exits (l : list float) (leftBoundX : Z) :
  0 <= leftBoundX < len l ->
  let rightBoundX := DepthSensorTests.rightScan (length l) l (leftBoundX + 1) in
  leftBoundX < rightBoundX <= len l /\
  (rightBoundX <? len l) && (item l rightBoundX <? of_int 300)%pf = false.
Proof.
  intros Hl.
  change (DepthSensorTests.rightScan (length l) l (leftBoundX + 1))
    with (scan_up (fun d => (d <? of_int 300)%pf) (length l) l (leftBoundX + 1)).
  destruct (scan_up_spec (fun d => (d <? of_int 300)%pf) (length l) l (leftBoundX + 1))
    as (Hr & _ & Hat); [lia | unfold len in *; lia |].
  split; [lia|].
  destruct (Z.ltb_spec
              (scan_up (fun d => (d <? of_int 300)%pf) (length l) l (leftBoundX + 1)) (len l));
    [now rewrite Hat | reflexivity].
Qed.

Lemma backward_rightScan_exits (l : list float) :
  let rightBoundX := NewDepthSensorTest.rightScan (length l) l (len l - 1) in
  -1 <= rightBoundX < len l /\
  (rightBoundX >=? 0) && (item l rightBoundX >=? of_int 300)%pf = false.
Proof.
  change (NewDepthSensorTest.rightScan (length l) l (len l - 1))
    with (scan_down (fun d => (d >=? of_int 300)%pf) (length l) l (len l - 1)).
  destruct (scan_down_spec (fun d => (d >=? of_int 300)%pf) (length l) l (len l - 1))
    as (Hr & _ & Hat); [unfold len; lia | unfold len; lia |].
  split; [lia|].
  destruct (scan_down (fun d => (d >=? of_int 300)%pf) (length l) l (len l - 1) >=? 0) eqn:Hge;
    [|reflexivity].
  rewrite Z.geb_leb in Hge. apply Z.leb_le in Hge. now rewrite Hat.
Qed.

(** ** The cleaned center row *)

Lemma clipData_not_nan (v lower upper : float) :
  isnan lower = false -> isnan upper = false ->
  isnan (DepthSensorTests.clipData v lower upper) = false.
Proof.
  intros Nl Nu. unfold DepthSensorTests.clipData.
  destruct (isnan v) eqn:Nv.
  - now rewrite orb_true_r.
  - rewrite orb_false_r. destruct (v >? upper)%pf; [exact Nu|].
    destruct (v <? lower)%pf; [exact Nl|exact Nv].
Qed.

Lemma len_range (n : Z) : len (range n) = Z.max 0 n.
Proof. unfold len, range. rewrite length_map, length_seq. lia. Qed.

Lemma item_map_range (g : Z -> float) (n j : Z) :
  0 <= j < n -> item (map g (range n)) j = g j.
Proof.
  intros Hj. unfold item, range. rewrite map_map.
  rewrite (nth_indep _ nan (g (Z.of_nat 0))) by (rewrite length_map, length_seq; lia).
  rewrite (map_nth (fun k => g (Z.of_nat k)) (seq 0 (Z.to_nat n)) 0%nat).
  rewrite seq_nth by lia. f_equal. lia.
Qed.

Lemma len_depthList (f : Mat) :
  len (DepthSensorTests.depthList f f) = Z.max 0 (get_width f).
Proof. unfold DepthSensorTests.depthList, len. rewrite length_map. apply len_range. Qed.

Lemma item_depthList (f : Mat) (j : Z) :
  0 <= j < get_width f ->
  item (DepthSensorTests.depthList f f) j =
  DepthSensorTests.clipData (get_value f j (int_half (get_height f))) (of_int 0) (of_int 300).
Proof. intros Hj. unfold DepthSensorTests.depthList. now rewrite item_map_range. Qed.

Lemma depthList_same (f : Mat) :
  NewDepthSensorTest.depthList f f = DepthSensorTests.depthList f f.
Proof. reflexivity. Qed.

Lemma item_depthList_not_nan (f : Mat) (j : Z) :
  0 <= j < get_width f -> isnan (item (DepthSensorTests.depthList f f) j) = false.
Proof. intros Hj. rewrite item_depthList by exact Hj. now apply clipData_not_nan. Qed.

(** On a cleaned row, [d >= 300] is the negation of [d < 300]. *)
Lemma item_depthList_geb (f : Mat) (j : Z) :
  0 <= j < get_width f ->
  (item (DepthSensorTests.depthList f f) j >=? of_int 300)%pf
  = negb (item (DepthSensorTests.depthList f f) j <? of_int 300)%pf.
Proof.
  intros Hj. pose proof (item_depthList_not_nan f j Hj) as N.
  unfold geb. fold (leb (of_int 300) (item (DepthSensorTests.depthList f f) j)).
  rewrite (ltb_negb_leb _ _ N of_int_not_nan_300). now rewrite negb_involutive.
Qed.

(** ** The obstacle locator on a single-pixel obstacle *)

Lemma int_half_odd (i : Z) : 0 <= i -> int_half (i + (i + 1)) = i.
Proof.
  intros Hi. unfold int_half. replace (i + (i + 1)) with (1 + i * 2) by lia.
  rewrite Z.quot_div_nonneg by lia. rewrite Z.div_add by lia. reflexivity.
Qed.

Lemma int_half_even (i : Z) : int_half (i + i) = i.
Proof.
  unfold int_half. replace (i + i) with (i * 2) by lia. apply Z.quot_mul. lia.
Qed.


(** C3, as stated, fails on [DepthSensorTests.py]: the only close pixel of
    [one_pixel_frame] is at index 1, and the forward scan of that program
    ends with [rightBoundX = 2], one past the pixel. *)
Lemma single_pixel_bounds_differ :
  (item (DepthSensorTests.depthList one_pixel_frame one_pixel_frame) 1 <? of_int 300)%pf = true /\
  (item (DepthSensorTests.depthList one_pixel_frame one_pixel_frame) 0 <? of_int 300)%pf = false /\
  (item (DepthSensorTests.depthList one_pixel_frame one_pixel_frame) 2 <? of_int 300)%pf = false /\
  exists leftBoundX rightBoundX,
    DepthSensorTests.obstacleBounds
      (DepthSensorTests.depthList one_pixel_frame one_pixel_frame)
    = Some (leftBoundX, rightBoundX) /\ leftBoundX <> rightBoundX.
Proof.
  repeat split; try reflexivity.
  exists 1, 2. split; [vm_compute; reflexivity | discriminate].
Qed.

(** C3, amended.  When exactly one index [i] of the cleaned center row is
    below [MAX_OBSTACLE_DEPTH], both programs return the center [(i, centerY)];
    the backward scan of [NewDepthSensorTest.py] ends with
    [leftBoundX = rightBoundX = i], the forward scan of [DepthSensorTests.py]
    with [leftBoundX = i] and [rightBoundX = i + 1]. *)
Theorem single_pixel_obstacle (f : Mat) (i : Z) :
  0 <= i < get_width f ->
  (item (DepthSensorTests.depthList f f) i <? of_int 300)%pf = true ->
  (forall j, 0 <= j < get_width f -> j <> i ->
     (item (DepthSensorTests.depthList f f) j <? of_int 300)%pf = false) ->
  NewDepthSensorTest.obstacleBounds (NewDepthSensorTest.depthList f f) = Some (i, i) /\
  NewDepthSensorTest.getCoordinatesOfCloseObstacle f f = Some (i, int_half (get_height f)) /\
  DepthSensorTests.obstacleBounds (DepthSensorTests.depthList f f) = Some (i, i + 1) /\
  DepthSensorTests.getCoordinatesOfCloseObstacle f f = Some (i, int_half (get_height f)).
Proof.
  intros Hi Hclose Hfar.
  set (l := DepthSensorTests.depthList f f) in *.
  assert (Hlen : len l = get_width f) by (unfold l; rewrite len_depthList; lia).
  assert (Hi_geb : (item l i >=? of_int 300)%pf = false)
    by (unfold l; rewrite item_depthList_geb by lia; fold l; rewrite Hclose; reflexivity).
  assert (Hfar_geb : forall j, 0 <= j < get_width f -> j <> i ->
            (item l j >=? of_int 300)%pf = true).
  { intros j Hj Hne. unfold l. rewrite item_depthList_geb by lia. fold l.
    rewrite Hfar by lia. reflexivity. }
  (* the left scan, the same loop in both programs, stops at [i] *)
  assert (Hleft : scan_up (fun d => (d >=? of_int 300)%pf) (length l) l 0 = i).
  { destruct (scan_up_spec (fun d => (d >=? of_int 300)%pf) (length l) l 0)
      as (Hr & Hbefore & Hat); [lia | unfold len in *; lia |].
    set (r := scan_up _ _ _ _) in *.
    destruct (Z.lt_trichotomy r i) as [Hlt | [Heq | Hgt]]; [| exact Heq |].
    - rewrite Hfar_geb in Hat by lia. specialize (Hat ltac:(lia)). discriminate.
    - specialize (Hbefore i ltac:(lia)). cbv beta in Hbefore.
      rewrite Hi_geb in Hbefore. discriminate. }
  (* the backward scan stops at [i] *)
  assert (Hdown : scan_down (fun d => (d >=? of_int 300)%pf) (length l) l (len l - 1) = i).
  { destruct (scan_down_spec (fun d => (d >=? of_int 300)%pf) (length l) l (len l - 1))
      as (Hr & Hafter & Hat); [lia | unfold len in *; lia |].
    set (r := scan_down _ _ _ _) in *.
    destruct (Z.lt_trichotomy r i) as [Hlt | [Heq | Hgt]]; [| exact Heq |].
    - specialize (Hafter i ltac:(lia)). cbv beta in Hafter.
      rewrite Hi_geb in Hafter. discriminate.
    - rewrite Hfar_geb in Hat by lia. specialize (Hat ltac:(lia)). discriminate. }
  (* the forward scan stops at [i + 1] *)
  assert (Hup : scan_up (fun d => (d <? of_int 300)%pf) (length l) l (i + 1) = i + 1).
  { destruct (length l) as [|n] eqn:Hn; [reflexivity|]. cbn [scan_up].
    destruct (i + 1 <? len l) eqn:Hin; [|reflexivity].
    apply Z.ltb_lt in Hin. rewrite Hfar by lia. reflexivity. }
  assert (Hnew : NewDepthSensorTest.obstacleBounds (NewDepthSensorTest.depthList f f)
                 = Some (i, i)).
  { rewrite depthList_same. fold l. unfold NewDepthSensorTest.obstacleBounds.
    change (NewDepthSensorTest.leftScan (length l) l 0)
      with (scan_up (fun d => (d >=? of_int 300)%pf) (length l) l 0).
    change (NewDepthSensorTest.rightScan (length l) l (len l - 1))
      with (scan_down (fun d => (d >=? of_int 300)%pf) (length l) l (len l - 1)).
    rewrite Hleft, Hdown.
    Ztest. reflexivity. }
  assert (Hold : DepthSensorTests.obstacleBounds l = Some (i, i + 1)).
  { unfold DepthSensorTests.obstacleBounds.
    change (DepthSensorTests.leftScan (length l) l 0)
      with (scan_up (fun d => (d >=? of_int 300)%pf) (length l) l 0).
    rewrite Hleft.
    change (DepthSensorTests.rightScan (length l) l (i + 1))
      with (scan_up (fun d => (d <? of_int 300)%pf) (length l) l (i + 1)).
    rewrite Hup.
    Ztest. reflexivity. }
  repeat split.
  - exact Hnew.
  - unfold NewDepthSensorTest.getCoordinatesOfCloseObstacle.
    rewrite Hnew, int_half_even. reflexivity.
  - exact Hold.
  - unfold DepthSensorTests.getCoordinatesOfCloseObstacle. fold l.
    rewrite Hold, int_half_odd by lia. reflexivity.
Qed.

Lemma single_pixel_obstacle_witness :
  0 <= 1 < get_width one_pixel_frame /\
  (item (DepthSensorTests.depthList one_pixel_frame one_pixel_frame) 1 <? of_int 300)%pf = true /\
  (forall j, 0 <= j < get_width one_pixel_frame -> j <> 1 ->
     (item (DepthSensorTests.depthList one_pixel_frame one_pixel_frame) j <? of_int 300)%pf = false) /\
  NewDepthSensorTest.obstacleBounds
    (NewDepthSensorTest.depthList one_pixel_frame one_pixel_frame) = Some (1, 1) /\
  NewDepthSensorTest.getCoordinatesOfCloseObstacle one_pixel_frame one_pixel_frame
    = Some (1, int_half (get_height one_pixel_frame)) /\
  DepthSensorTests.obstacleBounds
    (DepthSensorTests.depthList one_pixel_frame one_pixel_frame) = Some (1, 1 + 1) /\
  DepthSensorTests.getCoordinatesOfCloseObstacle one_pixel_frame one_pixel_frame
    = Some (1, int_half (get_height one_pixel_frame)).
Proof.
  assert (H1 : 0 <= 1 < get_width one_pixel_frame) by (cbn; lia).
  assert (H2 : (item (DepthSensorTests.depthList one_pixel_frame one_pixel_frame) 1
                  <? of_int 300)%pf = true) by reflexivity.
  assert (H3 : forall j, 0 <= j < get_width one_pixel_frame -> j <> 1 ->
     (item (DepthSensorTests.depthList one_pixel_frame one_pixel_frame) j <? of_int 300)%pf = false).
  { intros j Hj Hne. cbn in Hj.
    assert (Hc : j = 0 \/ j = 2) by lia. destruct Hc as [-> | ->]; reflexivity. }
  split; [exact H1|]. split; [exact H2|]. split; [exact H3|].
  exact (single_pixel_obstacle one_pixel_frame 1 H1 H2 H3).
Defined.

(** ** Loops *)

Lemma while_exit {I S : Type} (cond : S -> bool) (body : I -> S -> S) (inputs : list I) (s : S) :
  cond s = false -> while cond body inputs s = Returned s inputs.
Proof. intros H. destruct inputs; cbn [while]; now rewrite H. Qed.

Lemma while_step {I S : Type} (cond : S -> bool) (body : I -> S -> S)
    (i : I) (rest : list I) (s : S) :
  cond s = true -> while cond body (i :: rest) s = while cond body rest (body i s).
Proof. intros H. cbn [while]. now rewrite H. Qed.

(** ** The capture loops of [DepthSensorTests.py] *)

Lemma depthValue_capture_body (g : Grab) (s : DepthSensorTests.Capture) :
  DepthSensorTests.depthValue (DepthSensorTests.capture_body g s) = sample g.
Proof.
  unfold DepthSensorTests.capture_body, sample, DepthSensorTests.captureImageAndCheckForObstacle.
  destruct (is_success (error g)); cbn [DepthSensorTests.image DepthSensorTests.depth_matrix].
  - destruct (DepthSensorTests.getCoordinatesOfCloseObstacle (frame g) (frame g)) as [[? ?]|];
      reflexivity.
  - reflexivity.
Qed.

Lemma sample_not_nan (g : Grab) (d : float) : sample g = Some d -> isnan d = false.
Proof.
  unfold sample, DepthSensorTests.captureImageAndCheckForObstacle.
  destruct (is_success (error g)); cbn [DepthSensorTests.image DepthSensorTests.depth_matrix].
  - destruct (DepthSensorTests.getCoordinatesOfCloseObstacle (frame g) (frame g)) as [[? ?]|];
      intros H; injection H as <-; now apply clipData_not_nan.
  - discriminate.
Qed.

Lemma capture_loop_returns (cond : DepthSensorTests.Capture -> bool) (keep : float -> bool) :
  (forall s, cond s = match DepthSensorTests.depthValue s with
                      | None => true | Some d => keep d end) ->
  forall (zed : list Grab) (k : nat) (g : Grab) (d : float) (s : DepthSensorTests.Capture),
  cond s = true ->
  nth_error zed k = Some g -> sample g = Some d -> keep d = false ->
  (forall j g' d', (j < k)%nat -> nth_error zed j = Some g' -> sample g' = Some d' ->
                   keep d' = true) ->
  exists s', while cond DepthSensorTests.capture_body zed s = Returned s' (skipn (S k) zed)
             /\ DepthSensorTests.depthValue s' = Some d.
Proof.
  intros Hcond zed. induction zed as [|g0 zed IH]; intros k g d s Hs Hk Hd Hstop Hearlier.
  - destruct k; discriminate.
  - rewrite while_step by exact Hs.
    destruct k as [|k]; cbn [nth_error] in Hk.
    + injection Hk as ->. exists (DepthSensorTests.capture_body g s).
      rewrite while_exit.
      * split; [reflexivity | now rewrite depthValue_capture_body].
      * now rewrite Hcond, depthValue_capture_body, Hd.
    + apply (IH k g d); auto.
      * rewrite Hcond, depthValue_capture_body.
        destruct (sample g0) as [d0|] eqn:E0; [|reflexivity].
        apply (Hearlier 0%nat g0 d0); [lia | reflexivity | exact E0].
      * intros j g' d' Hj. apply (Hearlier (S j)). lia.
Qed.

Lemma capture_loop_runs (cond : DepthSensorTests.Capture -> bool) (keep : float -> bool) :
  (forall s, cond s = match DepthSensorTests.depthValue s with
                      | None => true | Some d => keep d end) ->
  forall (zed : list Grab) (s : DepthSensorTests.Capture),
  cond s = true ->
  (forall j g' d', nth_error zed j = Some g' -> sample g' = Some d' -> keep d' = true) ->
  exists s', while cond DepthSensorTests.capture_body zed s = Running s'.
Proof.
  intros Hcond zed. induction zed as [|g0 zed IH]; intros s Hs Hall.
  - exists s. cbn [while]. now rewrite Hs.
  - rewrite while_step by exact Hs. apply IH.
    + rewrite Hcond, depthValue_capture_body.
      destruct (sample g0) as [d0|] eqn:E0; [|reflexivity].
      apply (Hall 0%nat g0 d0); [reflexivity | exact E0].
    + intros j g' d'. apply (Hall (S j)).
Qed.

(** ** The capture loops of [NewDepthSensorTest.py] *)

(** A loop that keeps its last reading in a variable and goes on while
    [keep] holds of it returns at the first input whose sample ends
    [keep], with that sample as its reading. *)
Section ReadingLoop.
Context {I State : Type}.
Variables (cond : State -> bool) (body : I -> State -> State).
Variables (reading : State -> float) (taken : I -> option float) (keep : float -> bool).
Hypothesis cond_keep : forall s, cond s = keep (reading s).
Hypothesis reading_body :
  forall i s, reading (body i s) = match taken i with Some d => d | None => reading s end.

Lemma reading_loop_returns (zed : list I) :
  forall (k : nat) (i : I) (d : float) (s : State),
  cond s = true ->
  nth_error zed k = Some i -> taken i = Some d -> keep d = false ->
  (forall j i' d', (j < k)%nat -> nth_error zed j = Some i' -> taken i' = Some d' ->
                   keep d' = true) ->
  exists s', while cond body zed s = Returned s' (skipn (S k) zed) /\ reading s' = d.
Proof.
  induction zed as [|i0 zed IH]; intros k i d s Hs Hk Hd Hstop Hearlier.
  - destruct k; discriminate.
  - rewrite while_step by exact Hs.
    destruct k as [|k]; cbn [nth_error] in Hk.
    + injection Hk as ->. exists (body i s).
      rewrite while_exit.
      * split; [reflexivity | now rewrite reading_body, Hd].
      * now rewrite cond_keep, reading_body, Hd.
    + apply (IH k i d); auto.
      * rewrite cond_keep, reading_body.
        destruct (taken i0) as [d0|] eqn:E0; [|now rewrite <- cond_keep].
        apply (Hearlier 0%nat i0 d0); [lia | reflexivity | exact E0].
      * intros j i' d' Hj. apply (Hearlier (S j)). lia.
Qed.

Lemma reading_loop_runs (zed : list I) :
  forall (s : State),
  cond s = true ->
  (forall j i' d', nth_error zed j = Some i' -> taken i' = Some d' -> keep d' = true) ->
  exists s', while cond body zed s = Running s'.
Proof.
  induction zed as [|i0 zed IH]; intros s Hs Hall.
  - exists s. cbn [while]. now rewrite Hs.
  - rewrite while_step by exact Hs. apply IH.
    + rewrite cond_keep, reading_body.
      destruct (taken i0) as [d0|] eqn:E0; [|now rewrite <- cond_keep].
      apply (Hall 0%nat i0 d0); [reflexivity | exact E0].
    + intros j i' d'. apply (Hall (S j)).
Qed.

End ReadingLoop.

Lemma measure_new_sample (g : Grab) (d : float) (b : NewDepthSensorTest.Buffers) :
  fst (fst (NewDepthSensorTest.grab_and_measure g d b))
  = match new_sample g with Some d' => d' | None => d end.
Proof.
  unfold new_sample, NewDepthSensorTest.grab_and_measure.
  destruct (is_success (error g));
    cbn [NewDepthSensorTest.image NewDepthSensorTest.depth_matrix].
  - destruct (NewDepthSensorTest.getCoordinatesOfCloseObstacle (frame g) (frame g))
      as [[? ?]|]; reflexivity.
  - reflexivity.
Qed.

Lemma depthValue_approach_body (t : NewDepthSensorTest.Tick) (s : NewDepthSensorTest.Approach) :
  NewDepthSensorTest.depthValue (NewDepthSensorTest.approach_body t s)
  = match new_sample (NewDepthSensorTest.grab t) with
    | Some d => d
    | None => NewDepthSensorTest.depthValue s
    end.
Proof.
  rewrite <- (measure_new_sample _ _ (NewDepthSensorTest.buffers s)).
  unfold NewDepthSensorTest.approach_body.
  destruct (NewDepthSensorTest.grab_and_measure _ _ _) as [[d b] o]. reflexivity.
Qed.

Lemma depthValue_clear_body (g : Grab) (s : NewDepthSensorTest.Clear) :
  NewDepthSensorTest.clear_depthValue (NewDepthSensorTest.clear_body g s)
  = match new_sample g with
    | Some d => d
    | None => NewDepthSensorTest.clear_depthValue s
    end.
Proof.
  rewrite <- (measure_new_sample _ _ (NewDepthSensorTest.clear_buffers s)).
  unfold NewDepthSensorTest.clear_body.
  destruct (NewDepthSensorTest.grab_and_measure _ _ _) as [[d b] o]. reflexivity.
Qed.

Lemma new_sample_not_nan (g : Grab) (d : float) : new_sample g = Some d -> isnan d = false.
Proof.
  unfold new_sample, NewDepthSensorTest.grab_and_measure.
  destruct (is_success (error g));
    cbn [NewDepthSensorTest.image NewDepthSensorTest.depth_matrix].
  - destruct (NewDepthSensorTest.getCoordinatesOfCloseObstacle (frame g) (frame g))
      as [[? ?]|]; intros H; injection H as <-; now apply clipData_not_nan.
  - discriminate.
Qed.

(** ** The hysteresis gate *)

Lemma gtb_negb_leb (d t : float) :
  isnan d = false -> isnan t = false -> (d >? t)%pf = negb (d <=? t)%pf.
Proof. intros Nd Nt. unfold gtb. fold (ltb t d). now apply ltb_negb_leb. Qed.

Lemma ltb_negb_geb (d t : float) :
  isnan d = false -> isnan t = false -> (d <? t)%pf = negb (d >=? t)%pf.
Proof. intros Nd Nt. unfold geb. fold (leb t d). now apply ltb_negb_leb. Qed.

(** C1, amended.  In [DepthSensorTests.py], whose bounds are 100 and 125,
    the approach loop returns exactly at the first sample that is at most
    100, whatever the earlier samples are, and keeps running when there is
    none; on the samples 150, 140, 120, 95 it returns at the fourth.  The
    clear loop returns at the first sample that is at least 125, and
    100 < 125.  [NewDepthSensorTest.py] has no such pair of bounds: its
    approach loop returns exactly at the first sample that is at most its
    one [THRESHOLD_DISTANCE], 150, and keeps running when there is none, so
    on the samples 150, 140, 120, 95 it returns at the first; its clear
    loop returns at the first sample that is at least the same 150. *)
Theorem hysteresis_gate :
  (forall (zed : list Grab) (k : nat) (g : Grab) (d : float),
     nth_error zed k = Some g -> sample g = Some d ->
     (d <=? of_int DepthSensorTests.MIN_THRESHOLD_DISTANCE)%pf = true ->
     (forall j g' d', (j < k)%nat -> nth_error zed j = Some g' -> sample g' = Some d' ->
        (d' <=? of_int DepthSensorTests.MIN_THRESHOLD_DISTANCE)%pf = false) ->
     exists s,
       DepthSensorTests.captureImagesUntilCloseToObstacle zed = Returned s (skipn (S k) zed)
       /\ DepthSensorTests.depthValue s = Some d) /\
  (forall (zed : list Grab),
     (forall j g d, nth_error zed j = Some g -> sample g = Some d ->
        (d <=? of_int DepthSensorTests.MIN_THRESHOLD_DISTANCE)%pf = false) ->
     exists s, DepthSensorTests.captureImagesUntilCloseToObstacle zed = Running s) /\
  (forall (later : list Grab),
     map sample (map grabbed (map flat_frame [150; 140; 120; 95]))
       = map Some (map of_int [150; 140; 120; 95]) /\
     exists s,
       DepthSensorTests.captureImagesUntilCloseToObstacle
         (map grabbed (map flat_frame [150; 140; 120; 95]) ++ later) = Returned s later
       /\ DepthSensorTests.depthValue s = Some (of_int 95)) /\
  DepthSensorTests.MIN_THRESHOLD_DISTANCE < DepthSensorTests.MAX_THRESHOLD_DISTANCE /\
  (forall (zed : list Grab) (k : nat) (g : Grab) (d : float),
     nth_error zed k = Some g -> sample g = Some d ->
     (d >=? of_int DepthSensorTests.MAX_THRESHOLD_DISTANCE)%pf = true ->
     (forall j g' d', (j < k)%nat -> nth_error zed j = Some g' -> sample g' = Some d' ->
        (d' >=? of_int DepthSensorTests.MAX_THRESHOLD_DISTANCE)%pf = false) ->
     exists s,
       DepthSensorTests.captureImagesUntilClear zed = Returned s (skipn (S k) zed)
       /\ DepthSensorTests.depthValue s = Some d) /\
  (forall (zed : list NewDepthSensorTest.Tick) (k : nat) (t : NewDepthSensorTest.Tick)
          (d : float),
     nth_error zed k = Some t -> new_sample (NewDepthSensorTest.grab t) = Some d ->
     (d <=? of_int NewDepthSensorTest.THRESHOLD_DISTANCE)%pf = true ->
     (forall j t' d', (j < k)%nat -> nth_error zed j = Some t' ->
        new_sample (NewDepthSensorTest.grab t') = Some d' ->
        (d' <=? of_int NewDepthSensorTest.THRESHOLD_DISTANCE)%pf = false) ->
     exists s,
       NewDepthSensorTest.captureImagesUntilCloseToObstacle zed = Returned s (skipn (S k) zed)
       /\ NewDepthSensorTest.depthValue s = d) /\
  (forall (zed : list NewDepthSensorTest.Tick),
     (forall j t d, nth_error zed j = Some t ->
        new_sample (NewDepthSensorTest.grab t) = Some d ->
        (d <=? of_int NewDepthSensorTest.THRESHOLD_DISTANCE)%pf = false) ->
     exists s, NewDepthSensorTest.captureImagesUntilCloseToObstacle zed = Running s) /\
  (forall (t1 t2 t3 t4 : NewDepthSensorTest.Tick) (later : list NewDepthSensorTest.Tick),
     map NewDepthSensorTest.grab [t1; t2; t3; t4]
       = map grabbed (map flat_frame [150; 140; 120; 95]) ->
     map new_sample (map NewDepthSensorTest.grab [t1; t2; t3; t4])
       = map Some (map of_int [150; 140; 120; 95]) /\
     exists s,
       NewDepthSensorTest.captureImagesUntilCloseToObstacle ([t1; t2; t3; t4] ++ later)
       = Returned s ([t2; t3; t4] ++ later)
       /\ NewDepthSensorTest.depthValue s = of_int 150) /\
  (forall (zed : list Grab) (k : nat) (g : Grab) (d : float),
     nth_error zed k = Some g -> new_sample g = Some d ->
     (d >=? of_int NewDepthSensorTest.THRESHOLD_DISTANCE)%pf = true ->
     (forall j g' d', (j < k)%nat -> nth_error zed j = Some g' -> new_sample g' = Some d' ->
        (d' >=? of_int NewDepthSensorTest.THRESHOLD_DISTANCE)%pf = false) ->
     exists s,
       NewDepthSensorTest.captureImagesUntilClear zed = Returned s (skipn (S k) zed)
       /\ NewDepthSensorTest.clear_depthValue s = d).
Proof.
  assert (Hnew : forall (zed : list NewDepthSensorTest.Tick) (k : nat)
                        (t : NewDepthSensorTest.Tick) (d : float),
     nth_error zed k = Some t -> new_sample (NewDepthSensorTest.grab t) = Some d ->
     (d <=? of_int NewDepthSensorTest.THRESHOLD_DISTANCE)%pf = true ->
     (forall j t' d', (j < k)%nat -> nth_error zed j = Some t' ->
        new_sample (NewDepthSensorTest.grab t') = Some d' ->
        (d' <=? of_int NewDepthSensorTest.THRESHOLD_DISTANCE)%pf = false) ->
     exists s,
       NewDepthSensorTest.captureImagesUntilCloseToObstacle zed = Returned s (skipn (S k) zed)
       /\ NewDepthSensorTest.depthValue s = d).
  { intros zed k t d Hk Hd Hle Hearlier.
    apply (reading_loop_returns NewDepthSensorTest.approaching NewDepthSensorTest.approach_body
             NewDepthSensorTest.depthValue (fun t => new_sample (NewDepthSensorTest.grab t))
             (fun d => (d >? of_int NewDepthSensorTest.THRESHOLD_DISTANCE)%pf))
      with (i := t); auto.
    - intros t0 s0. apply depthValue_approach_body.
    - rewrite gtb_negb_leb, Hle;
        [reflexivity | now apply (new_sample_not_nan (NewDepthSensorTest.grab t)) | reflexivity].
    - intros j t' d' Hj Ht' Hd'.
      rewrite gtb_negb_leb, (Hearlier j t' d'); auto.
      now apply (new_sample_not_nan (NewDepthSensorTest.grab t')). }
  assert (Happroach : forall (zed : list Grab) (k : nat) (g : Grab) (d : float),
     nth_error zed k = Some g -> sample g = Some d ->
     (d <=? of_int DepthSensorTests.MIN_THRESHOLD_DISTANCE)%pf = true ->
     (forall j g' d', (j < k)%nat -> nth_error zed j = Some g' -> sample g' = Some d' ->
        (d' <=? of_int DepthSensorTests.MIN_THRESHOLD_DISTANCE)%pf = false) ->
     exists s,
       DepthSensorTests.captureImagesUntilCloseToObstacle zed = Returned s (skipn (S k) zed)
       /\ DepthSensorTests.depthValue s = Some d).
  { intros zed k g d Hk Hd Hle Hearlier.
    apply (capture_loop_returns DepthSensorTests.approaching
             (fun d => (d >? of_int DepthSensorTests.MIN_THRESHOLD_DISTANCE)%pf))
      with (g := g); auto.
    - rewrite gtb_negb_leb, Hle; [reflexivity | now apply (sample_not_nan g) | reflexivity].
    - intros j g' d' Hj Hg' Hd'.
      rewrite gtb_negb_leb, (Hearlier j g' d'); auto.
      now apply (sample_not_nan g'). }
  split; [exact Happroach|].
  split.
  { intros zed Hall.
    apply (capture_loop_runs DepthSensorTests.approaching
             (fun d => (d >? of_int DepthSensorTests.MIN_THRESHOLD_DISTANCE)%pf)); auto.
    intros j g d Hg Hd.
    rewrite gtb_negb_leb, (Hall j g d); auto. now apply (sample_not_nan g). }
  split.
  { intros later. split; [reflexivity|].
    destruct (Happroach (map grabbed (map flat_frame [150; 140; 120; 95]) ++ later) 3%nat
                (grabbed (flat_frame 95)) (of_int 95)) as (s & Hs & Hd);
      try reflexivity.
    - intros [|[|[|j]]] g' d' Hj Hg' Hd'; try lia;
        cbn in Hg'; injection Hg' as <-; injection Hd' as <-; reflexivity.
    - exists s. split; [exact Hs | exact Hd]. }
  split; [reflexivity|].
  split.
  { intros zed k g d Hk Hd Hge Hearlier.
    apply (capture_loop_returns DepthSensorTests.blocked
             (fun d => (d <? of_int DepthSensorTests.MAX_THRESHOLD_DISTANCE)%pf))
      with (g := g); auto.
    - rewrite ltb_negb_geb, Hge; [reflexivity | now apply (sample_not_nan g) | reflexivity].
    - intros j g' d' Hj Hg' Hd'.
      rewrite ltb_negb_geb, (Hearlier j g' d'); auto.
      now apply (sample_not_nan g'). }
  split; [exact Hnew|].
  split.
  { intros zed Hall.
    apply (reading_loop_runs NewDepthSensorTest.approaching NewDepthSensorTest.approach_body
             NewDepthSensorTest.depthValue (fun t => new_sample (NewDepthSensorTest.grab t))
             (fun d => (d >? of_int NewDepthSensorTest.THRESHOLD_DISTANCE)%pf)); auto.
    - intros t0 s0. apply depthValue_approach_body.
    - intros j t d Ht Hd.
      rewrite gtb_negb_leb, (Hall j t d); auto.
      now apply (new_sample_not_nan (NewDepthSensorTest.grab t)). }
  split.
  { intros t1 t2 t3 t4 later Hgrabs.
    split; [rewrite Hgrabs; reflexivity|].
    cbn [map] in Hgrabs. injection Hgrabs as H1 H2 H3 H4.
    destruct (Hnew ([t1; t2; t3; t4] ++ later) 0%nat t1 (of_int 150)) as (s & Hs & Hd).
    - reflexivity.
    - rewrite H1. reflexivity.
    - reflexivity.
    - intros j t' d' Hj. lia.
    - exists s. split; [exact Hs | exact Hd]. }
  intros zed k g d Hk Hd Hge Hearlier.
  apply (reading_loop_returns NewDepthSensorTest.blocked NewDepthSensorTest.clear_body
           NewDepthSensorTest.clear_depthValue new_sample
           (fun d => (d <? of_int NewDepthSensorTest.THRESHOLD_DISTANCE)%pf))
    with (i := g); auto.
  - intros g0 s0. apply depthValue_clear_body.
  - rewrite ltb_negb_geb, Hge; [reflexivity | now apply (new_sample_not_nan g) | reflexivity].
  - intros j g' d' Hj Hg' Hd'.
    rewrite ltb_negb_geb, (Hearlier j g' d'); auto.
    now apply (new_sample_not_nan g').
Qed.

Lemma hysteresis_gate_witness :
  exists s,
    DepthSensorTests.captureImagesUntilCloseToObstacle
      (map grabbed (map flat_frame [150; 140; 120; 95; 90]))
    = Returned s [grabbed (flat_frame 90)]
    /\ DepthSensorTests.depthValue s = Some (of_int 95).
Proof.
  apply (proj1 hysteresis_gate
           (map grabbed (map flat_frame [150; 140; 120; 95; 90])) 3%nat
           (grabbed (flat_frame 95)) (of_int 95)); try reflexivity.
  intros [|[|[|j]]] g' d' Hj Hg' Hd'; try lia;
    cbn in Hg'; injection Hg' as <-; injection Hd' as <-; reflexivity.
Defined.

(** C1, as stated, fails in [NewDepthSensorTest.py], the second program it
    names: that program has no bounds 100 and 125, its two loops test the
    depth against the one [THRESHOLD_DISTANCE], and on the samples 150,
    140, 120, 95 its approach loop returns at the first sample, with the
    three others left unread, not at the fourth. *)
Lemma one_threshold_in_new_variant :
  (forall s, NewDepthSensorTest.approaching s
             = (NewDepthSensorTest.depthValue s >? of_int 150)%pf) /\
  (forall s, NewDepthSensorTest.blocked s
             = (NewDepthSensorTest.clear_depthValue s <? of_int 150)%pf) /\
  map new_sample (map grabbed (map flat_frame [150; 140; 120; 95]))
    = map Some (map of_int [150; 140; 120; 95]) /\
  exists s,
    NewDepthSensorTest.captureImagesUntilCloseToObstacle
      (map (tick 0) (map grabbed (map flat_frame [150; 140; 120; 95])))
    = Returned s (map (tick 0) (map grabbed (map flat_frame [140; 120; 95])))
    /\ NewDepthSensorTest.depthValue s = of_int 150
    /\ (of_int 150 <=? of_int 100)%pf = false.
Proof.
  split; [reflexivity|]. split; [reflexivity|]. split; [reflexivity|].
  eexists. repeat split; vm_compute; reflexivity.
Qed.

(** ** Frames without an obstacle *)

Lemma clipData_leb_upper (v lower upper : float) :
  (lower <=? upper)%pf = true ->
  (DepthSensorTests.clipData v lower upper <=? upper)%pf = true.
Proof.
  intros Hb. destruct (leb_not_nan _ _ Hb) as [Nl Nu].
  unfold DepthSensorTests.clipData.
  destruct (isnan v) eqn:Nv.
  - rewrite orb_true_r. now apply leb_refl.
  - rewrite orb_false_r. destruct (v >? upper)%pf eqn:Hgt; [now apply leb_refl|].
    destruct (v <? lower)%pf; [exact Hb|].
    rewrite gtb_negb_leb in Hgt by assumption. now apply negb_false_iff in Hgt.
Qed.

Lemma SFcompare_Eq_finite (x : float) (s : bool) (m : positive) (e : Z) :
  SFcompare x (S754_finite s m e) = Some Eq -> x = S754_finite s m e.
Proof.
  destruct x as [sx|sx| |sx mx ex]; simpl; try discriminate;
    try (destruct sx; discriminate); try (destruct s; discriminate).
  destruct sx, s; try discriminate;
    destruct (Z.compare_spec ex e); try discriminate;
    destruct (compare_cont_spec mx m); try discriminate; intros _; now subst.
Qed.

Lemma leb_antisym_finite (x : float) (s : bool) (m : positive) (e : Z) :
  (x <=? S754_finite s m e)%pf = true -> (S754_finite s m e <=? x)%pf = true ->
  x = S754_finite s m e.
Proof.
  unfold leb, SFleb. intros H1 H2. apply SFcompare_Eq_finite.
  rewrite (SFcompare_swap x) in H2.
  destruct (SFcompare x (S754_finite s m e)) as [[]|]; try discriminate; reflexivity.
Qed.

Lemma obstacleBounds_none_same (l : list float) :
  NewDepthSensorTest.obstacleBounds l = None <-> DepthSensorTests.obstacleBounds l = None.
Proof.
  unfold NewDepthSensorTest.obstacleBounds, DepthSensorTests.obstacleBounds.
  change (NewDepthSensorTest.leftScan (length l) l 0)
    with (DepthSensorTests.leftScan (length l) l 0).
  destruct (DepthSensorTests.leftScan (length l) l 0 >=? len l); split; auto; discriminate.
Qed.

Lemma getCoordinates_none_same (f : Mat) :
  NewDepthSensorTest.getCoordinatesOfCloseObstacle f f = None <->
  DepthSensorTests.getCoordinatesOfCloseObstacle f f = None.
Proof.
  unfold NewDepthSensorTest.getCoordinatesOfCloseObstacle,
    DepthSensorTests.getCoordinatesOfCloseObstacle.
  rewrite depthList_same.
  pose proof (obstacleBounds_none_same (DepthSensorTests.depthList f f)) as H.
  destruct H as [H1 H2].
  destruct (NewDepthSensorTest.obstacleBounds _) as [[? ?]|],
           (DepthSensorTests.obstacleBounds _) as [[? ?]|]; split; intros E;
    try discriminate; try reflexivity.
  - specialize (H2 eq_refl). discriminate.
  - specialize (H1 eq_refl). discriminate.
Qed.

(** When the locator finds nothing, every cleaned value of the center row
    is at least 300. *)
Lemma no_obstacle_all_far (f : Mat) (j : Z) :
  DepthSensorTests.getCoordinatesOfCloseObstacle f f = None ->
  0 <= j < get_width f ->
  (item (DepthSensorTests.depthList f f) j >=? of_int 300)%pf = true.
Proof.
  unfold DepthSensorTests.getCoordinatesOfCloseObstacle, DepthSensorTests.obstacleBounds.
  set (l := DepthSensorTests.depthList f f).
  change (DepthSensorTests.leftScan (length l) l 0)
    with (scan_up (fun d => (d >=? of_int 300)%pf) (length l) l 0).
  intros Hnone Hj.
  assert (Hlen : len l = get_width f) by (unfold l; rewrite len_depthList; lia).
  destruct (scan_up_spec (fun d => (d >=? of_int 300)%pf) (length l) l 0)
    as (Hr & Hbefore & _); [lia | unfold len in *; lia |].
  set (r := scan_up _ _ _ _) in *.
  destruct (r >=? len l) eqn:Hge; [|discriminate].
  rewrite Z.geb_leb in Hge. apply Z.leb_le in Hge.
  apply (Hbefore j). lia.
Qed.

Lemma int_half_in_row (w : Z) : 0 < w -> 0 <= int_half w < w.
Proof.
  intros Hw. unfold int_half. rewrite Z.quot_div_nonneg by lia.
  split; [apply Z.div_pos; lia | apply Z.div_lt; lia].
Qed.

(** ... so the cleaned value of the center pixel, which lies on that row,
    is 300. *)
Lemma no_obstacle_center_value (f : Mat) :
  0 < get_width f ->
  DepthSensorTests.getCoordinatesOfCloseObstacle f f = None ->
  DepthSensorTests.clipData
    (get_value f (int_half (get_width f)) (int_half (get_height f)))
    (of_int 0) (of_int 300) = of_int 300.
Proof.
  intros Hw Hnone.
  pose proof (int_half_in_row _ Hw) as Hc.
  pose proof (no_obstacle_all_far f _ Hnone Hc) as Hfar.
  rewrite item_depthList in Hfar by exact Hc.
  apply leb_antisym_finite; [|exact Hfar].
  now apply clipData_leb_upper.
Qed.

Lemma capture_without_obstacle (g : Grab) (b : DepthSensorTests.Buffers) :
  is_success (error g) = true ->
  0 < get_width (frame g) ->
  DepthSensorTests.getCoordinatesOfCloseObstacle (frame g) (frame g) = None ->
  DepthSensorTests.captureImageAndCheckForObstacle g b =
    ((Some (of_int 300), int_half (get_width (frame g)), int_half (get_height (frame g))),
     {| DepthSensorTests.image := frame g; DepthSensorTests.depth_matrix := frame g |},
     [PrintDistance (Some (timestamp g))
        (int_half (get_width (frame g))) (int_half (get_height (frame g))) (of_int 300)]).
Proof.
  intros Hok Hw Hnone. unfold DepthSensorTests.captureImageAndCheckForObstacle.
  rewrite Hok. cbn [DepthSensorTests.image DepthSensorTests.depth_matrix].
  rewrite Hnone.
  change (of_int DepthSensorTests.MIN_OBSTACLE_DEPTH) with (of_int 0).
  change (of_int DepthSensorTests.MAX_OBSTACLE_DEPTH) with (of_int 300).
  now rewrite (no_obstacle_center_value (frame g) Hw Hnone).
Qed.

Lemma measure_without_obstacle (g : Grab) (d : float) (b : NewDepthSensorTest.Buffers) :
  is_success (error g) = true ->
  0 < get_width (frame g) ->
  DepthSensorTests.getCoordinatesOfCloseObstacle (frame g) (frame g) = None ->
  NewDepthSensorTest.grab_and_measure g d b =
    (of_int 300,
     {| NewDepthSensorTest.image := frame g; NewDepthSensorTest.depth_matrix := frame g |},
     [PrintDistance None
        (int_half (get_width (frame g))) (int_half (get_height (frame g))) (of_int 300)]).
Proof.
  intros Hok Hw Hnone. unfold NewDepthSensorTest.grab_and_measure.
  rewrite Hok. cbn [NewDepthSensorTest.image NewDepthSensorTest.depth_matrix].
  rewrite (proj2 (getCoordinates_none_same (frame g)) Hnone).
  change (NewDepthSensorTest.clipData ?v (of_int NewDepthSensorTest.MIN_OBSTACLE_DEPTH)
            (of_int NewDepthSensorTest.MAX_OBSTACLE_DEPTH))
    with (DepthSensorTests.clipData v (of_int 0) (of_int 300)).
  now rewrite (no_obstacle_center_value (frame g) Hw Hnone).
Qed.

(** C10, as stated, fails: no approach loop can stop in an iteration whose
    frame (of positive width) has no obstacle region. *)
Lemma no_stop_without_obstacle :
  ~ (exists (g : Grab) (s : DepthSensorTests.Capture),
       is_success (error g) = true /\ 0 < get_width (frame g) /\
       DepthSensorTests.getCoordinatesOfCloseObstacle (frame g) (frame g) = None /\
       DepthSensorTests.approaching (DepthSensorTests.capture_body g s) = false) /\
  ~ (exists (t : NewDepthSensorTest.Tick) (s : NewDepthSensorTest.Approach),
       is_success (error (NewDepthSensorTest.grab t)) = true /\
       0 < get_width (frame (NewDepthSensorTest.grab t)) /\
       NewDepthSensorTest.getCoordinatesOfCloseObstacle
         (frame (NewDepthSensorTest.grab t)) (frame (NewDepthSensorTest.grab t)) = None /\
       NewDepthSensorTest.approaching (NewDepthSensorTest.approach_body t s) = false).
Proof.
  split.
  - intros (g & s & Hok & Hw & Hnone & Hstop).
    unfold DepthSensorTests.approaching, DepthSensorTests.capture_body in Hstop.
    rewrite (capture_without_obstacle g _ Hok Hw Hnone) in Hstop.
    discriminate.
  - intros (t & s & Hok & Hw & Hnone & Hstop).
    apply getCoordinates_none_same in Hnone.
    unfold NewDepthSensorTest.approaching, NewDepthSensorTest.approach_body in Hstop.
    rewrite (measure_without_obstacle _ _ _ Hok Hw Hnone) in Hstop.
    discriminate.
Qed.

(** C10, amended.  In an iteration whose grab succeeds on a frame of positive
    width and whose locator returns [None], both programs sample the depth
    at the center pixel [(width/2, height/2)] and clip it; that pixel lies
    on the scanned row, so the value is [MAX_OBSTACLE_DEPTH]: the approach
    loops go on and the clear loops stop. *)
Theorem center_pixel_fallback (g : Grab) :
  is_success (error g) = true ->
  0 < get_width (frame g) ->
  DepthSensorTests.getCoordinatesOfCloseObstacle (frame g) (frame g) = None ->
  let f := frame g in
  let cx := int_half (get_width f) in
  let cy := int_half (get_height f) in
  let reading := DepthSensorTests.clipData (get_value f cx cy) (of_int 0) (of_int 300) in
  NewDepthSensorTest.getCoordinatesOfCloseObstacle f f = None /\
  reading = of_int DepthSensorTests.MAX_OBSTACLE_DEPTH /\
  (forall b, DepthSensorTests.captureImageAndCheckForObstacle g b =
     ((Some reading, cx, cy),
      {| DepthSensorTests.image := f; DepthSensorTests.depth_matrix := f |},
      [PrintDistance (Some (timestamp g)) cx cy reading])) /\
  (forall s, DepthSensorTests.approaching (DepthSensorTests.capture_body g s) = true /\
             DepthSensorTests.blocked (DepthSensorTests.capture_body g s) = false) /\
  (forall d b, NewDepthSensorTest.grab_and_measure g d b =
     (reading,
      {| NewDepthSensorTest.image := f; NewDepthSensorTest.depth_matrix := f |},
      [PrintDistance None cx cy reading])) /\
  (forall t s, NewDepthSensorTest.grab t = g ->
     NewDepthSensorTest.approaching (NewDepthSensorTest.approach_body t s) = true) /\
  (forall s, NewDepthSensorTest.blocked (NewDepthSensorTest.clear_body g s) = false).
Proof.
  intros Hok Hw Hnone f cx cy reading.
  assert (Hreading : reading = of_int 300)
    by (apply no_obstacle_center_value; assumption).
  rewrite Hreading.
  split; [now apply getCoordinates_none_same|].
  split; [reflexivity|].
  split; [intros b; now apply capture_without_obstacle|].
  split.
  { intros s. unfold DepthSensorTests.approaching, DepthSensorTests.blocked,
      DepthSensorTests.capture_body.
    rewrite (capture_without_obstacle g _ Hok Hw Hnone). split; reflexivity. }
  split; [intros d b; now apply measure_without_obstacle|].
  split.
  { intros t s <-. unfold NewDepthSensorTest.approaching, NewDepthSensorTest.approach_body.
    rewrite (measure_without_obstacle _ _ _ Hok Hw Hnone). reflexivity. }
  intros s. unfold NewDepthSensorTest.blocked, NewDepthSensorTest.clear_body.
  rewrite (measure_without_obstacle _ _ _ Hok Hw Hnone). reflexivity.
Qed.

Lemma center_pixel_fallback_witness :
  is_success (error (grabbed (flat_frame 300))) = true /\
  0 < get_width (frame (grabbed (flat_frame 300))) /\
  DepthSensorTests.getCoordinatesOfCloseObstacle
    (frame (grabbed (flat_frame 300))) (frame (grabbed (flat_frame 300))) = None /\
  forall s, DepthSensorTests.approaching
              (DepthSensorTests.capture_body (grabbed (flat_frame 300)) s) = true /\
            DepthSensorTests.blocked
              (DepthSensorTests.capture_body (grabbed (flat_frame 300)) s) = false.
Proof.
  split; [reflexivity|]. split; [reflexivity|]. split; [reflexivity|].
  apply (center_pixel_fallback (grabbed (flat_frame 300))); reflexivity.
Defined.

(** ** Grab failures *)

(** C8.  In each of the four capture loops an iteration whose grab fails
    prints the failure, derives no depth value (the value becomes [None] in
    [DepthSensorTests.py] and stays what it was in [NewDepthSensorTest.py]),
    leaves the buffers alone, leaves the loop condition true, and the loop
    goes on with the next grab. *)
Theorem grab_failure_retries (g : Grab) :
  is_success (error g) = false ->
  (forall b, DepthSensorTests.captureImageAndCheckForObstacle g b =
     ((None, int_half (get_width (DepthSensorTests.image b)),
             int_half (get_height (DepthSensorTests.image b))),
      b, [PrintGrabFailed (error g)])) /\
  (forall s rest, DepthSensorTests.approaching s = true ->
     let s' := DepthSensorTests.capture_body g s in
     DepthSensorTests.depthValue s' = None /\
     DepthSensorTests.buffers s' = DepthSensorTests.buffers s /\
     DepthSensorTests.printed s' = DepthSensorTests.printed s ++ [PrintGrabFailed (error g)] /\
     DepthSensorTests.approaching s' = true /\
     while DepthSensorTests.approaching DepthSensorTests.capture_body (g :: rest) s
       = while DepthSensorTests.approaching DepthSensorTests.capture_body rest s') /\
  (forall s rest, DepthSensorTests.blocked s = true ->
     let s' := DepthSensorTests.capture_body g s in
     DepthSensorTests.depthValue s' = None /\
     DepthSensorTests.buffers s' = DepthSensorTests.buffers s /\
     DepthSensorTests.printed s' = DepthSensorTests.printed s ++ [PrintGrabFailed (error g)] /\
     DepthSensorTests.blocked s' = true /\
     while DepthSensorTests.blocked DepthSensorTests.capture_body (g :: rest) s
       = while DepthSensorTests.blocked DepthSensorTests.capture_body rest s') /\
  (forall t s rest, NewDepthSensorTest.grab t = g -> NewDepthSensorTest.approaching s = true ->
     let s' := NewDepthSensorTest.approach_body t s in
     NewDepthSensorTest.depthValue s' = NewDepthSensorTest.depthValue s /\
     NewDepthSensorTest.buffers s' = NewDepthSensorTest.buffers s /\
     NewDepthSensorTest.printed s' =
       NewDepthSensorTest.printed s
       ++ (if NewDepthSensorTest.command_due (NewDepthSensorTest.clock t)
                (NewDepthSensorTest.initialTime s)
           then [Forward 20] else [])
       ++ [PrintGrabFailed (error g)] /\
     NewDepthSensorTest.approaching s' = true /\
     while NewDepthSensorTest.approaching NewDepthSensorTest.approach_body (t :: rest) s
       = while NewDepthSensorTest.approaching NewDepthSensorTest.approach_body rest s') /\
  (forall s rest, NewDepthSensorTest.blocked s = true ->
     let s' := NewDepthSensorTest.clear_body g s in
     NewDepthSensorTest.clear_depthValue s' = NewDepthSensorTest.clear_depthValue s /\
     NewDepthSensorTest.clear_buffers s' = NewDepthSensorTest.clear_buffers s /\
     NewDepthSensorTest.clear_printed s' =
       NewDepthSensorTest.clear_printed s ++ [PrintGrabFailed (error g)] /\
     NewDepthSensorTest.blocked s' = true /\
     while NewDepthSensorTest.blocked NewDepthSensorTest.clear_body (g :: rest) s
       = while NewDepthSensorTest.blocked NewDepthSensorTest.clear_body rest s').
Proof.
  intros Hfail.
  assert (Hold : forall b, DepthSensorTests.captureImageAndCheckForObstacle g b =
     ((None, int_half (get_width (DepthSensorTests.image b)),
             int_half (get_height (DepthSensorTests.image b))),
      b, [PrintGrabFailed (error g)])).
  { intros b. unfold DepthSensorTests.captureImageAndCheckForObstacle. now rewrite Hfail. }
  assert (Hnew : forall d b, NewDepthSensorTest.grab_and_measure g d b =
                             (d, b, [PrintGrabFailed (error g)])).
  { intros d b. unfold NewDepthSensorTest.grab_and_measure. now rewrite Hfail. }
  split; [exact Hold|].
  split.
  { intros s rest Hs s'. subst s'. rewrite while_step by exact Hs.
    unfold DepthSensorTests.capture_body, DepthSensorTests.approaching.
    rewrite Hold. repeat split. }
  split.
  { intros s rest Hs s'. subst s'. rewrite while_step by exact Hs.
    unfold DepthSensorTests.capture_body, DepthSensorTests.blocked.
    rewrite Hold. repeat split. }
  split.
  { intros t s rest <- Hs s'. subst s'. rewrite while_step by exact Hs.
    unfold NewDepthSensorTest.approach_body, NewDepthSensorTest.approaching in *.
    rewrite Hnew. cbn [NewDepthSensorTest.depthValue NewDepthSensorTest.buffers
                       NewDepthSensorTest.printed].
    repeat split. exact Hs. }
  intros s rest Hs s'. subst s'. rewrite while_step by exact Hs.
  unfold NewDepthSensorTest.clear_body, NewDepthSensorTest.blocked in *.
  rewrite Hnew. cbn [NewDepthSensorTest.clear_depthValue NewDepthSensorTest.clear_buffers
                     NewDepthSensorTest.clear_printed].
  repeat split. exact Hs.
Qed.

Lemma grab_failure_retries_witness :
  is_success (error failed_grab) = false /\
  forall rest,
    while DepthSensorTests.approaching DepthSensorTests.capture_body
      (failed_grab :: rest) DepthSensorTests.capture_init
    = while DepthSensorTests.approaching DepthSensorTests.capture_body
        rest (DepthSensorTests.capture_body failed_grab DepthSensorTests.capture_init).
Proof.
  split; [reflexivity|].
  intros rest.
  apply (proj1 (proj2 (grab_failure_retries failed_grab eq_refl))
           DepthSensorTests.capture_init rest eq_refl).
Defined.

(** A run of failed grabs alone never ends a capture loop. *)
Lemma sample_failed (g : Grab) : is_success (error g) = false -> sample g = None.
Proof.
  intros H. unfold sample, DepthSensorTests.captureImageAndCheckForObstacle. now rewrite H.
Qed.

Lemma failures_never_return (zed : list Grab) :
  Forall (fun g => is_success (error g) = false) zed ->
  (exists s, DepthSensorTests.captureImagesUntilCloseToObstacle zed = Running s) /\
  (exists s, DepthSensorTests.captureImagesUntilClear zed = Running s) /\
  (exists s, NewDepthSensorTest.captureImagesUntilClear zed = Running s) /\
  (forall clocks, length clocks = length zed ->
     exists s, NewDepthSensorTest.captureImagesUntilCloseToObstacle
                 (map (fun '(now, g) => tick now g) (combine clocks zed)) = Running s).
Proof.
  intros Hfail. rewrite Forall_forall in Hfail.
  assert (Hnone : forall j g d, nth_error zed j = Some g -> sample g = Some d -> False).
  { intros j g d Hj Hd. rewrite sample_failed in Hd; [discriminate|].
    apply Hfail. eapply nth_error_In, Hj. }
  split.
  { apply (capture_loop_runs DepthSensorTests.approaching
             (fun d => (d >? of_int DepthSensorTests.MIN_THRESHOLD_DISTANCE)%pf));
      [reflexivity | reflexivity |].
    intros j g d Hj Hd. destruct (Hnone j g d Hj Hd). }
  split.
  { apply (capture_loop_runs DepthSensorTests.blocked
             (fun d => (d <? of_int DepthSensorTests.MAX_THRESHOLD_DISTANCE)%pf));
      [reflexivity | reflexivity |].
    intros j g d Hj Hd. destruct (Hnone j g d Hj Hd). }
  split.
  { unfold NewDepthSensorTest.captureImagesUntilClear.
    assert (Hs : NewDepthSensorTest.blocked NewDepthSensorTest.clear_init = true)
      by reflexivity.
    revert Hs. generalize NewDepthSensorTest.clear_init. clear Hnone.
    induction zed as [|g zed IH]; intros s Hs.
    - exists s. cbn [while]. now rewrite Hs.
    - rewrite while_step by exact Hs. apply IH.
      + intros g' Hg'. apply Hfail. now right.
      + unfold NewDepthSensorTest.blocked, NewDepthSensorTest.clear_body,
          NewDepthSensorTest.grab_and_measure in *.
        rewrite (Hfail g (or_introl eq_refl)). exact Hs. }
  intros clocks Hlen. unfold NewDepthSensorTest.captureImagesUntilCloseToObstacle.
  assert (Hs : NewDepthSensorTest.approaching NewDepthSensorTest.approach_init = true)
    by reflexivity.
  revert Hs. generalize NewDepthSensorTest.approach_init. clear Hnone.
  revert clocks Hlen.
  induction zed as [|g zed IH]; intros clocks Hlen s Hs.
  - destruct clocks; [|discriminate]. exists s. cbn [combine map while]. now rewrite Hs.
  - destruct clocks as [|now clocks]; [discriminate|].
    cbn [combine map]. rewrite while_step by exact Hs. apply IH.
    + intros g' Hg'. apply Hfail. now right.
    + cbn [length] in Hlen. lia.
    + unfold NewDepthSensorTest.approaching, NewDepthSensorTest.approach_body,
        NewDepthSensorTest.grab_and_measure, tick in *.
      cbn [NewDepthSensorTest.grab NewDepthSensorTest.clock NewDepthSensorTest.clock_after].
      rewrite (Hfail g (or_introl eq_refl)). exact Hs.
Qed.

(** ** The command throttler *)

Lemma command_due_exact (now last : Z) :
  Z.abs last < 2 ^ 53 -> Z.abs (last + MIN_INTERVAL) < 2 ^ 53 ->
  LineDet.command_due now last = (now >? last + MIN_INTERVAL).
Proof.
  intros Hl Hd. unfold LineDet.command_due.
  change (of_int LineDet.ONE_SECOND_DELAY) with (of_int 1000000000).
  rewrite tenth_of_a_second, add_of_int; [| exact Hl | cbn; lia | exact Hd].
  now apply int_gtb_of_int.
Qed.

Lemma command_due_same (now last : Z) :
  NewDepthSensorTest.command_due now last = LineDet.command_due now last.
Proof. reflexivity. Qed.

(** C2, as stated, fails at the boundary: a call exactly [MIN_INTERVAL]
    after the last send does not send.  With the last send 100 ms before
    the first call, the calls at 0, 30, 60, 105 and 110 ms send at 30 ms
    only.  For readings of the size [time.time_ns()] returns it fails on
    both sides of the boundary, since the deadline is a rounded double: a
    call 99 999 950 ns after the last send sends, and a call 100 000 030 ns
    after it does not. *)
Lemma throttle_boundary_not_sent :
  (0 - (- MIN_INTERVAL) >= MIN_INTERVAL /\
   LineDet.sendMotorCommand 0 0 "up" (- MIN_INTERVAL) = (- MIN_INTERVAL, []) /\
   LineDet.send_all "up" call_times (- MIN_INTERVAL)
   = [ []; [Print "Going Forward"; Forward 20]; []; []; [] ]) /\
  (1700000000100000050 - 1700000000000000100 < MIN_INTERVAL /\
   LineDet.sendMotorCommand 1700000000100000050 1700000000100000060 "up" 1700000000000000100
   = (1700000000100000060, [Print "Going Forward"; Forward 20])) /\
  (1700000000100000230 - 1700000000000000200 >= MIN_INTERVAL /\
   LineDet.sendMotorCommand 1700000000100000230 1700000000100000240 "up" 1700000000000000200
   = (1700000000000000200, [])).
Proof.
  split; [|split].
  - split; [unfold MIN_INTERVAL; lia|]. split; vm_compute; reflexivity.
  - split; [unfold MIN_INTERVAL; lia|]. vm_compute. reflexivity.
  - split; [unfold MIN_INTERVAL; lia|]. vm_compute. reflexivity.
Qed.

Lemma send_known_command (clock clock_after : Z) (command : string) (last : Z) :
  In command ["up"; "down"; "left"; "right"; "stop"]%string ->
  LineDet.command_due clock last = true ->
  exists text action,
    LineDet.sendMotorCommand clock clock_after command last
    = (clock_after, [Print text; action])
    /\ In action [Forward 20; Backward 20; TurnLeft 40; TurnRight 40; Stop].
Proof.
  intros Hc Hdue. unfold LineDet.sendMotorCommand. rewrite Hdue.
  cbn [In] in Hc.
  destruct Hc as [<-|[<-|[<-|[<-|[<-|[]]]]]]; cbn [String.eqb Ascii.eqb Bool.eqb];
    eexists _, _; (split; [reflexivity|]); cbn; auto 6.
Qed.

Lemma send_all_sent (now : Z) (later : list Z) (last : Z) :
  LineDet.command_due now last = true ->
  LineDet.send_all "up" (now :: later) last
  = [Print "Going Forward"; Forward 20] :: LineDet.send_all "up" later now.
Proof.
  intros Hdue. cbn [LineDet.send_all]. unfold LineDet.sendMotorCommand.
  rewrite Hdue. reflexivity.
Qed.

Lemma send_all_held (command : string) (now : Z) (later : list Z) (last : Z) :
  LineDet.command_due now last = false ->
  LineDet.send_all command (now :: later) last = [] :: LineDet.send_all command later last.
Proof.
  intros Hdue. cbn [LineDet.send_all]. unfold LineDet.sendMotorCommand.
  rewrite Hdue. reflexivity.
Qed.

(** What one iteration of the approach loop of [NewDepthSensorTest.py]
    does with its forward command, by the outcome of the test. *)
Lemma approach_body_due (t : NewDepthSensorTest.Tick) (s : NewDepthSensorTest.Approach) :
  let s' := NewDepthSensorTest.approach_body t s in
  let o := snd (NewDepthSensorTest.grab_and_measure (NewDepthSensorTest.grab t)
                  (NewDepthSensorTest.depthValue s) (NewDepthSensorTest.buffers s)) in
  (LineDet.command_due (NewDepthSensorTest.clock t) (NewDepthSensorTest.initialTime s) = true ->
     NewDepthSensorTest.initialTime s' = NewDepthSensorTest.clock_after t /\
     NewDepthSensorTest.printed s' = NewDepthSensorTest.printed s ++ [Forward 20] ++ o) /\
  (LineDet.command_due (NewDepthSensorTest.clock t) (NewDepthSensorTest.initialTime s) = false ->
     NewDepthSensorTest.initialTime s' = NewDepthSensorTest.initialTime s /\
     NewDepthSensorTest.printed s' = NewDepthSensorTest.printed s ++ o).
Proof.
  intros s' o. subst s' o. unfold NewDepthSensorTest.approach_body.
  change NewDepthSensorTest.command_due with LineDet.command_due.
  destruct (NewDepthSensorTest.grab_and_measure _ _ _) as [[d b] o].
  cbn [NewDepthSensorTest.initialTime NewDepthSensorTest.printed snd].
  split; intros ->; split; reflexivity.
Qed.

(** C2, amended.  A call sends exactly when the clock reading exceeds
    [lastSentAt + MIN_INTERVAL], the sum being computed in doubles.  With
    times below [2^53] ns that is [now - lastSentAt > MIN_INTERVAL],
    strictly.  With times of the size [time.time_ns()] returns (from
    [2^53] ns up to [2^62] ns) the deadline is rounded: the call sends
    whenever [now - lastSentAt > MIN_INTERVAL + 2560], never when
    [now - lastSentAt < MIN_INTERVAL - 2560].  When it sends, it sends the
    motor command of any of the five known commands and returns the clock
    reading taken at the send; otherwise it sends nothing and returns the
    time it was given.  What it returns is that time, not a boolean.  The
    approach loop of [NewDepthSensorTest.py] gates its forward command by
    the same test.  With the last send more than 100 ms (at the size of
    [time.time_ns()], more than 100 ms and 2560 ns) before the first call,
    calls at 0, 30, 60, 105 and 110 ms, counted from 0 or from a reading
    [base] of that size, send at 0 and 105 ms only. *)
Theorem throttle_strict (now now_after last : Z) (command : string) :
  In command ["up"; "down"; "left"; "right"; "stop"]%string ->
  let sent :=
    exists text action,
      LineDet.sendMotorCommand now now_after command last
      = (now_after, [Print text; action])
      /\ In action [Forward 20; Backward 20; TurnLeft 40; TurnRight 40; Stop] in
  let held := LineDet.sendMotorCommand now now_after command last = (last, []) in
  (sent \/ held) /\
  (Z.abs last < 2 ^ 53 -> Z.abs (last + MIN_INTERVAL) < 2 ^ 53 ->
     (now - last > MIN_INTERVAL -> sent) /\
     (now - last <= MIN_INTERVAL -> held)) /\
  (2 ^ 53 <= last < 2 ^ 62 ->
     (now - last > MIN_INTERVAL + 2560 -> sent) /\
     (now - last < MIN_INTERVAL - 2560 -> held)) /\
  (forall t s,
     NewDepthSensorTest.clock t = now -> NewDepthSensorTest.clock_after t = now_after ->
     NewDepthSensorTest.initialTime s = last ->
     let s' := NewDepthSensorTest.approach_body t s in
     let o := snd (NewDepthSensorTest.grab_and_measure (NewDepthSensorTest.grab t)
                     (NewDepthSensorTest.depthValue s) (NewDepthSensorTest.buffers s)) in
     let forwarded :=
       NewDepthSensorTest.initialTime s' = now_after /\
       NewDepthSensorTest.printed s' = NewDepthSensorTest.printed s ++ [Forward 20] ++ o in
     let skipped :=
       NewDepthSensorTest.initialTime s' = last /\
       NewDepthSensorTest.printed s' = NewDepthSensorTest.printed s ++ o in
     (Z.abs last < 2 ^ 53 -> Z.abs (last + MIN_INTERVAL) < 2 ^ 53 ->
        (now - last > MIN_INTERVAL -> forwarded) /\
        (now - last <= MIN_INTERVAL -> skipped)) /\
     (2 ^ 53 <= last < 2 ^ 62 ->
        (now - last > MIN_INTERVAL + 2560 -> forwarded) /\
        (now - last < MIN_INTERVAL - 2560 -> skipped))) /\
  (Z.abs last < 2 ^ 53 -> Z.abs (last + MIN_INTERVAL) < 2 ^ 53 ->
   last < - MIN_INTERVAL ->
     LineDet.send_all "up" call_times last
     = [ [Print "Going Forward"; Forward 20]; []; [];
         [Print "Going Forward"; Forward 20]; [] ]) /\
  (forall base,
     2 ^ 53 <= last -> last + MIN_INTERVAL + 2560 < base -> base + 110000000 < 2 ^ 62 ->
     LineDet.send_all "up" (map (Z.add base) call_times) last
     = [ [Print "Going Forward"; Forward 20]; []; [];
         [Print "Going Forward"; Forward 20]; [] ]).
Proof.
  intros Hc sent held.
  assert (Hsent : LineDet.command_due now last = true -> sent).
  { intros Hdue. now apply send_known_command. }
  assert (Hheld : LineDet.command_due now last = false -> held).
  { intros Hdue. unfold held, LineDet.sendMotorCommand. now rewrite Hdue. }
  assert (Hexact : Z.abs last < 2 ^ 53 -> Z.abs (last + MIN_INTERVAL) < 2 ^ 53 ->
            (now - last > MIN_INTERVAL -> LineDet.command_due now last = true) /\
            (now - last <= MIN_INTERVAL -> LineDet.command_due now last = false)).
  { intros Hl Hd. rewrite (command_due_exact now last Hl Hd).
    split; intros H; Ztest; reflexivity. }
  assert (Hround : 2 ^ 53 <= last < 2 ^ 62 ->
            (now - last > MIN_INTERVAL + 2560 -> LineDet.command_due now last = true) /\
            (now - last < MIN_INTERVAL - 2560 -> LineDet.command_due now last = false)).
  { intros Hl. exact (command_due_bracket now last Hl). }
  split.
  { destruct (LineDet.command_due now last) eqn:Hdue; [left | right]; auto. }
  split.
  { intros Hl Hd. destruct (Hexact Hl Hd) as [Hyes Hno]. split; auto. }
  split.
  { intros Hl. destruct (Hround Hl) as [Hyes Hno]. split; auto. }
  split.
  { intros t s Hnow Hafter Hlast s' o forwarded skipped.
    destruct (approach_body_due t s) as [Hfwd Hskip].
    rewrite Hnow, Hlast in Hfwd, Hskip. rewrite Hafter in Hfwd.
    split.
    - intros Hl Hd. destruct (Hexact Hl Hd) as [Hyes Hno].
      split; intros H; [apply Hfwd | apply Hskip]; auto.
    - intros Hl. destruct (Hround Hl) as [Hyes Hno].
      split; intros H; [apply Hfwd | apply Hskip]; auto. }
  split.
  { intros Hl Hd Hpast. unfold call_times. cbn [map LineDet.send_all].
    unfold LineDet.sendMotorCommand at 1.
    rewrite (command_due_exact _ last Hl Hd).
    Ztest. vm_compute. reflexivity. }
  intros base Hlo Hbase Hhi. unfold MIN_INTERVAL in Hbase.
  change (map (Z.add base) call_times)
    with [base + 0; base + 30000000; base + 60000000; base + 105000000; base + 110000000].
  rewrite send_all_sent by (apply command_due_bracket; lia).
  rewrite send_all_held by (apply command_due_bracket; lia).
  rewrite send_all_held by (apply command_due_bracket; lia).
  rewrite send_all_sent by (apply command_due_bracket; lia).
  rewrite send_all_held by (apply command_due_bracket; lia).
  reflexivity.
Qed.

Lemma throttle_strict_witness :
  In "up"%string ["up"; "down"; "left"; "right"; "stop"]%string /\
  LineDet.send_all "up" call_times (-100000001)
  = [ [Print "Going Forward"; Forward 20]; []; [];
      [Print "Going Forward"; Forward 20]; [] ] /\
  LineDet.send_all "up" (map (Z.add 1700000000000000000) call_times) 1699999999899990000
  = [ [Print "Going Forward"; Forward 20]; []; [];
      [Print "Going Forward"; Forward 20]; [] ].
Proof.
  assert (Hc : In "up"%string ["up"; "down"; "left"; "right"; "stop"]%string)
    by (left; reflexivity).
  split; [exact Hc|]. split.
  - refine (proj1 (proj2 (proj2 (proj2 (proj2
              (throttle_strict 0 0 (-100000001) "up" Hc))))) _ _ _).
    + cbn. lia.
    + cbn. lia.
    + unfold MIN_INTERVAL. lia.
  - refine (proj2 (proj2 (proj2 (proj2 (proj2
              (throttle_strict 0 0 1699999999899990000 "up" Hc)))))
              1700000000000000000 _ _ _).
    + lia.
    + unfold MIN_INTERVAL. lia.
    + lia.
Defined.

(** ** The dual-task test run *)

(** C9.  The guard of [moveForwardAndStopTest] in [DepthSensorTests.py] is
    inverted: with two or more CPUs it prints its own error message, "need
    at least 2 CPU's", and returns without starting the sender process; with
    fewer than two it starts the process and runs the test. *)
Theorem dual_task_guard_inverted :
  DepthSensorTests.moveForwardAndStopTest 2 false [grabbed (flat_frame 95)]
  = ([Print "Testing error: need at least 2 CPU's"], true) /\
  (forall cpu_count motor zed,
     2 <= cpu_count ->
     DepthSensorTests.moveForwardAndStopTest cpu_count motor zed
     = ([Print "Testing error: need at least 2 CPU's"], true)) /\
  (forall cpu_count motor zed,
     cpu_count < 2 ->
     exists out finished,
       DepthSensorTests.moveForwardAndStopTest cpu_count motor zed
       = (ProcessStart :: Print "Robot moving forward" :: out, finished)) /\
  DepthSensorTests.moveForwardAndStopTest 1 false [grabbed (flat_frame 95)]
  = ([ProcessStart; Print "Robot moving forward";
      PrintDistance (Some 0) 0 0 (of_int 95);
      EventSet; ProcessJoin; Print "Robot has stopped"], true).
Proof.
  split; [reflexivity|].
  split.
  { intros cpu_count motor zed Hc. unfold DepthSensorTests.moveForwardAndStopTest.
    Ztest. reflexivity. }
  split.
  { intros cpu_count motor zed Hc. unfold DepthSensorTests.moveForwardAndStopTest.
    Ztest.
    destruct (DepthSensorTests.captureImagesUntilCloseToObstacle zed) as [s rest|s];
      eexists _, _; cbn [app]; reflexivity. }
  vm_compute. reflexivity.
Qed.

(** ** Vertical segments *)

Lemma div_by_zero (n : Z) :
  Z.abs n < 2 ^ 53 ->
  div (of_int n) (of_int 0)
  = if n >? 0 then inf else if n <? 0 then neg_inf else nan.
Proof.
  intros Hn. destruct (Z.eq_dec n 0) as [->|Nn]; [reflexivity|].
  destruct (of_int_form n Nn Hn) as (M & e & Hf & _). rewrite Hf.
  change (of_int 0) with (S754_zero false). cbn [div SFdiv xorb].
  destruct n; try lia; reflexivity.
Qed.

(** C6.  Nothing guards the slope against [x1 == x2].  The division does
    not raise: it gives an infinite slope (not-a-number when also
    [y1 == y2]), and a vertical segment that passes the position gate is
    appended to a buffer with that slope; from then on the average of that
    side is no number and the estimate of that side is lost. *)
Theorem vertical_segment_appended (x y1 y2 : Z) (b : LineDet.Buffers) :
  Z.abs (y1 - y2) < 2 ^ 53 ->
  LineDet.slope_of (x, y1, x, y2)
    = (if y1 >? y2 then inf else if y1 <? y2 then neg_inf else nan) /\
  (y1 > y2 -> x > 500 ->
     LineDet.rightSlope (LineDet.ingest b (x, y1, x, y2)) = LineDet.rightSlope b ++ [inf]) /\
  (y1 < y2 -> x < 600 ->
     LineDet.leftSlope (LineDet.ingest b (x, y1, x, y2)) = LineDet.leftSlope b ++ [neg_inf]) /\
  LineDet.ingest LineDet.empty_Buffers vertical_segment
    = {| LineDet.rightSlope := [inf]; LineDet.leftSlope := [];
         LineDet.rightIntercept := [neg_inf]; LineDet.leftIntercept := [] |} /\
  snd (LineDet.draw_lines 480 (Some [[left_segment]; [right_segment]]) LineDet.empty_Buffers)
    = LineDet.Return (Some 88, Some 512) /\
  snd (LineDet.draw_lines 480 (Some [[left_segment]; [right_segment]; [vertical_segment]])
         LineDet.empty_Buffers)
    = LineDet.Return (Some 88, None).
Proof.
  intros Hn.
  assert (Hslope : LineDet.slope_of (x, y1, x, y2)
                   = (if y1 >? y2 then inf else if y1 <? y2 then neg_inf else nan)).
  { unfold LineDet.slope_of. rewrite Z.sub_diag, (div_by_zero _ Hn).
    rewrite !Z.gtb_ltb.
    destruct (Z.ltb_spec 0 (y1 - y2)), (Z.ltb_spec y2 y1); try lia; try reflexivity.
    destruct (Z.ltb_spec (y1 - y2) 0), (Z.ltb_spec y1 y2); try lia; reflexivity. }
  split; [exact Hslope|].
  split.
  { intros Hy Hx. unfold LineDet.ingest. rewrite Hslope.
    Ztest. reflexivity. }
  split.
  { intros Hy Hx. unfold LineDet.ingest. rewrite Hslope.
    Ztest. reflexivity. }
  repeat split; vm_compute; reflexivity.
Qed.

Lemma vertical_segment_appended_witness :
  Z.abs (400 - 300) < 2 ^ 53 /\ 400 > 300 /\ 550 > 500 /\
  LineDet.rightSlope (LineDet.ingest LineDet.empty_Buffers (550, 400, 550, 300))
    = LineDet.rightSlope LineDet.empty_Buffers ++ [inf].
Proof.
  assert (H1 : Z.abs (400 - 300) < 2 ^ 53) by (cbn; lia).
  assert (H2 : 400 > 300) by lia.
  assert (H3 : 550 > 500) by lia.
  split; [exact H1|]. split; [exact H2|]. split; [exact H3|].
  exact (proj1 (proj2 (vertical_segment_appended 550 400 300 LineDet.empty_Buffers H1)) H2 H3).
Defined.

(** ** Estimates from an empty buffer *)

Lemma line_x_nan_slope (y i : float) : LineDet.line_x y i nan = nan.
Proof. unfold LineDet.line_x, div. now destruct (sub y i). Qed.

Lemma line_x_nan_intercept (y s : float) : LineDet.line_x y nan s = nan.
Proof.
  unfold LineDet.line_x, sub, div.
  assert (H : SFsub prec emax y nan = nan) by now destruct y.
  rewrite H. reflexivity.
Qed.

Lemma line_x_empty (y : float) (slopes intercepts : list float) :
  slopes = [] \/ intercepts = [] ->
  LineDet.line_x y (np_mean (last_items 30 intercepts)) (np_mean (last_items 30 slopes)) = nan.
Proof.
  intros [-> | ->].
  - apply line_x_nan_slope.
  - apply line_x_nan_intercept.
Qed.

(** C7.  At estimate time an empty buffer gives that side the absent value
    [None]: NumPy's mean of no sample is not-a-number, [int] refuses it with
    [ValueError], and the handler returns with the variable still [None].
    With an empty left buffer the function returns [[None, None]]; with an
    empty right buffer it returns [[left_line_x1, None]] once the two left
    conversions have succeeded, and whenever it returns the right entry is
    [None] (the only exception that can leave it then is the
    [OverflowError] of an infinite left quotient).  The entries are [None]
    or integers, never not-a-number. *)
Theorem empty_buffer_absent (height : Z) (b : LineDet.Buffers) :
  (LineDet.leftSlope b = [] \/ LineDet.leftIntercept b = [] ->
     LineDet.estimate height b = LineDet.Return (None, None)) /\
  (LineDet.rightSlope b = [] \/ LineDet.rightIntercept b = [] ->
     (forall left_line_x1 left_line_x2,
        int (LineDet.line_x (mul lit_0_65 (of_int height))
               (np_mean (last_items 30 (LineDet.leftIntercept b)))
               (np_mean (last_items 30 (LineDet.leftSlope b)))) = inr left_line_x1 ->
        int (LineDet.line_x (of_int height)
               (np_mean (last_items 30 (LineDet.leftIntercept b)))
               (np_mean (last_items 30 (LineDet.leftSlope b)))) = inr left_line_x2 ->
        LineDet.estimate height b = LineDet.Return (Some left_line_x1, None)) /\
     match LineDet.estimate height b with
     | LineDet.Return (_, right_line_x1) => right_line_x1 = None
     | LineDet.Raise e => e = OverflowError
     end).
Proof.
  split.
  - intros Hleft. unfold LineDet.estimate.
    rewrite (line_x_empty _ _ _ Hleft). reflexivity.
  - intros Hright. unfold LineDet.estimate.
    rewrite !(line_x_empty _ _ _ Hright).
    split.
    + intros x1 x2 H1 H2. rewrite H1, H2. reflexivity.
    + destruct (int (LineDet.line_x (mul lit_0_65 (of_int height)) _ _)) as [[]|x1];
        cbn [LineDet.except]; try reflexivity.
      destruct (int (LineDet.line_x (of_int height) _ _)) as [[]|x2];
        cbn [LineDet.except int]; reflexivity.
Qed.

Lemma empty_buffer_absent_witness :
  LineDet.rightSlope (LineDet.ingest LineDet.empty_Buffers left_segment) = [] /\
  LineDet.estimate 480 (LineDet.ingest LineDet.empty_Buffers left_segment)
  = LineDet.Return (Some 88, None).
Proof.
  assert (H : LineDet.rightSlope (LineDet.ingest LineDet.empty_Buffers left_segment) = [])
    by (vm_compute; reflexivity).
  split; [exact H|].
  pose proof (empty_buffer_absent 480 (LineDet.ingest LineDet.empty_Buffers left_segment))
    as [_ T].
  specialize (T (or_introl H)). destruct T as [T _].
  apply (T 88 (-80)); vm_compute; reflexivity.
Defined.

(** ** The trailing buffers *)

Lemma ingest_by_side (b : LineDet.Buffers) (seg : LineDet.Segment) :
  LineDet.ingest b seg =
  match side_of seg with
  | Some RightSide =>
      {| LineDet.rightSlope := LineDet.rightSlope b ++ [LineDet.slope_of seg];
         LineDet.leftSlope := LineDet.leftSlope b;
         LineDet.rightIntercept := LineDet.rightIntercept b ++ [yintercept_of seg];
         LineDet.leftIntercept := LineDet.leftIntercept b |}
  | Some LeftSide =>
      {| LineDet.rightSlope := LineDet.rightSlope b;
         LineDet.leftSlope := LineDet.leftSlope b ++ [LineDet.slope_of seg];
         LineDet.rightIntercept := LineDet.rightIntercept b;
         LineDet.leftIntercept := LineDet.leftIntercept b ++ [yintercept_of seg] |}
  | None => b
  end.
Proof.
  destruct seg as [[[x1 y1] x2] y2]. unfold LineDet.ingest, side_of, yintercept_of.
  destruct (LineDet.slope_of (x1, y1, x2, y2) >? lit_0_3)%pf.
  - destruct (x1 >? 500); reflexivity.
  - destruct (LineDet.slope_of (x1, y1, x2, y2) <? opp lit_0_3)%pf; [|reflexivity].
    destruct (x1 <? 600); reflexivity.
Qed.

Lemma is_side_cases (seg : LineDet.Segment) :
  (side_of seg = Some RightSide /\ is_side RightSide seg = true /\ is_side LeftSide seg = false) \/
  (side_of seg = Some LeftSide /\ is_side RightSide seg = false /\ is_side LeftSide seg = true) \/
  (side_of seg = None /\ is_side RightSide seg = false /\ is_side LeftSide seg = false).
Proof. unfold is_side. destruct (side_of seg) as [[]|]; auto. Qed.

(** Ingesting segments only appends: each list keeps all it had and gains
    the samples of its class, in order. *)
Lemma ingest_all (segs : list LineDet.Segment) :
  forall b,
  fold_left LineDet.ingest segs b =
  {| LineDet.rightSlope :=
       LineDet.rightSlope b ++ map LineDet.slope_of (filter (is_side RightSide) segs);
     LineDet.leftSlope :=
       LineDet.leftSlope b ++ map LineDet.slope_of (filter (is_side LeftSide) segs);
     LineDet.rightIntercept :=
       LineDet.rightIntercept b ++ map yintercept_of (filter (is_side RightSide) segs);
     LineDet.leftIntercept :=
       LineDet.leftIntercept b ++ map yintercept_of (filter (is_side LeftSide) segs) |}.
Proof.
  induction segs as [|seg segs IH]; intros b; cbn [fold_left filter].
  - cbn [map]. rewrite !app_nil_r. now destruct b.
  - rewrite IH, ingest_by_side.
    destruct (is_side_cases seg) as [(-> & -> & ->) | [(-> & -> & ->) | (-> & -> & ->)]];
      cbn [LineDet.rightSlope LineDet.leftSlope LineDet.rightIntercept
           LineDet.leftIntercept map];
      rewrite <- ?app_assoc; reflexivity.
Qed.

Lemma ingest_lines_concat (lines : list (list LineDet.Segment)) :
  forall b, LineDet.ingest_lines (Some lines) b = fold_left LineDet.ingest (concat lines) b.
Proof.
  unfold LineDet.ingest_lines.
  induction lines as [|line lines IH]; intros b; cbn [fold_left concat].
  - reflexivity.
  - now rewrite IH, fold_left_app.
Qed.

Lemma last_items_idem {A} (n : nat) (l : list A) :
  last_items n (last_items n l) = last_items n l.
Proof.
  unfold last_items. rewrite length_skipn.
  replace (length l - (length l - n) - n)%nat with 0%nat by lia. reflexivity.
Qed.

Lemma last_items_short {A} (n : nat) (l : list A) :
  (length l <= n)%nat -> last_items n l = l.
Proof.
  intros H. unfold last_items. replace (length l - n)%nat with 0%nat by lia. reflexivity.
Qed.

Lemma tl_skipn {A} (n : nat) (l : list A) : tl (skipn n l) = skipn (S n) l.
Proof.
  revert l. induction n as [|n IH]; intros [|a l]; try reflexivity.
  cbn [skipn]. rewrite IH. destruct l; reflexivity.
Qed.

(** The slice [[-n:]] of a list that grew by one item. *)
Lemma last_items_push {A} (n : nat) (l : list A) (a : A) :
  (1 <= n)%nat ->
  last_items n (l ++ [a]) =
  (if (n <=? length l)%nat then tl (last_items n l) else l) ++ [a].
Proof.
  intros Hn. unfold last_items. rewrite length_app. cbn [length].
  destruct (Nat.leb_spec n (length l)) as [Hfull|Hroom].
  - rewrite tl_skipn, skipn_app.
    replace (length l + 1 - n - length l)%nat with 0%nat by lia.
    replace (length l + 1 - n)%nat with (S (length l - n)) by lia. reflexivity.
  - replace (length l + 1 - n)%nat with 0%nat by lia. reflexivity.
Qed.

Lemma estimate_window (height : Z) (b : LineDet.Buffers) :
  LineDet.estimate height (window b) = LineDet.estimate height b.
Proof.
  unfold LineDet.estimate, window.
  cbn [LineDet.rightSlope LineDet.leftSlope LineDet.rightIntercept LineDet.leftIntercept].
  rewrite !last_items_idem. reflexivity.
Qed.

Lemma alternating_count (segs : list LineDet.Segment) :
  forall s, alternating s segs ->
  length (filter (is_side s) segs) = Nat.div2 (S (length segs)) /\
  length (filter (is_side (other_side s)) segs) = Nat.div2 (length segs).
Proof.
  induction segs as [|seg segs IH]; intros s Halt.
  - split; reflexivity.
  - destruct Halt as [Hside Hrest].
    destruct (IH (other_side s) Hrest) as [Hother Hsame].
    assert (Hback : other_side (other_side s) = s) by now destruct s.
    rewrite Hback in Hsame.
    assert (Hs : is_side s seg = true) by (unfold is_side; rewrite Hside; now destruct s).
    assert (Ho : is_side (other_side s) seg = false)
      by (unfold is_side; rewrite Hside; now destruct s).
    cbn [filter]. rewrite Hs, Ho. cbn [length]. rewrite Hsame, Hother.
    split; reflexivity.
Qed.

(** C5, as stated, fails: nothing is ever evicted, and after 31 samples of
    one class the list of that class holds 31 items. *)
Lemma buffer_exceeds_cap :
  ~ (length (LineDet.rightSlope (LineDet.ingest_lines (Some right_31) LineDet.empty_Buffers))
     <= 30)%nat.
Proof.
  assert (H : length (LineDet.rightSlope
                        (LineDet.ingest_lines (Some right_31) LineDet.empty_Buffers))
              = 31%nat) by (vm_compute; reflexivity).
  rewrite H. lia.
Qed.

(** C5, amended.  The four lists are append-only: a call of [draw_lines]
    keeps every item and appends the samples of each class in order, so a
    list is never cut to 30.  The estimate reads the slices [[-30:]] only:
    it is the estimate of the last 30 items of each list, and that window
    slides first-in first-out as samples arrive.  After 35 segments of
    alternating class the lists hold all 18 and 17 samples, which the
    window covers. *)
Theorem trailing_window :
  (forall lines b,
     LineDet.ingest_lines (Some lines) b =
     {| LineDet.rightSlope :=
          LineDet.rightSlope b
          ++ map LineDet.slope_of (filter (is_side RightSide) (concat lines));
        LineDet.leftSlope :=
          LineDet.leftSlope b
          ++ map LineDet.slope_of (filter (is_side LeftSide) (concat lines));
        LineDet.rightIntercept :=
          LineDet.rightIntercept b
          ++ map yintercept_of (filter (is_side RightSide) (concat lines));
        LineDet.leftIntercept :=
          LineDet.leftIntercept b
          ++ map yintercept_of (filter (is_side LeftSide) (concat lines)) |}) /\
  (forall height lines b,
     snd (LineDet.draw_lines height lines b)
     = LineDet.estimate height (window (LineDet.ingest_lines lines b))) /\
  (forall (l : list float) (a : float),
     last_items 30 (l ++ [a]) =
     (if (30 <=? length l)%nat then tl (last_items 30 l) else l) ++ [a]) /\
  (forall s segs,
     length segs = 35%nat -> alternating s segs ->
     let b := LineDet.ingest_lines (Some [segs]) LineDet.empty_Buffers in
     let mine := match s with RightSide => LineDet.rightSlope b
                            | LeftSide => LineDet.leftSlope b end in
     let others := match s with RightSide => LineDet.leftSlope b
                              | LeftSide => LineDet.rightSlope b end in
     mine = map LineDet.slope_of (filter (is_side s) segs) /\
     others = map LineDet.slope_of (filter (is_side (other_side s)) segs) /\
     length mine = 18%nat /\ length others = 17%nat /\
     window b = b).
Proof.
  split.
  { intros lines b. rewrite ingest_lines_concat. apply ingest_all. }
  split.
  { intros height lines b. cbn [LineDet.draw_lines snd]. now rewrite estimate_window. }
  split.
  { intros l a. apply last_items_push. lia. }
  intros s segs Hlen Halt b mine others.
  assert (Hb : b = fold_left LineDet.ingest segs LineDet.empty_Buffers).
  { unfold b. rewrite ingest_lines_concat. cbn [concat]. now rewrite app_nil_r. }
  rewrite ingest_all in Hb.
  cbn [LineDet.empty_Buffers LineDet.rightSlope LineDet.leftSlope
       LineDet.rightIntercept LineDet.leftIntercept app] in Hb.
  destruct (alternating_count segs s Halt) as [Hmine Hothers].
  rewrite Hlen in Hmine, Hothers. cbn [Nat.div2] in Hmine, Hothers.
  assert (Hleft_right :
    (length (filter (is_side RightSide) segs) <= 18 /\
     length (filter (is_side LeftSide) segs) <= 18)%nat)
    by (destruct s; cbn [other_side] in Hothers; lia).
  assert (Hwin : window b = b).
  { rewrite Hb. unfold window.
    cbn [LineDet.rightSlope LineDet.leftSlope LineDet.rightIntercept LineDet.leftIntercept].
    rewrite !last_items_short by (rewrite length_map; lia). reflexivity. }
  subst mine others. rewrite Hb.
  destruct s;
    cbn [other_side LineDet.rightSlope LineDet.leftSlope] in *;
    rewrite !length_map; repeat split;
    first [assumption | rewrite <- Hb; exact Hwin].
Qed.

Lemma trailing_window_witness :
  length alternating_35 = 35%nat /\ alternating LeftSide alternating_35 /\
  length (LineDet.leftSlope
            (LineDet.ingest_lines (Some [alternating_35]) LineDet.empty_Buffers)) = 18%nat /\
  length (LineDet.rightSlope
            (LineDet.ingest_lines (Some [alternating_35]) LineDet.empty_Buffers)) = 17%nat.
Proof.
  assert (HL : side_of left_segment = Some LeftSide) by (vm_compute; reflexivity).
  assert (HR : side_of right_segment = Some RightSide) by (vm_compute; reflexivity).
  assert (H1 : length alternating_35 = 35%nat) by reflexivity.
  assert (H2 : alternating LeftSide alternating_35).
  { unfold alternating_35. cbn [repeat concat app alternating other_side].
    repeat split; assumption. }
  split; [exact H1|]. split; [exact H2|].
  pose proof (proj2 (proj2 (proj2 trailing_window)) LeftSide alternating_35 H1 H2) as T.
  cbv zeta in T. destruct T as (_ & _ & T18 & T17 & _).
  split; [exact T18 | exact T17].
Defined.

(** * Further properties *)

(** ** The obstacle locators on any row *)

(** Cleaning does not change on which side of 300 a raw depth lies. *)
Lemma clipData_ltb_raw (v : float) :
  (DepthSensorTests.clipData v (of_int 0) (of_int 300) <? of_int 300)%pf
  = (v <? of_int 300)%pf.
Proof.
  unfold DepthSensorTests.clipData.
  destruct (isnan v) eqn:Nv.
  - rewrite orb_true_r. destruct v; try discriminate. reflexivity.
  - rewrite orb_false_r.
    destruct (v >? of_int 300)%pf eqn:Hgt.
    + unfold gtb in Hgt. fold (ltb (of_int 300) v) in Hgt.
      rewrite (ltb_negb_leb v (of_int 300) Nv of_int_not_nan_300).
      now rewrite (ltb_leb _ _ Hgt).
    + destruct (v <? of_int 0)%pf eqn:Hlt; [|reflexivity].
      symmetry. apply (ltb_trans v (of_int 0) (of_int 300) Hlt). reflexivity.
Qed.

Lemma clipData_geb_raw (v : float) :
  (DepthSensorTests.clipData v (of_int 0) (of_int 300) >=? of_int 300)%pf
  = negb (v <? of_int 300)%pf.
Proof.
  rewrite <- clipData_ltb_raw.
  rewrite (ltb_negb_geb _ (of_int 300)), negb_involutive; [reflexivity| |reflexivity].
  now apply clipData_not_nan.
Qed.

(** What the two scans of [DepthSensorTests.py] leave, on any list. *)
Lemma forward_bounds (l : list float) (leftBoundX rightBoundX : Z) :
  DepthSensorTests.obstacleBounds l = Some (leftBoundX, rightBoundX) ->
  0 <= leftBoundX /\ leftBoundX < rightBoundX /\ rightBoundX <= len l /\
  (forall j, 0 <= j < leftBoundX -> (item l j >=? of_int 300)%pf = true) /\
  (item l leftBoundX >=? of_int 300)%pf = false /\
  (forall j, leftBoundX < j < rightBoundX -> (item l j <? of_int 300)%pf = true) /\
  (rightBoundX < len l -> (item l rightBoundX <? of_int 300)%pf = false).
Proof.
  unfold DepthSensorTests.obstacleBounds.
  change (DepthSensorTests.leftScan (length l) l 0)
    with (scan_up (fun d => (d >=? of_int 300)%pf) (length l) l 0).
  destruct (scan_up_spec (fun d => (d >=? of_int 300)%pf) (length l) l 0)
    as (Hr & Hbefore & Hat); [unfold len; lia | unfold len; lia |].
  set (lft := scan_up _ _ _ _) in *.
  destruct (lft >=? len l) eqn:Hge; [discriminate|].
  rewrite Z.geb_leb in Hge. apply Z.leb_gt in Hge.
  change (DepthSensorTests.rightScan (length l) l (lft + 1))
    with (scan_up (fun d => (d <? of_int 300)%pf) (length l) l (lft + 1)).
  destruct (scan_up_spec (fun d => (d <? of_int 300)%pf) (length l) l (lft + 1))
    as (Hr' & Hin & Hat'); [lia | unfold len in *; lia |].
  remember (scan_up (fun d => (d <? of_int 300)%pf) (length l) l (lft + 1)) as rgt eqn:Ergt.
  clear Ergt. intros E. injection E as E1 E2. subst leftBoundX rightBoundX.
  repeat split; try lia.
  - intros j Hj. apply Hbefore. lia.
  - apply Hat. lia.
  - intros j Hj. apply Hin. lia.
  - exact Hat'.
Qed.

Lemma forward_bounds_none (l : list float) :
  DepthSensorTests.obstacleBounds l = None <->
  (forall j, 0 <= j < len l -> (item l j >=? of_int 300)%pf = true).
Proof.
  unfold DepthSensorTests.obstacleBounds.
  change (DepthSensorTests.leftScan (length l) l 0)
    with (scan_up (fun d => (d >=? of_int 300)%pf) (length l) l 0).
  destruct (scan_up_spec (fun d => (d >=? of_int 300)%pf) (length l) l 0)
    as (Hr & Hbefore & Hat); [unfold len; lia | unfold len; lia |].
  set (lft := scan_up _ _ _ _) in *.
  destruct (lft >=? len l) eqn:Hge.
  - rewrite Z.geb_leb in Hge. apply Z.leb_le in Hge.
    split; [|reflexivity]. intros _ j Hj. apply Hbefore. lia.
  - rewrite Z.geb_leb in Hge. apply Z.leb_gt in Hge.
    split; [discriminate|]. intros Hall.
    rewrite Hall in Hat by lia. specialize (Hat Hge). discriminate.
Qed.

(** What the two scans of [NewDepthSensorTest.py] leave, on any list. *)
Lemma backward_bounds (l : list float) (leftBoundX rightBoundX : Z) :
  NewDepthSensorTest.obstacleBounds l = Some (leftBoundX, rightBoundX) ->
  0 <= leftBoundX /\ leftBoundX <= rightBoundX /\ rightBoundX < len l /\
  (forall j, 0 <= j < leftBoundX -> (item l j >=? of_int 300)%pf = true) /\
  (item l leftBoundX >=? of_int 300)%pf = false /\
  (forall j, rightBoundX < j < len l -> (item l j >=? of_int 300)%pf = true) /\
  (item l rightBoundX >=? of_int 300)%pf = false.
Proof.
  unfold NewDepthSensorTest.obstacleBounds.
  change (NewDepthSensorTest.leftScan (length l) l 0)
    with (scan_up (fun d => (d >=? of_int 300)%pf) (length l) l 0).
  destruct (scan_up_spec (fun d => (d >=? of_int 300)%pf) (length l) l 0)
    as (Hr & Hbefore & Hat); [unfold len; lia | unfold len; lia |].
  set (lft := scan_up _ _ _ _) in *.
  destruct (lft >=? len l) eqn:Hge; [discriminate|].
  rewrite Z.geb_leb in Hge. apply Z.leb_gt in Hge.
  change (NewDepthSensorTest.rightScan (length l) l (len l - 1))
    with (scan_down (fun d => (d >=? of_int 300)%pf) (length l) l (len l - 1)).
  destruct (scan_down_spec (fun d => (d >=? of_int 300)%pf) (length l) l (len l - 1))
    as (Hr' & Hafter & Hat'); [unfold len; lia | unfold len; lia |].
  remember (scan_down (fun d => (d >=? of_int 300)%pf) (length l) l (len l - 1))
    as rgt eqn:Ergt.
  clear Ergt. intros E. injection E as E1 E2. subst leftBoundX rightBoundX.
  specialize (Hat Hge).
  assert (Hle : lft <= rgt).
  { destruct (Z_le_gt_dec lft rgt) as [|Hgt]; [assumption|].
    rewrite (Hafter lft) in Hat by lia. discriminate. }
  repeat split; try lia.
  - intros j Hj. apply Hbefore. lia.
  - exact Hat.
  - intros j Hj. apply Hafter. lia.
  - apply Hat'. lia.
Qed.

Lemma int_half_between (a b : Z) :
  0 <= a -> a <= b -> a <= int_half (a + b) <= b.
Proof.
  intros Ha Hab. unfold int_half. rewrite Z.quot_div_nonneg by lia.
  split.
  - apply Z.div_le_lower_bound; lia.
  - apply Z.div_le_upper_bound; lia.
Qed.

Lemma int_half_below (a b : Z) :
  0 <= a -> a < b -> int_half (a + b) < b.
Proof.
  intros Ha Hab. unfold int_half. rewrite Z.quot_div_nonneg by lia.
  apply Z.div_lt_upper_bound; lia.
Qed.

(** X1.  Both locators return [None] exactly when no raw depth of the
    center row is below 300 cm (not-a-number counts as not below). *)
Theorem locator_none_iff_row_far (f : Mat) :
  let far_row := forall j, 0 <= j < get_width f ->
      (get_value f j (int_half (get_height f)) <? of_int 300)%pf = false in
  (DepthSensorTests.getCoordinatesOfCloseObstacle f f = None <-> far_row) /\
  (NewDepthSensorTest.getCoordinatesOfCloseObstacle f f = None <-> far_row).
Proof.
  intros far_row.
  assert (H : DepthSensorTests.getCoordinatesOfCloseObstacle f f = None <-> far_row).
  { unfold DepthSensorTests.getCoordinatesOfCloseObstacle.
    pose proof (forward_bounds_none (DepthSensorTests.depthList f f)) as Hb.
    rewrite len_depthList in Hb.
    destruct (DepthSensorTests.obstacleBounds (DepthSensorTests.depthList f f))
      as [[lft rgt]|].
    - split; [discriminate|]. intros Hfar.
      assert (Hn : Some (lft, rgt) = @None (Z * Z)); [|discriminate].
      apply Hb. intros j Hj. rewrite item_depthList by lia.
      rewrite clipData_geb_raw, Hfar by lia. reflexivity.
    - split; [|reflexivity]. intros _ j Hj.
      pose proof (proj1 Hb eq_refl j) as Hj'.
      rewrite item_depthList, clipData_geb_raw in Hj' by lia.
      apply negb_true_iff, Hj'. lia. }
  split; [exact H|].
  rewrite getCoordinates_none_same. exact H.
Qed.

(** X2.  When the locator of [DepthSensorTests.py] finds an obstacle, the
    pixel it returns lies on the center row inside the first run of pixels
    whose raw depth is below 300 cm: every pixel left of the run is not
    below 300, every pixel of the run is, and the run ends at the row's end
    or at a pixel that is not.  So the cleaned depth read at the returned
    pixel is below 300. *)
Theorem forward_locator_in_first_run (f : Mat) (cx cy : Z) :
  DepthSensorTests.getCoordinatesOfCloseObstacle f f = Some (cx, cy) ->
  let raw j := get_value f j (int_half (get_height f)) in
  exists leftBoundX rightBoundX,
    0 <= leftBoundX /\ leftBoundX < rightBoundX /\ rightBoundX <= get_width f /\
    (forall j, 0 <= j < leftBoundX -> (raw j <? of_int 300)%pf = false) /\
    (forall j, leftBoundX <= j < rightBoundX -> (raw j <? of_int 300)%pf = true) /\
    (rightBoundX < get_width f -> (raw rightBoundX <? of_int 300)%pf = false) /\
    cx = int_half (leftBoundX + rightBoundX) /\ cy = int_half (get_height f) /\
    leftBoundX <= cx /\ cx < rightBoundX /\
    (DepthSensorTests.clipData (get_value f cx cy) (of_int 0) (of_int 300)
       <? of_int 300)%pf = true.
Proof.
  unfold DepthSensorTests.getCoordinatesOfCloseObstacle.
  destruct (DepthSensorTests.obstacleBounds (DepthSensorTests.depthList f f))
    as [[lft rgt]|] eqn:Hb; [|discriminate].
  intros E. injection E as E1 E2. subst cx cy.
  pose (raw := fun j => get_value f j (int_half (get_height f))).
  destruct (forward_bounds _ _ _ Hb) as (H0 & Hlt & Hlen & Hbefore & Hat & Hin & Hend).
  rewrite len_depthList in Hlen, Hend.
  assert (Hw : rgt <= get_width f) by lia.
  assert (Hrun : forall j, lft <= j < rgt -> (raw j <? of_int 300)%pf = true).
  { intros j Hj. destruct (Z.eq_dec j lft) as [->|Hne].
    - rewrite item_depthList, clipData_geb_raw in Hat by lia.
      now apply negb_false_iff in Hat.
    - specialize (Hin j ltac:(lia)).
      rewrite item_depthList, clipData_ltb_raw in Hin by lia. exact Hin. }
  pose proof (int_half_between lft rgt H0 ltac:(lia)) as Hc.
  pose proof (int_half_below lft rgt H0 Hlt) as Hc'.
  exists lft, rgt. repeat split; try lia.
  - intros j Hj. specialize (Hbefore j Hj).
    rewrite item_depthList, clipData_geb_raw in Hbefore by lia.
    now apply negb_true_iff in Hbefore.
  - exact Hrun.
  - intros Hr. specialize (Hend ltac:(lia)).
    rewrite item_depthList, clipData_ltb_raw in Hend by lia. exact Hend.
  - rewrite clipData_ltb_raw. apply Hrun. lia.
Qed.

Lemma forward_locator_in_first_run_witness :
  exists leftBoundX rightBoundX,
    0 <= leftBoundX /\ leftBoundX < rightBoundX /\ rightBoundX <= 5 /\
    1 = int_half (leftBoundX + rightBoundX).
Proof.
  destruct (forward_locator_in_first_run (row_frame [300; 50; 300; 50; 50]) 1 0)
    as (l & r & H0 & Hlt & Hw & _ & _ & _ & Hc & _).
  - vm_compute. reflexivity.
  - exists l, r. repeat split; assumption.
Defined.

(** X3.  When the locator of [NewDepthSensorTest.py] finds an obstacle, the
    pixel it returns is the midpoint of the leftmost and the rightmost
    pixel of the center row whose raw depth is below 300 cm, whatever lies
    between the two. *)
Theorem backward_locator_midpoint (f : Mat) (cx cy : Z) :
  NewDepthSensorTest.getCoordinatesOfCloseObstacle f f = Some (cx, cy) ->
  let raw j := get_value f j (int_half (get_height f)) in
  exists leftBoundX rightBoundX,
    0 <= leftBoundX /\ leftBoundX <= rightBoundX /\ rightBoundX < get_width f /\
    (raw leftBoundX <? of_int 300)%pf = true /\
    (raw rightBoundX <? of_int 300)%pf = true /\
    (forall j, 0 <= j < leftBoundX \/ rightBoundX < j < get_width f ->
               (raw j <? of_int 300)%pf = false) /\
    cx = int_half (leftBoundX + rightBoundX) /\ cy = int_half (get_height f) /\
    leftBoundX <= cx /\ cx <= rightBoundX.
Proof.
  unfold NewDepthSensorTest.getCoordinatesOfCloseObstacle.
  rewrite depthList_same.
  destruct (NewDepthSensorTest.obstacleBounds (DepthSensorTests.depthList f f))
    as [[lft rgt]|] eqn:Hb; [|discriminate].
  intros E. injection E as E1 E2. subst cx cy.
  pose (raw := fun j => get_value f j (int_half (get_height f))).
  destruct (backward_bounds _ _ _ Hb) as (H0 & Hle & Hlen & Hbefore & Hat & Hafter & Hat').
  rewrite len_depthList in Hlen, Hafter.
  assert (Hw : rgt < get_width f) by lia.
  pose proof (int_half_between lft rgt H0 Hle) as Hc.
  exists lft, rgt. repeat split; try lia.
  - rewrite item_depthList, clipData_geb_raw in Hat by lia.
    now apply negb_false_iff in Hat.
  - rewrite item_depthList, clipData_geb_raw in Hat' by lia.
    now apply negb_false_iff in Hat'.
  - intros j [Hj|Hj].
    + specialize (Hbefore j Hj).
      rewrite item_depthList, clipData_geb_raw in Hbefore by lia.
      now apply negb_true_iff in Hbefore.
    + specialize (Hafter j ltac:(lia)).
      rewrite item_depthList, clipData_geb_raw in Hafter by lia.
      now apply negb_true_iff in Hafter.
Qed.

Lemma backward_locator_midpoint_witness :
  exists leftBoundX rightBoundX,
    0 <= leftBoundX /\ leftBoundX <= rightBoundX /\ rightBoundX < 5 /\
    2 = int_half (leftBoundX + rightBoundX).
Proof.
  destruct (backward_locator_midpoint (row_frame [300; 50; 300; 50; 50]) 2 0)
    as (l & r & H0 & Hle & Hw & _ & _ & _ & Hc & _).
  - vm_compute. reflexivity.
  - exists l, r. repeat split; assumption.
Defined.

(** ** The two locators side by side *)

Lemma forward_locator_column (f : Mat) (cx cy : Z) :
  DepthSensorTests.getCoordinatesOfCloseObstacle f f = Some (cx, cy) ->
  0 <= cx < get_width f /\ cy = int_half (get_height f).
Proof.
  unfold DepthSensorTests.getCoordinatesOfCloseObstacle.
  destruct (DepthSensorTests.obstacleBounds (DepthSensorTests.depthList f f))
    as [[lft rgt]|] eqn:Hb; [|discriminate].
  intros E. injection E as E1 E2. subst cx cy.
  destruct (forward_bounds _ _ _ Hb) as (H0 & Hlt & Hlen & _).
  rewrite len_depthList in Hlen.
  pose proof (int_half_between lft rgt H0 ltac:(lia)).
  pose proof (int_half_below lft rgt H0 Hlt). split; [lia|reflexivity].
Qed.

Lemma backward_locator_column (f : Mat) (cx cy : Z) :
  NewDepthSensorTest.getCoordinatesOfCloseObstacle f f = Some (cx, cy) ->
  0 <= cx < get_width f /\ cy = int_half (get_height f).
Proof.
  unfold NewDepthSensorTest.getCoordinatesOfCloseObstacle.
  rewrite depthList_same.
  destruct (NewDepthSensorTest.obstacleBounds (DepthSensorTests.depthList f f))
    as [[lft rgt]|] eqn:Hb; [|discriminate].
  intros E. injection E as E1 E2. subst cx cy.
  destruct (backward_bounds _ _ _ Hb) as (H0 & Hle & Hlen & _).
  rewrite len_depthList in Hlen.
  pose proof (int_half_between lft rgt H0 Hle). split; [lia|reflexivity].
Qed.

Lemma int_half_mono (a b : Z) : 0 <= a -> a <= b -> int_half a <= int_half b.
Proof.
  intros Ha Hab. unfold int_half. rewrite !Z.quot_div_nonneg by lia.
  apply Z.div_le_mono; lia.
Qed.

Lemma int_half_succ (a : Z) : 0 <= a -> int_half (a + 1) <= int_half a + 1.
Proof.
  intros Ha. unfold int_half. rewrite !Z.quot_div_nonneg by lia.
  apply Z.div_le_upper_bound; [lia|].
  pose proof (Z.mul_succ_div_gt a 2 ltac:(lia)). lia.
Qed.

(** X4.  On one frame the two locators find an obstacle together, and the
    pixel of [NewDepthSensorTest.py] is never more than one column left of
    the pixel of [DepthSensorTests.py]; when the pixels below 300 cm form
    one run, it is that pixel or its left neighbour. *)
Theorem locators_side_by_side (f : Mat) (cx cy : Z) :
  DepthSensorTests.getCoordinatesOfCloseObstacle f f = Some (cx, cy) ->
  exists cx',
    NewDepthSensorTest.getCoordinatesOfCloseObstacle f f = Some (cx', cy) /\
    cx - 1 <= cx' /\
    ((forall i j k, 0 <= i -> i <= j -> j <= k -> k < get_width f ->
        (get_value f i cy <? of_int 300)%pf = true ->
        (get_value f k cy <? of_int 300)%pf = true ->
        (get_value f j cy <? of_int 300)%pf = true) ->
     cx' <= cx).
Proof.
  unfold DepthSensorTests.getCoordinatesOfCloseObstacle,
    NewDepthSensorTest.getCoordinatesOfCloseObstacle.
  change (NewDepthSensorTest.depthList f f) with (DepthSensorTests.depthList f f).
  set (l := DepthSensorTests.depthList f f).
  destruct (DepthSensorTests.obstacleBounds l) as [[lft rgt]|] eqn:Hb; [|discriminate].
  intros E. injection E as E1 E2. subst cx cy.
  destruct (NewDepthSensorTest.obstacleBounds l) as [[lft' rgt']|] eqn:Hb'.
  2:{ apply obstacleBounds_none_same in Hb'. congruence. }
  assert (Hleft : lft' = lft).
  { unfold DepthSensorTests.obstacleBounds in Hb.
    unfold NewDepthSensorTest.obstacleBounds in Hb'.
    change (NewDepthSensorTest.leftScan (length l) l 0)
      with (DepthSensorTests.leftScan (length l) l 0) in Hb'.
    destruct (DepthSensorTests.leftScan (length l) l 0 >=? len l); [discriminate|].
    injection Hb as E1 _. injection Hb' as E1' _. congruence. }
  subst lft'.
  destruct (forward_bounds _ _ _ Hb) as (H0 & Hlt & Hlen & Hbefore & Hat & Hin & Hend).
  destruct (backward_bounds _ _ _ Hb')
    as (_ & Hle' & Hlen' & _ & _ & Hafter' & Hat').
  assert (Hw : len l = Z.max 0 (get_width f)) by (unfold l; apply len_depthList).
  assert (Hclose : forall j, 0 <= j < get_width f ->
            (item l j <? of_int 300)%pf = (get_value f j (int_half (get_height f)) <? of_int 300)%pf).
  { intros j Hj. unfold l. rewrite item_depthList by exact Hj. apply clipData_ltb_raw. }
  assert (Hfar : forall j, 0 <= j < get_width f ->
            (item l j >=? of_int 300)%pf = negb (item l j <? of_int 300)%pf).
  { intros j Hj. unfold l. now apply item_depthList_geb. }
  (* the last pixel of the first run is below 300, so not right of [rgt'] *)
  assert (Hlast : rgt - 1 <= rgt').
  { destruct (Z_le_gt_dec (rgt - 1) rgt') as [|Hgt]; [assumption|].
    specialize (Hafter' (rgt - 1) ltac:(lia)).
    rewrite Hfar in Hafter' by lia. apply negb_true_iff in Hafter'.
    destruct (Z.eq_dec (rgt - 1) lft) as [Heq|Hne].
    - rewrite Heq in Hafter'. rewrite Hfar, Hafter' in Hat by lia. discriminate.
    - rewrite (Hin (rgt - 1)) in Hafter' by lia. discriminate. }
  exists (int_half (lft + rgt')). split; [reflexivity|]. split.
  - pose proof (int_half_mono (lft + (rgt - 1)) (lft + rgt') ltac:(lia) ltac:(lia)).
    pose proof (int_half_succ (lft + (rgt - 1)) ltac:(lia)).
    replace (lft + (rgt - 1) + 1) with (lft + rgt) in * by lia. lia.
  - intros Hrun.
    assert (Hsame : rgt' < rgt).
    { destruct (Z_lt_ge_dec rgt' rgt) as [|Hge]; [assumption|].
      specialize (Hend ltac:(lia)).
      rewrite Hclose in Hend by lia.
      rewrite (Hrun lft rgt rgt') in Hend; try lia; try discriminate.
      - rewrite <- Hclose by lia.
        rewrite Hfar in Hat by lia. now apply negb_false_iff in Hat.
      - rewrite <- Hclose by lia.
        rewrite Hfar in Hat' by lia. now apply negb_false_iff in Hat'. }
    apply int_half_mono; lia.
Qed.

Lemma locators_side_by_side_witness :
  exists cx',
    NewDepthSensorTest.getCoordinatesOfCloseObstacle
      (row_frame [300; 50; 50; 300]) (row_frame [300; 50; 50; 300]) = Some (cx', 0) /\
    2 - 1 <= cx'.
Proof.
  destruct (locators_side_by_side (row_frame [300; 50; 50; 300]) 2 0)
    as (cx' & H & Hle & _).
  - vm_compute. reflexivity.
  - exists cx'. split; assumption.
Defined.

(** ** The pixel a capture reads *)

Lemma clipData_leb_lower (v lower upper : float) :
  (lower <=? upper)%pf = true ->
  (lower <=? DepthSensorTests.clipData v lower upper)%pf = true.
Proof.
  intros Hb. destruct (leb_not_nan _ _ Hb) as [Nl Nu].
  unfold DepthSensorTests.clipData.
  destruct (isnan v) eqn:Nv.
  - rewrite orb_true_r. exact Hb.
  - rewrite orb_false_r. destruct (v >? upper)%pf; [exact Hb|].
    destruct (v <? lower)%pf eqn:Hlt; [now apply leb_refl|].
    rewrite (ltb_negb_leb _ _ Nv Nl) in Hlt. now apply negb_false_iff in Hlt.
Qed.

(** X5.  On a grab that succeeds with a frame that is not empty, the
    pixel a capture reads, at the obstacle or at the center, lies inside
    the frame, and the reading is a number between 0 and 300; this holds
    in both depth programs. *)
Theorem reading_inside_frame (g : Grab) :
  is_success (error g) = true ->
  0 < get_width (frame g) -> 0 < get_height (frame g) ->
  let inside x y (d : float) :=
    0 <= x < get_width (frame g) /\ 0 <= y < get_height (frame g) /\
    d = DepthSensorTests.clipData (get_value (frame g) x y) (of_int 0) (of_int 300) /\
    (of_int 0 <=? d)%pf = true /\ (d <=? of_int 300)%pf = true in
  (forall b, exists x y d,
     DepthSensorTests.captureImageAndCheckForObstacle g b
     = ((Some d, x, y),
        {| DepthSensorTests.image := frame g; DepthSensorTests.depth_matrix := frame g |},
        [PrintDistance (Some (timestamp g)) x y d])
     /\ inside x y d) /\
  (forall d0 b, exists x y d,
     NewDepthSensorTest.grab_and_measure g d0 b
     = (d, {| NewDepthSensorTest.image := frame g; NewDepthSensorTest.depth_matrix := frame g |},
        [PrintDistance None x y d])
     /\ inside x y d).
Proof.
  intros Hok Hw Hh inside.
  assert (Hin : forall x y, 0 <= x < get_width (frame g) -> y = int_half (get_height (frame g)) ->
            inside x y (DepthSensorTests.clipData (get_value (frame g) x y)
                          (of_int 0) (of_int 300))).
  { intros x y Hx ->. pose proof (int_half_in_row _ Hh). unfold inside.
    repeat split; try lia.
    - now apply clipData_leb_lower.
    - now apply clipData_leb_upper. }
  split.
  - intros b. unfold DepthSensorTests.captureImageAndCheckForObstacle. rewrite Hok.
    cbn [DepthSensorTests.image DepthSensorTests.depth_matrix].
    destruct (DepthSensorTests.getCoordinatesOfCloseObstacle (frame g) (frame g))
      as [[cx cy]|] eqn:Hloc.
    + destruct (forward_locator_column _ _ _ Hloc) as [Hx Hy].
      eexists _, _, _. split; [reflexivity|]. now apply Hin.
    + eexists _, _, _. split; [reflexivity|].
      apply Hin; [now apply int_half_in_row | reflexivity].
  - intros d0 b. unfold NewDepthSensorTest.grab_and_measure. rewrite Hok.
    cbn [NewDepthSensorTest.image NewDepthSensorTest.depth_matrix].
    destruct (NewDepthSensorTest.getCoordinatesOfCloseObstacle (frame g) (frame g))
      as [[cx cy]|] eqn:Hloc.
    + destruct (backward_locator_column _ _ _ Hloc) as [Hx Hy].
      eexists _, _, _. split; [reflexivity|]. now apply Hin.
    + eexists _, _, _. split; [reflexivity|].
      apply Hin; [now apply int_half_in_row | reflexivity].
Qed.

Lemma reading_inside_frame_witness :
  exists x y d,
    DepthSensorTests.captureImageAndCheckForObstacle
      (grabbed (row_frame [300; 50; 50; 300])) DepthSensorTests.new_Buffers
    = ((Some d, x, y),
       {| DepthSensorTests.image := row_frame [300; 50; 50; 300];
          DepthSensorTests.depth_matrix := row_frame [300; 50; 50; 300] |},
       [PrintDistance (Some 0) x y d])
    /\ 0 <= x < 4.
Proof.
  pose proof (reading_inside_frame (grabbed (row_frame [300; 50; 50; 300]))) as H.
  specialize (H eq_refl ltac:(cbn; lia) ltac:(cbn; lia)).
  destruct H as [H _].
  destruct (H DepthSensorTests.new_Buffers) as (x & y & d & E & Hx & _).
  exists x, y, d. split; [exact E | exact Hx].
Defined.

(** ** What the capture loops return *)

(** A loop that returns, having started with its condition true, returns
    the state its body made of the last input it consumed; the condition
    held before that iteration and fails after it. *)
Lemma while_returned_last {I S : Type} (cond : S -> bool) (body : I -> S -> S) :
  forall (inputs : list I) (s0 s : S) (rest : list I),
  cond s0 = true ->
  while cond body inputs s0 = Returned s rest ->
  exists before i,
    inputs = before ++ i :: rest /\
    cond (fold_left (fun s i => body i s) before s0) = true /\
    s = body i (fold_left (fun s i => body i s) before s0) /\
    cond s = false.
Proof.
  induction inputs as [|i inputs IH]; intros s0 s rest Hs0; cbn [while]; rewrite Hs0.
  - discriminate.
  - destruct (cond (body i s0)) eqn:Hnext.
    + intros Hrun. destruct (IH _ _ _ Hnext Hrun) as (before & j & -> & Hc & -> & Hstop).
      exists (i :: before), j. cbn [fold_left app]. auto.
    + rewrite while_exit by exact Hnext. intros E. injection E as E1 E2. subst s rest.
      exists [], i. cbn [fold_left app]. auto.
Qed.

(** A loop still running at the end of its inputs has consumed them all. *)
Lemma while_running {I S : Type} (cond : S -> bool) (body : I -> S -> S) :
  forall (inputs : list I) (s0 s : S),
  while cond body inputs s0 = Running s ->
  s = fold_left (fun s i => body i s) inputs s0 /\ cond s = true.
Proof.
  induction inputs as [|i inputs IH]; intros s0 s; cbn [while];
    destruct (cond s0) eqn:Hs0; try discriminate.
  - intros E. injection E as <-. auto.
  - intros Hrun. cbn [fold_left]. now apply IH.
Qed.

(** Whatever a loop returns or is left with, it is the state after some
    prefix of the inputs, the rest being what it did not consume. *)
Lemma while_prefix {I S : Type} (cond : S -> bool) (body : I -> S -> S) :
  forall (inputs : list I) (s0 : S),
  exists before rest,
    inputs = before ++ rest /\
    (while cond body inputs s0
       = Returned (fold_left (fun s i => body i s) before s0) rest
     \/ (rest = [] /\
         while cond body inputs s0
           = Running (fold_left (fun s i => body i s) before s0))).
Proof.
  induction inputs as [|i inputs IH]; intros s0; cbn [while].
  - exists [], []. destruct (cond s0); cbn [fold_left]; auto.
  - destruct (cond s0).
    + destruct (IH (body i s0)) as (before & rest & -> & H).
      exists (i :: before), rest. cbn [fold_left app]. auto.
    + exists [], (i :: inputs). cbn [fold_left app]. auto.
Qed.

(** One iteration of a capture loop of [DepthSensorTests.py] on a grab that
    succeeds. *)
Lemma capture_body_success (g : Grab) (s : DepthSensorTests.Capture) :
  is_success (error g) = true ->
  let s' := DepthSensorTests.capture_body g s in
  DepthSensorTests.image (DepthSensorTests.buffers s') = frame g /\
  DepthSensorTests.depthValue s'
  = Some (DepthSensorTests.clipData
            (get_value (frame g) (DepthSensorTests.x s') (DepthSensorTests.y s'))
            (of_int 0) (of_int 300)) /\
  (DepthSensorTests.x s', DepthSensorTests.y s')
  = match DepthSensorTests.getCoordinatesOfCloseObstacle (frame g) (frame g) with
    | Some xy => xy
    | None => (int_half (get_width (frame g)), int_half (get_height (frame g)))
    end.
Proof.
  intros Hok. unfold DepthSensorTests.capture_body,
    DepthSensorTests.captureImageAndCheckForObstacle.
  rewrite Hok. cbn [DepthSensorTests.image DepthSensorTests.depth_matrix].
  destruct (DepthSensorTests.getCoordinatesOfCloseObstacle (frame g) (frame g))
    as [[cx cy]|]; cbn; auto.
Qed.

Lemma capture_body_failure (g : Grab) (s : DepthSensorTests.Capture) :
  is_success (error g) = false ->
  DepthSensorTests.depthValue (DepthSensorTests.capture_body g s) = None.
Proof.
  intros Hko. unfold DepthSensorTests.capture_body,
    DepthSensorTests.captureImageAndCheckForObstacle.
  now rewrite Hko.
Qed.

(** X6.  When the approach loop of [DepthSensorTests.py] returns, the last
    grab it consumed succeeded, the image it returns is the frame of that
    grab, and the cleaned depth of that frame at the returned pixel is at
    most 100 cm; if the frame is not empty, the returned pixel is the one
    the obstacle locator found in it. *)
Theorem approach_returns_close_obstacle
    (zed : list Grab) (s : DepthSensorTests.Capture) (rest : list Grab) :
  DepthSensorTests.captureImagesUntilCloseToObstacle zed = Returned s rest ->
  exists before g d,
    zed = before ++ g :: rest /\
    is_success (error g) = true /\
    DepthSensorTests.image (DepthSensorTests.buffers s) = frame g /\
    DepthSensorTests.depthValue s = Some d /\
    d = DepthSensorTests.clipData
          (get_value (frame g) (DepthSensorTests.x s) (DepthSensorTests.y s))
          (of_int 0) (of_int 300) /\
    (d <=? of_int 100)%pf = true /\
    (0 < get_width (frame g) ->
     DepthSensorTests.getCoordinatesOfCloseObstacle (frame g) (frame g)
     = Some (DepthSensorTests.x s, DepthSensorTests.y s)).
Proof.
  intros Hrun.
  destruct (while_returned_last _ _ zed _ _ _ eq_refl Hrun)
    as (before & g & Hzed & _ & Hs & Hstop).
  set (s' := fold_left _ before _) in Hs.
  destruct (is_success (error g)) eqn:Hok.
  2:{ unfold DepthSensorTests.approaching in Hstop.
      rewrite Hs, (capture_body_failure g s' Hok) in Hstop. discriminate. }
  destruct (capture_body_success g s' Hok) as (Himg & Hd & Hxy).
  rewrite <- Hs in Himg, Hd, Hxy.
  exists before, g. eexists. split; [exact Hzed|]. split; [exact Hok|].
  split; [exact Himg|]. split; [exact Hd|]. split; [reflexivity|].
  unfold DepthSensorTests.approaching in Hstop. rewrite Hd in Hstop.
  split.
  - rewrite gtb_negb_leb in Hstop; [now apply negb_false_iff in Hstop| |reflexivity].
    now apply clipData_not_nan.
  - intros Hw.
    destruct (DepthSensorTests.getCoordinatesOfCloseObstacle (frame g) (frame g))
      as [[cx cy]|] eqn:Hloc; [now rewrite Hxy|].
    injection Hxy as Hx Hy. rewrite Hx, Hy in Hstop.
    rewrite (no_obstacle_center_value (frame g) Hw Hloc) in Hstop. discriminate.
Qed.

Lemma approach_returns_close_obstacle_witness :
  exists before g d,
    [grabbed (flat_frame 200); grabbed (flat_frame 50); grabbed (flat_frame 200)]
      = before ++ g :: [grabbed (flat_frame 200)] /\
    is_success (error g) = true /\ (d <=? of_int 100)%pf = true.
Proof.
  destruct (approach_returns_close_obstacle
              [grabbed (flat_frame 200); grabbed (flat_frame 50); grabbed (flat_frame 200)]
              (DepthSensorTests.capture_body (grabbed (flat_frame 50))
                 (DepthSensorTests.capture_body (grabbed (flat_frame 200))
                    DepthSensorTests.capture_init))
              [grabbed (flat_frame 200)])
    as (before & g & d & Hzed & Hok & _ & _ & _ & Hd & _).
  - vm_compute. reflexivity.
  - exists before, g, d. auto.
Defined.

(** X7.  When the clear loop of [DepthSensorTests.py] returns, the last
    grab it consumed succeeded and the cleaned depth it read from that
    frame is at least 125 cm: the reading is 300 when the frame has no
    obstacle, and else the depth at the obstacle the locator found. *)
Theorem clear_returns_far_reading
    (zed : list Grab) (s : DepthSensorTests.Capture) (rest : list Grab) :
  DepthSensorTests.captureImagesUntilClear zed = Returned s rest ->
  exists before g d,
    zed = before ++ g :: rest /\
    is_success (error g) = true /\
    DepthSensorTests.depthValue s = Some d /\
    d = DepthSensorTests.clipData
          (get_value (frame g) (DepthSensorTests.x s) (DepthSensorTests.y s))
          (of_int 0) (of_int 300) /\
    (d >=? of_int 125)%pf = true /\
    (0 < get_width (frame g) ->
     match DepthSensorTests.getCoordinatesOfCloseObstacle (frame g) (frame g) with
     | Some xy => (DepthSensorTests.x s, DepthSensorTests.y s) = xy
     | None => d = of_int 300
     end).
Proof.
  intros Hrun.
  destruct (while_returned_last _ _ zed _ _ _ eq_refl Hrun)
    as (before & g & Hzed & _ & Hs & Hstop).
  set (s' := fold_left _ before _) in Hs.
  destruct (is_success (error g)) eqn:Hok.
  2:{ unfold DepthSensorTests.blocked in Hstop.
      rewrite Hs, (capture_body_failure g s' Hok) in Hstop. discriminate. }
  destruct (capture_body_success g s' Hok) as (Himg & Hd & Hxy).
  rewrite <- Hs in Himg, Hd, Hxy.
  exists before, g. eexists. split; [exact Hzed|]. split; [exact Hok|].
  split; [exact Hd|]. split; [reflexivity|].
  unfold DepthSensorTests.blocked in Hstop. rewrite Hd in Hstop.
  split.
  - rewrite ltb_negb_geb in Hstop; [now apply negb_false_iff in Hstop| |reflexivity].
    now apply clipData_not_nan.
  - intros Hw.
    destruct (DepthSensorTests.getCoordinatesOfCloseObstacle (frame g) (frame g))
      as [[cx cy]|] eqn:Hloc; [exact Hxy|].
    injection Hxy as Hx Hy. rewrite Hx, Hy.
    exact (no_obstacle_center_value (frame g) Hw Hloc).
Qed.

Lemma clear_returns_far_reading_witness :
  exists before g d,
    [grabbed (flat_frame 50); grabbed (flat_frame 200)] = before ++ [g] /\
    is_success (error g) = true /\ (d >=? of_int 125)%pf = true.
Proof.
  destruct (clear_returns_far_reading
              [grabbed (flat_frame 50); grabbed (flat_frame 200)]
              (DepthSensorTests.capture_body (grabbed (flat_frame 200))
                 (DepthSensorTests.capture_body (grabbed (flat_frame 50))
                    DepthSensorTests.capture_init))
              [])
    as (before & g & d & Hzed & Hok & _ & _ & Hd & _).
  - vm_compute. reflexivity.
  - exists before, g, d. auto.
Defined.

(** ** What the capture loops print *)

Lemma capture_body_prints (g : Grab) (s : DepthSensorTests.Capture) :
  exists o, DepthSensorTests.printed (DepthSensorTests.capture_body g s)
            = DepthSensorTests.printed s ++ [o]
            /\ is_capture_line o = true.
Proof.
  unfold DepthSensorTests.capture_body, DepthSensorTests.captureImageAndCheckForObstacle.
  destruct (is_success (error g)); cbn [DepthSensorTests.image DepthSensorTests.depth_matrix].
  - destruct (DepthSensorTests.getCoordinatesOfCloseObstacle (frame g) (frame g))
      as [[cx cy]|]; eexists; split; reflexivity.
  - eexists; split; reflexivity.
Qed.

Lemma capture_fold_prints (zed : list Grab) :
  forall s,
  exists lines,
    DepthSensorTests.printed
      (fold_left (fun s g => DepthSensorTests.capture_body g s) zed s)
    = DepthSensorTests.printed s ++ lines
    /\ length lines = length zed
    /\ forallb is_capture_line lines = true.
Proof.
  induction zed as [|g zed IH]; intros s; cbn [fold_left].
  - exists []. rewrite app_nil_r. auto.
  - destruct (IH (DepthSensorTests.capture_body g s)) as (lines & -> & Hlen & Hall).
    destruct (capture_body_prints g s) as (o & -> & Ho).
    exists (o :: lines). rewrite <- app_assoc. cbn [app length forallb].
    rewrite Ho, Hall, Hlen. auto.
Qed.

Lemma motor_commands_app (a b : list Output) :
  motor_commands (a ++ b) = motor_commands a ++ motor_commands b.
Proof. apply filter_app. Qed.

Lemma motor_commands_lines (lines : list Output) :
  forallb is_capture_line lines = true -> motor_commands lines = [].
Proof.
  induction lines as [|o lines IH]; [reflexivity|].
  cbn [forallb]. intros H. apply andb_prop in H as [Ho Hl].
  cbn [motor_commands filter]. fold (motor_commands lines). rewrite (IH Hl).
  destruct o; try discriminate; reflexivity.
Qed.

(** What a capture loop of [DepthSensorTests.py] printed, however it
    ended: one line for each grab it consumed. *)
Lemma capture_loop_lines (cond : DepthSensorTests.Capture -> bool) (zed : list Grab) :
  exists s rest,
    (while cond DepthSensorTests.capture_body zed DepthSensorTests.capture_init
       = Returned s rest
     \/ (rest = [] /\
         while cond DepthSensorTests.capture_body zed DepthSensorTests.capture_init
           = Running s)) /\
    (length (DepthSensorTests.printed s) + length rest = length zed)%nat /\
    forallb is_capture_line (DepthSensorTests.printed s) = true.
Proof.
  destruct (while_prefix cond DepthSensorTests.capture_body zed
              DepthSensorTests.capture_init) as (before & rest & -> & H).
  destruct (capture_fold_prints before DepthSensorTests.capture_init)
    as (lines & Hp & Hlen & Hall).
  cbn [DepthSensorTests.printed DepthSensorTests.capture_init app] in Hp.
  eexists _, rest. split; [exact H|].
  rewrite Hp, length_app, Hlen. auto.
Qed.

(** X8.  The two capture loops of [DepthSensorTests.py] print exactly one
    line, a distance or a failed grab, for each grab they consume, and
    command nothing. *)
Theorem capture_loops_one_line_per_grab (zed : list Grab) :
  let spec (run : Run Grab DepthSensorTests.Capture) :=
    match run with
    | Returned s rest =>
        (length (DepthSensorTests.printed s) + length rest = length zed)%nat /\
        forallb is_capture_line (DepthSensorTests.printed s) = true /\
        motor_commands (DepthSensorTests.printed s) = []
    | Running s =>
        length (DepthSensorTests.printed s) = length zed /\
        forallb is_capture_line (DepthSensorTests.printed s) = true /\
        motor_commands (DepthSensorTests.printed s) = []
    end in
  spec (DepthSensorTests.captureImagesUntilCloseToObstacle zed) /\
  spec (DepthSensorTests.captureImagesUntilClear zed).
Proof.
  intros spec.
  assert (H : forall cond,
             spec (while cond DepthSensorTests.capture_body zed
                     DepthSensorTests.capture_init)).
  { intros cond.
    destruct (capture_loop_lines cond zed) as (s & rest & [E|[-> E]] & Hlen & Hall);
      rewrite E; cbn [spec length] in *;
      (split; [lia|]); (split; [exact Hall|]); now apply motor_commands_lines. }
  split; apply H.
Qed.
Lemma div_eucl_pair (a b : Z) : Z.div_eucl a b = (a / b, a mod b).
Proof. unfold Z.div, Z.modulo. destruct (Z.div_eucl a b). reflexivity. Qed.

Lemma div_two (M : positive) (e : Z) :
  Zpos (digits2_pos M) = 53 -> -1072 <= e <= 972 ->
  div (S754_finite false M e) (of_int 2) = S754_finite false M (e - 1).
Proof.
  intros Hd He.
  change (of_int 2) with (S754_finite false 4503599627370496 (-51)).
  unfold div, SFdiv, SFdiv_core_binary. cbn [Zdigits2]. rewrite Hd.
  change (Zpos (digits2_pos 4503599627370496)) with 53.
  unfold fexp, emin, prec, emax.
  replace (Z.min (Z.max (53 + e - (53 + -51) - 53) (3 - 1024 - 53)) (e - -51)) with (e - 2) by lia.
  replace (e - -51 - (e - 2)) with 53 by lia.
  cbv beta iota.
  assert (Hq : Z.div_eucl (Z.shiftl (Zpos M) 53) 4503599627370496
               = (Zpos (Pos.shiftl M 1), 0)).
  { rewrite div_eucl_pair, Z.shiftl_mul_pow2 by lia.
    replace (Zpos M * 2 ^ 53) with (Zpos (Pos.shiftl M 1) * 4503599627370496)
      by (change (Pos.shiftl M 1) with (xO M); rewrite (Pos2Z.inj_xO M);
          change (2 ^ 53) with (2 * 4503599627370496); lia).
    rewrite Z.div_mul, Z.mod_mul by lia. reflexivity. }
  change (IntDef.Z.div_eucl (IntDef.Z.shiftl (Z.pos M) 53) 4503599627370496)
    with (Z.div_eucl (Z.shiftl (Zpos M) 53) 4503599627370496).
  rewrite Hq. cbv beta iota.
  change (new_location 4503599627370496 0) with loc_Exact.
  change (binary_round_aux 53 1024) with (binary_round_aux prec emax).
  cbn [xorb].
  rewrite (binary_round_aux_shifted false M 1 (e - 2) Hd) by (cbn [Z.of_N]; lia).
  f_equal. cbn [Z.of_N]. lia.
Qed.
Lemma obstacle_on_left_exact (obstacleX : Z) (f : Mat) :
  0 <= get_width f < 2 ^ 53 ->
  DepthSensorRuns.obstacle_on_left obstacleX f = (2 * obstacleX <? get_width f).
Proof.
  intros Hw. unfold DepthSensorRuns.obstacle_on_left.
  destruct (get_width f) as [|p|p] eqn:Ew; [| |lia].
  - change (div (of_int 0) (of_int 2)) with (S754_zero false).
    cbn [int_ltb]. destruct (Z.ltb_spec obstacleX 0), (Z.ltb_spec (2 * obstacleX) 0);
      try reflexivity; lia.
  - assert (Hd : Zpos (digits2_pos p) <= 53) by (apply digits2_pos_le; lia).
    pose proof (Pos2Z.is_pos (digits2_pos p)) as Hd0.
    unfold of_int at 1. cbn [binary_normalize].
    rewrite (binary_round_int false p Hd).
    set (d := Zpos (digits2_pos p)) in *.
    rewrite div_two; [| rewrite shiftl_digits, Z2N.id; lia | lia].
    unfold int_ltb. cbn [cond_Zopp].
    replace (0 <=? d - 53 - 1) with false by (symmetry; apply Z.leb_gt; lia).
    rewrite shiftl_value, Z2N.id by lia.
    replace (- (d - 53 - 1)) with (Z.succ (53 - d)) by lia.
    rewrite Z.pow_succ_r by lia.
    assert (Hpos : 0 < 2 ^ (53 - d)) by (apply Z.pow_pos_nonneg; lia).
    destruct (Z.ltb_spec (obstacleX * (2 * 2 ^ (53 - d))) (Zpos p * 2 ^ (53 - d))),
             (Z.ltb_spec (2 * obstacleX) (Zpos p)); try reflexivity; nia.
Qed.

(** ** The test runs of [DepthSensorTests.py] *)

Lemma console_app (a b : list Output) : console (a ++ b) = console a ++ console b.
Proof. apply filter_app. Qed.

Lemma console_lines (lines : list Output) :
  forallb is_capture_line lines = true -> console lines = lines.
Proof.
  induction lines as [|o lines IH]; [reflexivity|].
  cbn [forallb]. intros H. apply andb_prop in H as [Ho Hl].
  cbn [console filter]. fold (console lines). rewrite (IH Hl).
  destruct o; try discriminate; reflexivity.
Qed.

Lemma capture_printed_lines (cond : DepthSensorTests.Capture -> bool) (zed : list Grab) :
  match while cond DepthSensorTests.capture_body zed DepthSensorTests.capture_init with
  | Returned s _ | Running s =>
      motor_commands (DepthSensorTests.printed s) = [] /\
      console (DepthSensorTests.printed s) = DepthSensorTests.printed s
  end.
Proof.
  destruct (capture_loop_lines cond zed) as (s & rest & [E|[-> E]] & _ & Hall);
    rewrite E; (split; [now apply motor_commands_lines | now apply console_lines]).
Qed.

(** Rewrites the outputs of the runs into their motor commands or their
    console lines. *)
Ltac run_outputs :=
  unfold DepthSensorRuns.command;
  repeat rewrite ?motor_commands_app, ?console_app;
  repeat match goal with
  | H : motor_commands _ = [] |- _ => rewrite H
  | H : console _ = _ |- _ => rewrite H
  end.

(** X9.  With a motor controller, the turning runs of [DepthSensorTests.py]
    send the turn command at speed 10 once and, if the clear loop returns,
    one stop; nothing else. *)
Theorem turn_runs_commands (zed : list Grab) :
  (let '(out, finished) := DepthSensorRuns.turnLeftAndStopTest true zed in
   motor_commands out = TurnLeft 10 :: (if finished then [Stop] else [])) /\
  (let '(out, finished) := DepthSensorRuns.turnRightAndStopTest true zed in
   motor_commands out = TurnRight 10 :: (if finished then [Stop] else [])).
Proof.
  unfold DepthSensorRuns.turnLeftAndStopTest, DepthSensorRuns.turnRightAndStopTest,
    DepthSensorTests.captureImagesUntilClear.
  pose proof (capture_printed_lines DepthSensorTests.blocked zed) as H.
  destruct (while DepthSensorTests.blocked _ zed _) as [s rest|s];
    destruct H as [Hm Hc]; split; run_outputs; reflexivity.
Qed.

(** X10.  In [steerAwayFromObstacleTest], once the first approach loop has
    returned pixel [x] of an image of width [w] (below [2^53]), the motor
    is stopped and then turned right at speed 10 when [2x < w], that is
    when the obstacle is left of the middle of the image, and left at speed
    10 otherwise, a pixel exactly in the middle included.  A run that comes
    to its end has commanded forward, stop, that turn, stop, forward, stop
    and nothing else. *)
Theorem steer_turns_away_from_obstacle
    (zed : list Grab) (s1 : DepthSensorTests.Capture) (zed1 : list Grab) :
  DepthSensorTests.captureImagesUntilCloseToObstacle zed = Returned s1 zed1 ->
  0 <= get_width (DepthSensorTests.image (DepthSensorTests.buffers s1)) < 2 ^ 53 ->
  exists later,
    motor_commands (fst (DepthSensorRuns.steerAwayFromObstacleTest true zed))
    = [Forward 25; Stop;
       if 2 * DepthSensorTests.x s1
            <? get_width (DepthSensorTests.image (DepthSensorTests.buffers s1))
       then TurnRight 10 else TurnLeft 10] ++ later /\
    (snd (DepthSensorRuns.steerAwayFromObstacleTest true zed) = true ->
     later = [Stop; Forward 25; Stop]) /\
    (snd (DepthSensorRuns.steerAwayFromObstacleTest true zed) = false ->
     later = [] \/ later = [Stop; Forward 25]).
Proof.
  intros Hrun Hw. unfold DepthSensorRuns.steerAwayFromObstacleTest.
  rewrite Hrun.
  rewrite (obstacle_on_left_exact _ _ Hw).
  set (w := get_width (DepthSensorTests.image (DepthSensorTests.buffers s1))).
  pose proof (capture_printed_lines DepthSensorTests.approaching zed) as H1.
  fold (DepthSensorTests.captureImagesUntilCloseToObstacle zed) in H1.
  rewrite Hrun in H1. destruct H1 as [Hm1 _].
  pose proof (capture_printed_lines DepthSensorTests.blocked zed1) as H2.
  fold (DepthSensorTests.captureImagesUntilClear zed1) in H2.
  destruct (DepthSensorTests.captureImagesUntilClear zed1) as [s2 zed2|s2];
    destruct H2 as [Hm2 _].
  - pose proof (capture_printed_lines DepthSensorTests.approaching zed2) as H3.
    fold (DepthSensorTests.captureImagesUntilCloseToObstacle zed2) in H3.
    destruct (DepthSensorTests.captureImagesUntilCloseToObstacle zed2) as [s3 zed3|s3];
      destruct H3 as [Hm3 _]; cbn [fst snd].
    + exists [Stop; Forward 25; Stop]. split; [|split; [reflexivity|discriminate]].
      destruct (2 * DepthSensorTests.x s1 <? w); run_outputs; reflexivity.
    + exists [Stop; Forward 25]. split; [|split; [discriminate|auto]].
      destruct (2 * DepthSensorTests.x s1 <? w); run_outputs; reflexivity.
  - cbn [fst snd]. exists []. split; [|split; [discriminate|auto]].
    destruct (2 * DepthSensorTests.x s1 <? w); run_outputs; reflexivity.
Qed.

Lemma steer_turns_away_from_obstacle_witness :
  exists later,
    motor_commands
      (fst (DepthSensorRuns.steerAwayFromObstacleTest true
              [grabbed (row_frame [50; 300; 300; 300])]))
    = [Forward 25; Stop; TurnRight 10] ++ later.
Proof.
  pose (s1 := DepthSensorTests.capture_body (grabbed (row_frame [50; 300; 300; 300]))
                DepthSensorTests.capture_init).
  assert (Hrun : DepthSensorTests.captureImagesUntilCloseToObstacle
                   [grabbed (row_frame [50; 300; 300; 300])] = Returned s1 [])
    by (vm_compute; reflexivity).
  assert (Hw : 0 <= get_width (DepthSensorTests.image (DepthSensorTests.buffers s1)) < 2 ^ 53)
    by (vm_compute; split; [discriminate | reflexivity]).
  assert (Hx : (2 * DepthSensorTests.x s1
                <? get_width (DepthSensorTests.image (DepthSensorTests.buffers s1))) = true)
    by (vm_compute; reflexivity).
  destruct (steer_turns_away_from_obstacle _ s1 [] Hrun Hw) as (later & H & _).
  rewrite Hx in H. exists later. exact H.
Defined.

(** X11.  Without a motor controller the three runs command nothing, and
    print and end as they do with one: their output is the output of the
    run with a motor less its motor commands. *)
Theorem runs_without_motor (zed : list Grab) :
  let dry (run : bool -> list Grab -> list Output * bool) :=
    motor_commands (fst (run false zed)) = [] /\
    fst (run false zed) = console (fst (run true zed)) /\
    snd (run false zed) = snd (run true zed) in
  dry DepthSensorRuns.turnLeftAndStopTest /\
  dry DepthSensorRuns.turnRightAndStopTest /\
  dry DepthSensorRuns.steerAwayFromObstacleTest.
Proof.
  intros dry. unfold dry.
  assert (Hturn : dry DepthSensorRuns.turnLeftAndStopTest
                  /\ dry DepthSensorRuns.turnRightAndStopTest).
  { unfold dry, DepthSensorRuns.turnLeftAndStopTest, DepthSensorRuns.turnRightAndStopTest,
      DepthSensorTests.captureImagesUntilClear.
    pose proof (capture_printed_lines DepthSensorTests.blocked zed) as H.
    destruct (while DepthSensorTests.blocked _ zed _) as [s rest|s];
      destruct H as [Hm Hc]; cbn [fst snd]; repeat split; run_outputs; reflexivity. }
  destruct Hturn as [Hl Hr]. split; [exact Hl|]. split; [exact Hr|].
  unfold DepthSensorRuns.steerAwayFromObstacleTest.
  pose proof (capture_printed_lines DepthSensorTests.approaching zed) as H1.
  fold (DepthSensorTests.captureImagesUntilCloseToObstacle zed) in H1.
  destruct (DepthSensorTests.captureImagesUntilCloseToObstacle zed) as [s1 zed1|s1];
    destruct H1 as [Hm1 Hc1].
  2:{ cbn [fst snd]. repeat split; run_outputs; reflexivity. }
  pose proof (capture_printed_lines DepthSensorTests.blocked zed1) as H2.
  fold (DepthSensorTests.captureImagesUntilClear zed1) in H2.
  destruct (DepthSensorTests.captureImagesUntilClear zed1) as [s2 zed2|s2];
    destruct H2 as [Hm2 Hc2].
  2:{ cbn [fst snd].
      destruct (DepthSensorRuns.obstacle_on_left _ _);
        repeat split; run_outputs; reflexivity. }
  pose proof (capture_printed_lines DepthSensorTests.approaching zed2) as H3.
  fold (DepthSensorTests.captureImagesUntilCloseToObstacle zed2) in H3.
  destruct (DepthSensorTests.captureImagesUntilCloseToObstacle zed2) as [s3 zed3|s3];
    destruct H3 as [Hm3 Hc3]; cbn [fst snd];
    destruct (DepthSensorRuns.obstacle_on_left _ _);
    repeat split; run_outputs; reflexivity.
Qed.

(** X12.  While every grab fails, no run of [DepthSensorTests.py] comes to
    its end, and the motor, once set in motion, is never told to stop. *)
Theorem failing_camera_never_stops (zed : list Grab) :
  Forall (fun g => is_success (error g) = false) zed ->
  let stuck (run : bool -> list Grab -> list Output * bool) (first : Output) :=
    snd (run true zed) = false /\ motor_commands (fst (run true zed)) = [first] in
  stuck DepthSensorRuns.turnLeftAndStopTest (TurnLeft 10) /\
  stuck DepthSensorRuns.turnRightAndStopTest (TurnRight 10) /\
  stuck DepthSensorRuns.steerAwayFromObstacleTest (Forward 25).
Proof.
  intros Hfail stuck. unfold stuck.
  destruct (failures_never_return zed Hfail) as ([sa Ha] & [sc Hc] & _).
  pose proof (capture_printed_lines DepthSensorTests.approaching zed) as H1.
  fold (DepthSensorTests.captureImagesUntilCloseToObstacle zed) in H1.
  rewrite Ha in H1. destruct H1 as [Hm1 _].
  pose proof (capture_printed_lines DepthSensorTests.blocked zed) as H2.
  fold (DepthSensorTests.captureImagesUntilClear zed) in H2.
  rewrite Hc in H2. destruct H2 as [Hm2 _].
  unfold DepthSensorRuns.turnLeftAndStopTest, DepthSensorRuns.turnRightAndStopTest,
    DepthSensorRuns.steerAwayFromObstacleTest.
  rewrite Ha, Hc. cbn [fst snd].
  repeat split; run_outputs; reflexivity.
Qed.

Lemma failing_camera_never_stops_witness :
  snd (DepthSensorRuns.steerAwayFromObstacleTest true [failed_grab; failed_grab]) = false /\
  motor_commands
    (fst (DepthSensorRuns.steerAwayFromObstacleTest true [failed_grab; failed_grab]))
  = [Forward 25].
Proof.
  refine (proj2 (proj2 (failing_camera_never_stops [failed_grab; failed_grab] _))).
  repeat constructor.
Defined.

(** ** The loops and runs of [NewDepthSensorTest.py] *)

Lemma clipData_far_raw (v : float) :
  (v <? of_int 300)%pf = false ->
  DepthSensorTests.clipData v (of_int 0) (of_int 300) = of_int 300.
Proof.
  intros Hfar. apply leb_antisym_finite.
  - now apply clipData_leb_upper.
  - change ((DepthSensorTests.clipData v (of_int 0) (of_int 300) >=? of_int 300)%pf = true).
    now rewrite clipData_geb_raw, Hfar.
Qed.

Lemma measure_success (g : Grab) (d : float) (b : NewDepthSensorTest.Buffers) :
  is_success (error g) = true ->
  exists x y,
    (x, y) = match NewDepthSensorTest.getCoordinatesOfCloseObstacle (frame g) (frame g) with
             | Some xy => xy
             | None => (int_half (get_width (frame g)), int_half (get_height (frame g)))
             end /\
    NewDepthSensorTest.grab_and_measure g d b
    = (DepthSensorTests.clipData (get_value (frame g) x y) (of_int 0) (of_int 300),
       {| NewDepthSensorTest.image := frame g; NewDepthSensorTest.depth_matrix := frame g |},
       [PrintDistance None x y
          (DepthSensorTests.clipData (get_value (frame g) x y) (of_int 0) (of_int 300))]).
Proof.
  intros Hok. unfold NewDepthSensorTest.grab_and_measure. rewrite Hok.
  cbn [NewDepthSensorTest.image NewDepthSensorTest.depth_matrix].
  destruct (NewDepthSensorTest.getCoordinatesOfCloseObstacle (frame g) (frame g))
    as [[cx cy]|]; eexists _, _; split; reflexivity.
Qed.

Lemma measure_failure (g : Grab) (d : float) (b : NewDepthSensorTest.Buffers) :
  is_success (error g) = false ->
  NewDepthSensorTest.grab_and_measure g d b = (d, b, [PrintGrabFailed (error g)]).
Proof. intros Hko. unfold NewDepthSensorTest.grab_and_measure. now rewrite Hko. Qed.

(** X13.  In [NewDepthSensorTest.py] the pixel the locator returns can be a
    far one: whenever the raw depth at the returned midpoint is not below
    300 cm, the reading of that frame is 300, so the approach loop goes on
    and the clear loop returns, whatever the depths of the pixels that made
    the locator answer. *)
Theorem midpoint_reading_far (g : Grab) (cx cy : Z) :
  is_success (error g) = true ->
  NewDepthSensorTest.getCoordinatesOfCloseObstacle (frame g) (frame g) = Some (cx, cy) ->
  (get_value (frame g) cx cy <? of_int 300)%pf = false ->
  (forall t s, NewDepthSensorTest.grab t = g ->
     NewDepthSensorTest.depthValue (NewDepthSensorTest.approach_body t s) = of_int 300 /\
     NewDepthSensorTest.approaching (NewDepthSensorTest.approach_body t s) = true) /\
  (forall s,
     NewDepthSensorTest.clear_depthValue (NewDepthSensorTest.clear_body g s) = of_int 300 /\
     NewDepthSensorTest.blocked (NewDepthSensorTest.clear_body g s) = false).
Proof.
  intros Hok Hloc Hfar.
  assert (Hm : forall d b,
             fst (fst (NewDepthSensorTest.grab_and_measure g d b)) = of_int 300).
  { intros d b. destruct (measure_success g d b Hok) as (x & y & Hxy & ->).
    rewrite Hloc in Hxy. injection Hxy as -> ->. cbn [fst].
    now apply clipData_far_raw. }
  split.
  - intros t s <-.
    unfold NewDepthSensorTest.approaching, NewDepthSensorTest.approach_body.
    specialize (Hm (NewDepthSensorTest.depthValue s) (NewDepthSensorTest.buffers s)).
    destruct (NewDepthSensorTest.grab_and_measure _ _ _) as [[d b] o].
    cbn [fst] in Hm. subst d. cbn [NewDepthSensorTest.depthValue]. auto.
  - intros s.
    unfold NewDepthSensorTest.blocked, NewDepthSensorTest.clear_body.
    specialize (Hm (NewDepthSensorTest.clear_depthValue s) (NewDepthSensorTest.clear_buffers s)).
    destruct (NewDepthSensorTest.grab_and_measure _ _ _) as [[d b] o].
    cbn [fst] in Hm. subst d. cbn [NewDepthSensorTest.clear_depthValue]. auto.
Qed.

Lemma midpoint_reading_far_witness :
  NewDepthSensorTest.approaching
    (NewDepthSensorTest.approach_body (tick 0 (grabbed (row_frame [50; 300; 50])))
       NewDepthSensorTest.approach_init) = true.
Proof.
  pose proof (midpoint_reading_far (grabbed (row_frame [50; 300; 50])) 1 0) as H.
  specialize (H ltac:(vm_compute; reflexivity)).
  specialize (H ltac:(vm_compute; reflexivity)).
  specialize (H ltac:(vm_compute; reflexivity)).
  exact (proj2 (proj1 H (tick 0 (grabbed (row_frame [50; 300; 50])))
                  NewDepthSensorTest.approach_init eq_refl)).
Defined.

(** X14.  When a loop of [NewDepthSensorTest.py] returns, the last grab it
    consumed succeeded, and the reading of that frame is at most 150 cm for
    the approach loop and at least 150 cm for the clear loop. *)
Theorem new_loops_return_on_reading :
  (forall zed s rest,
     NewDepthSensorTest.captureImagesUntilCloseToObstacle zed = Returned s rest ->
     exists before t,
       zed = before ++ t :: rest /\
       is_success (error (NewDepthSensorTest.grab t)) = true /\
       NewDepthSensorTest.image (NewDepthSensorTest.buffers s)
         = frame (NewDepthSensorTest.grab t) /\
       (NewDepthSensorTest.depthValue s <=? of_int 150)%pf = true) /\
  (forall zed s rest,
     NewDepthSensorTest.captureImagesUntilClear zed = Returned s rest ->
     exists before g,
       zed = before ++ g :: rest /\
       is_success (error g) = true /\
       NewDepthSensorTest.image (NewDepthSensorTest.clear_buffers s) = frame g /\
       (NewDepthSensorTest.clear_depthValue s >=? of_int 150)%pf = true).
Proof.
  split; intros zed s rest Hrun.
  - destruct (while_returned_last _ _ zed _ _ _ eq_refl Hrun)
      as (before & t & Hzed & Hbefore & Hs & Hstop).
    set (s' := fold_left _ before _) in *.
    exists before, t. split; [exact Hzed|].
    unfold NewDepthSensorTest.approaching in Hstop, Hbefore.
    unfold NewDepthSensorTest.approach_body in Hs.
    destruct (is_success (error (NewDepthSensorTest.grab t))) eqn:Hok.
    + split; [reflexivity|].
      destruct (measure_success (NewDepthSensorTest.grab t)
                  (NewDepthSensorTest.depthValue s') (NewDepthSensorTest.buffers s') Hok)
        as (x & y & _ & Hm).
      rewrite Hm in Hs. subst s.
      cbn [NewDepthSensorTest.depthValue NewDepthSensorTest.buffers
           NewDepthSensorTest.image] in *.
      split; [reflexivity|].
      rewrite gtb_negb_leb in Hstop; [now apply negb_false_iff in Hstop| |reflexivity].
      now apply clipData_not_nan.
    + rewrite measure_failure in Hs by exact Hok. subst s.
      cbn [NewDepthSensorTest.depthValue] in Hstop. congruence.
  - destruct (while_returned_last _ _ zed _ _ _ eq_refl Hrun)
      as (before & g & Hzed & Hbefore & Hs & Hstop).
    set (s' := fold_left _ before _) in *.
    exists before, g. split; [exact Hzed|].
    unfold NewDepthSensorTest.blocked in Hstop, Hbefore.
    unfold NewDepthSensorTest.clear_body in Hs.
    destruct (is_success (error g)) eqn:Hok.
    + split; [reflexivity|].
      destruct (measure_success g (NewDepthSensorTest.clear_depthValue s')
                  (NewDepthSensorTest.clear_buffers s') Hok) as (x & y & _ & Hm).
      rewrite Hm in Hs. subst s.
      cbn [NewDepthSensorTest.clear_depthValue NewDepthSensorTest.clear_buffers
           NewDepthSensorTest.image] in *.
      split; [reflexivity|].
      rewrite ltb_negb_geb in Hstop; [now apply negb_false_iff in Hstop| |reflexivity].
      now apply clipData_not_nan.
    + rewrite measure_failure in Hs by exact Hok. subst s.
      cbn [NewDepthSensorTest.clear_depthValue] in Hstop. congruence.
Qed.

Lemma new_loops_return_on_reading_witness :
  exists before t,
    [tick 0 (grabbed (flat_frame 200)); tick 0 (grabbed (flat_frame 50))] = before ++ [t] /\
    is_success (error (NewDepthSensorTest.grab t)) = true.
Proof.
  destruct (proj1 new_loops_return_on_reading
              [tick 0 (grabbed (flat_frame 200)); tick 0 (grabbed (flat_frame 50))]
              (NewDepthSensorTest.approach_body (tick 0 (grabbed (flat_frame 50)))
                 (NewDepthSensorTest.approach_body (tick 0 (grabbed (flat_frame 200)))
                    NewDepthSensorTest.approach_init))
              [])
    as (before & t & Hzed & Hok & _).
  - vm_compute. reflexivity.
  - exists before, t. auto.
Defined.

(** What an iteration of the approach loop prints and commands. *)
Lemma approach_body_prints (t : NewDepthSensorTest.Tick) (s : NewDepthSensorTest.Approach) :
  exists o,
    NewDepthSensorTest.printed (NewDepthSensorTest.approach_body t s)
    = NewDepthSensorTest.printed s
      ++ (if NewDepthSensorTest.command_due (NewDepthSensorTest.clock t)
               (NewDepthSensorTest.initialTime s)
          then [Forward 20] else [])
      ++ [o]
    /\ is_capture_line o = true.
Proof.
  unfold NewDepthSensorTest.approach_body, NewDepthSensorTest.grab_and_measure.
  destruct (is_success (error (NewDepthSensorTest.grab t)));
    cbn [NewDepthSensorTest.image NewDepthSensorTest.depth_matrix].
  - destruct (NewDepthSensorTest.getCoordinatesOfCloseObstacle _ _) as [[cx cy]|];
      eexists; split; reflexivity.
  - eexists; split; reflexivity.
Qed.

Lemma approach_fold_commands (zed : list NewDepthSensorTest.Tick) :
  forall s,
  exists k,
    motor_commands
      (NewDepthSensorTest.printed
         (fold_left (fun s t => NewDepthSensorTest.approach_body t s) zed s))
    = motor_commands (NewDepthSensorTest.printed s) ++ repeat (Forward 20) k
    /\ (k <= length zed)%nat.
Proof.
  induction zed as [|t zed IH]; intros s; cbn [fold_left].
  - exists 0%nat. cbn [repeat]. rewrite app_nil_r. auto.
  - destruct (IH (NewDepthSensorTest.approach_body t s)) as (k & -> & Hk).
    destruct (approach_body_prints t s) as (o & -> & Ho).
    rewrite !motor_commands_app.
    replace (motor_commands [o]) with (@nil Output)
      by (destruct o; try discriminate; reflexivity).
    rewrite app_nil_r, <- app_assoc.
    destruct (NewDepthSensorTest.command_due _ _).
    + exists (S k). cbn [length]. split; [reflexivity | lia].
    + exists k. cbn [length]. split; [reflexivity | lia].
Qed.

(** With a motor, the approach loop of the run is the loop of module
    [NewDepthSensorTest]. *)
Lemma approach_with_motor (zed : list NewDepthSensorTest.Tick) :
  forall s,
  NewDepthSensorRuns.approach true zed s
  = match while NewDepthSensorTest.approaching NewDepthSensorTest.approach_body zed s with
    | Returned s' rest => NewDepthSensorRuns.Close s' rest
    | Running s' => NewDepthSensorRuns.Waiting s'
    end.
Proof.
  induction zed as [|t zed IH]; intros s; cbn [NewDepthSensorRuns.approach while].
  - destruct (NewDepthSensorTest.approaching s); reflexivity.
  - destruct (NewDepthSensorTest.approaching s); [|reflexivity].
    cbn [negb]. rewrite andb_false_r. apply IH.
Qed.

(** X15.  With a motor controller, [moveForwardAndStopTest] of
    [NewDepthSensorTest.py] never fails for want of one; it commands
    forward at speed 25, then forward at speed 20 at most once per
    iteration of the approach loop, and, once the loop has returned, four
    times backward at speed 20 and one stop, which ends the run. *)
Theorem new_run_with_motor (zed : list NewDepthSensorTest.Tick) :
  let '(out, outcome) := NewDepthSensorRuns.moveForwardAndStopTest true zed in
  outcome <> NewDepthSensorRuns.AttributeError /\
  exists k,
    (k <= length zed)%nat /\
    motor_commands out
    = Forward 25 :: repeat (Forward 20) k
      ++ match outcome with
         | NewDepthSensorRuns.Finished =>
             [Backward 20; Backward 20; Backward 20; Backward 20; Stop]
         | _ => []
         end.
Proof.
  unfold NewDepthSensorRuns.moveForwardAndStopTest.
  rewrite approach_with_motor.
  destruct (while_prefix NewDepthSensorTest.approaching NewDepthSensorTest.approach_body
              zed NewDepthSensorTest.approach_init) as (before & rest & -> & [E|[-> E]]);
    rewrite E;
    (split; [discriminate|]);
    destruct (approach_fold_commands before NewDepthSensorTest.approach_init)
      as (k & Hk & Hle);
    cbn [NewDepthSensorTest.printed NewDepthSensorTest.approach_init
         motor_commands filter app] in Hk;
    fold (motor_commands
            (NewDepthSensorTest.printed
               (fold_left (fun s t => NewDepthSensorTest.approach_body t s) before
                  NewDepthSensorTest.approach_init))) in Hk;
    exists k; (split; [rewrite length_app; lia|]);
    rewrite !motor_commands_app, Hk;
    cbn [motor_commands filter is_motor_command app]; rewrite ?app_nil_r; reflexivity.
Qed.

(** Without a motor the approach loop either fails or has sent nothing. *)
Lemma approach_without_motor (zed : list NewDepthSensorTest.Tick) :
  forall s,
  forallb is_capture_line (NewDepthSensorTest.printed s) = true ->
  match NewDepthSensorRuns.approach false zed s with
  | NewDepthSensorRuns.Close s' _ | NewDepthSensorRuns.Waiting s'
  | NewDepthSensorRuns.NoMotor s' =>
      forallb is_capture_line (NewDepthSensorTest.printed s') = true
  end.
Proof.
  induction zed as [|t zed IH]; intros s Hs; cbn [NewDepthSensorRuns.approach].
  - destruct (NewDepthSensorTest.approaching s); exact Hs.
  - destruct (NewDepthSensorTest.approaching s); [|exact Hs].
    cbn [negb]. rewrite andb_true_r.
    destruct (NewDepthSensorTest.command_due _ _) eqn:Hdue; [exact Hs|].
    apply IH. destruct (approach_body_prints t s) as (o & -> & Ho).
    rewrite Hdue. cbn [app]. rewrite forallb_app, Hs. cbn [forallb]. now rewrite Ho.
Qed.

(** X16.  Without a motor controller, [moveForwardAndStopTest] of
    [NewDepthSensorTest.py] never comes to its end: it commands nothing,
    never prints that the robot has stopped, and fails with
    [AttributeError] at the first forward command that is due, or at the
    first backward command if the loop returned before.  On any clock that
    reads more than 100 ms it fails in the first iteration, before the
    first grab. *)
Theorem new_run_without_motor (zed : list NewDepthSensorTest.Tick) :
  let '(out, outcome) := NewDepthSensorRuns.moveForwardAndStopTest false zed in
  outcome <> NewDepthSensorRuns.Finished /\
  motor_commands out = [] /\
  ~ In (Print "Robot has stopped") out /\
  (forall t rest, zed = t :: rest -> NewDepthSensorTest.clock t > MIN_INTERVAL ->
     out = [Print "Robot moving forward"%string] /\
     outcome = NewDepthSensorRuns.AttributeError).
Proof.
  unfold NewDepthSensorRuns.moveForwardAndStopTest.
  pose proof (approach_without_motor zed NewDepthSensorTest.approach_init eq_refl) as Hlines.
  assert (Hfirst : forall t rest, zed = t :: rest ->
            NewDepthSensorTest.clock t > MIN_INTERVAL ->
            NewDepthSensorRuns.approach false zed NewDepthSensorTest.approach_init
            = NewDepthSensorRuns.NoMotor NewDepthSensorTest.approach_init).
  { intros t rest -> Hclock. cbn [NewDepthSensorRuns.approach].
    change (NewDepthSensorTest.approaching NewDepthSensorTest.approach_init) with true.
    cbv iota. cbn [NewDepthSensorTest.initialTime NewDepthSensorTest.approach_init].
    rewrite command_due_same, command_due_exact by (cbn; lia).
    replace (NewDepthSensorTest.clock t >? 0 + MIN_INTERVAL) with true
      by (symmetry; apply Z.gtb_gt; lia).
    reflexivity. }
  assert (Hno : forall lines,
            forallb is_capture_line lines = true ->
            motor_commands ([] ++ [Print "Robot moving forward"%string] ++ lines) = [] /\
            ~ In (Print "Robot has stopped"%string)
                ([] ++ [Print "Robot moving forward"%string] ++ lines)).
  { intros lines Hl. split.
    - cbn [app motor_commands filter is_motor_command].
      now apply motor_commands_lines.
    - cbn [app In]. intros [H|H]; [discriminate|].
      rewrite forallb_forall in Hl. specialize (Hl _ H). discriminate. }
  destruct (NewDepthSensorRuns.approach false zed NewDepthSensorTest.approach_init)
    as [s rest|s|s] eqn:E; cbv iota;
    (split; [discriminate|]);
    destruct (Hno _ Hlines) as [Hm Hin];
    (split; [exact Hm|]); (split; [exact Hin|]);
    intros t rest' Hz Hclock; specialize (Hfirst t rest' Hz Hclock); try discriminate.
  injection Hfirst as ->. split; reflexivity.
Qed.

Lemma new_run_without_motor_witness :
  NewDepthSensorRuns.moveForwardAndStopTest false [tick 200000000 (grabbed (flat_frame 50))]
  = ([Print "Robot moving forward"%string], NewDepthSensorRuns.AttributeError).
Proof.
  pose proof (new_run_without_motor [tick 200000000 (grabbed (flat_frame 50))]) as H.
  destruct (NewDepthSensorRuns.moveForwardAndStopTest false
              [tick 200000000 (grabbed (flat_frame 50))]) as [out outcome].
  destruct H as (_ & _ & _ & H).
  destruct (H _ _ eq_refl ltac:(unfold MIN_INTERVAL; cbn; lia)) as [-> ->]. reflexivity.
Defined.

Lemma new_clear_body_prints (g : Grab) (s : NewDepthSensorTest.Clear) :
  exists o, NewDepthSensorTest.clear_printed (NewDepthSensorTest.clear_body g s)
            = NewDepthSensorTest.clear_printed s ++ [o]
            /\ is_capture_line o = true.
Proof.
  unfold NewDepthSensorTest.clear_body, NewDepthSensorTest.grab_and_measure.
  destruct (is_success (error g));
    cbn [NewDepthSensorTest.image NewDepthSensorTest.depth_matrix].
  - destruct (NewDepthSensorTest.getCoordinatesOfCloseObstacle _ _) as [[cx cy]|];
      eexists; split; reflexivity.
  - eexists; split; reflexivity.
Qed.

Lemma new_clear_fold_prints (zed : list Grab) :
  forall s,
  forallb is_capture_line (NewDepthSensorTest.clear_printed s) = true ->
  forallb is_capture_line
    (NewDepthSensorTest.clear_printed
       (fold_left (fun s g => NewDepthSensorTest.clear_body g s) zed s)) = true.
Proof.
  induction zed as [|g zed IH]; intros s Hs; cbn [fold_left]; [exact Hs|].
  apply IH. destruct (new_clear_body_prints g s) as (o & -> & Ho).
  rewrite forallb_app, Hs. cbn [forallb]. now rewrite Ho.
Qed.

(** X17.  The turning runs of [NewDepthSensorTest.py] send, with a motor
    controller, the turn command at speed 25 once and, if the clear loop
    returns, one stop; without one they command nothing. *)
Theorem new_turn_runs_commands (zed : list Grab) :
  (let '(out, finished) := NewDepthSensorRuns.turnLeftAndStopTest true zed in
   motor_commands out = TurnLeft 25 :: (if finished then [Stop] else [])) /\
  (let '(out, finished) := NewDepthSensorRuns.turnRightAndStopTest true zed in
   motor_commands out = TurnRight 25 :: (if finished then [Stop] else [])) /\
  motor_commands (fst (NewDepthSensorRuns.turnLeftAndStopTest false zed)) = [] /\
  motor_commands (fst (NewDepthSensorRuns.turnRightAndStopTest false zed)) = [].
Proof.
  unfold NewDepthSensorRuns.turnLeftAndStopTest, NewDepthSensorRuns.turnRightAndStopTest,
    NewDepthSensorTest.captureImagesUntilClear.
  destruct (while_prefix NewDepthSensorTest.blocked NewDepthSensorTest.clear_body
              zed NewDepthSensorTest.clear_init) as (before & rest & -> & [E|[-> E]]);
    rewrite E;
    pose proof (motor_commands_lines _
                  (new_clear_fold_prints before NewDepthSensorTest.clear_init eq_refl)) as Hm;
    cbn [fst]; repeat split; rewrite !motor_commands_app, Hm; reflexivity.
Qed.

(** ** The spacing of the forward commands of the approach loop *)

Lemma approach_state_step (zed : list NewDepthSensorTest.Tick) (k : nat)
    (t : NewDepthSensorTest.Tick) :
  nth_error zed k = Some t ->
  approach_state zed (S k) = NewDepthSensorTest.approach_body t (approach_state zed k).
Proof.
  intros Hk. unfold approach_state.
  assert (Hfirst : firstn (S k) zed = firstn k zed ++ [t]).
  { revert k Hk. induction zed as [|t0 zed IH]; intros [|k] Hk; try discriminate.
    - cbn in Hk. injection Hk as ->. reflexivity.
    - cbn [nth_error] in Hk. cbn [firstn app]. f_equal. now apply IH. }
  rewrite Hfirst, fold_left_app. reflexivity.
Qed.

Lemma initialTime_step (zed : list NewDepthSensorTest.Tick) (k : nat)
    (t : NewDepthSensorTest.Tick) :
  nth_error zed k = Some t ->
  NewDepthSensorTest.initialTime (approach_state zed (S k))
  = if sends_at zed k then NewDepthSensorTest.clock_after t
    else NewDepthSensorTest.initialTime (approach_state zed k).
Proof.
  intros Hk. rewrite (approach_state_step zed k t Hk).
  unfold sends_at. rewrite Hk.
  unfold NewDepthSensorTest.approach_body.
  destruct (NewDepthSensorTest.grab_and_measure _ _ _) as [[d b] o]. reflexivity.
Qed.

(** [initialTime] is 0 or the second clock reading of an earlier
    iteration, and not before that of any earlier iteration that sent. *)
Lemma initialTime_invariant (zed : list NewDepthSensorTest.Tick) :
  (forall i ti, nth_error zed i = Some ti ->
     NewDepthSensorTest.clock ti <= NewDepthSensorTest.clock_after ti) ->
  (forall i j ti tj, (i < j)%nat -> nth_error zed i = Some ti -> nth_error zed j = Some tj ->
     NewDepthSensorTest.clock_after ti <= NewDepthSensorTest.clock tj) ->
  forall k, (k <= length zed)%nat ->
  (NewDepthSensorTest.initialTime (approach_state zed k) = 0 \/
   exists m tm, nth_error zed m = Some tm /\
     NewDepthSensorTest.initialTime (approach_state zed k)
     = NewDepthSensorTest.clock_after tm) /\
  (forall i ti, (i < k)%nat -> nth_error zed i = Some ti -> sends_at zed i = true ->
     NewDepthSensorTest.clock_after ti
     <= NewDepthSensorTest.initialTime (approach_state zed k)).
Proof.
  intros Hread Hmono. induction k as [|k IH]; intros Hk.
  - split; [left; reflexivity|]. intros i ti Hi. lia.
  - destruct (nth_error zed k) as [t|] eqn:Ht.
    2:{ apply nth_error_None in Ht. lia. }
    destruct (IH ltac:(lia)) as [Hform Hlast].
    rewrite (initialTime_step zed k t Ht).
    destruct (sends_at zed k) eqn:Hsend.
    + split; [right; exists k, t; auto|].
      intros i ti Hi Hti Hsi.
      destruct (Nat.eq_dec i k) as [->|Hne].
      * rewrite Ht in Hti. injection Hti as ->. lia.
      * specialize (Hmono i k ti t ltac:(lia) Hti Ht).
        specialize (Hread k t Ht). lia.
    + split; [exact Hform|].
      intros i ti Hi Hti Hsi.
      destruct (Nat.eq_dec i k) as [->|Hne]; [congruence|].
      apply (Hlast i ti); [lia | assumption | assumption].
Qed.

(** X18.  On a monotonic clock with readings of the size [time.time_ns()]
    returns (between [2^53] and [2^62] ns), two forward commands of the
    approach loop of [NewDepthSensorTest.py] are never closer than 100 ms
    less 2560 ns: the first clock reading of the later iteration is at
    least that much after the second reading of the earlier one. *)
Theorem forward_commands_spaced (zed : list NewDepthSensorTest.Tick) :
  (forall i ti, nth_error zed i = Some ti ->
     2 ^ 53 <= NewDepthSensorTest.clock ti /\
     NewDepthSensorTest.clock ti <= NewDepthSensorTest.clock_after ti /\
     NewDepthSensorTest.clock_after ti < 2 ^ 62) ->
  (forall i j ti tj, (i < j)%nat -> nth_error zed i = Some ti -> nth_error zed j = Some tj ->
     NewDepthSensorTest.clock_after ti <= NewDepthSensorTest.clock tj) ->
  forall i j ti tj, (i < j)%nat ->
    nth_error zed i = Some ti -> nth_error zed j = Some tj ->
    sends_at zed i = true -> sends_at zed j = true ->
    NewDepthSensorTest.clock tj - NewDepthSensorTest.clock_after ti >= MIN_INTERVAL - 2560.
Proof.
  intros Hrange Hmono i j ti tj Hij Hti Htj Hsi Hsj.
  assert (Hj : (j <= length zed)%nat).
  { apply Nat.lt_le_incl, nth_error_Some. congruence. }
  destruct (initialTime_invariant zed
              (fun i ti H => proj1 (proj2 (Hrange i ti H))) Hmono j Hj) as [Hform Hlast].
  specialize (Hlast i ti Hij Hti Hsi).
  set (last := NewDepthSensorTest.initialTime (approach_state zed j)) in *.
  assert (Hlast_range : 2 ^ 53 <= last < 2 ^ 62).
  { pose proof (Hrange i ti Hti) as Hi.
    destruct Hform as [H0 | (m & tm & Hm & Hlm)].
    - rewrite H0 in Hlast. lia.
    - pose proof (Hrange m tm Hm). lia. }
  unfold sends_at in Hsj. rewrite Htj in Hsj. fold last in Hsj.
  rewrite command_due_same in Hsj.
  destruct (command_due_bracket (NewDepthSensorTest.clock tj) last Hlast_range) as [_ Hnot].
  unfold MIN_INTERVAL.
  destruct (Z_lt_ge_dec (NewDepthSensorTest.clock tj - last) (100000000 - 2560)) as [Hlt|Hge].
  - rewrite (Hnot Hlt) in Hsj. discriminate.
  - lia.
Qed.

Lemma forward_commands_spaced_witness :
  let zed := [tick 1700000000000000000 failed_grab;
              tick 1700000000120000000 failed_grab] in
  sends_at zed 0 = true /\ sends_at zed 1 = true /\
  1700000000120000000 - 1700000000000000000 >= MIN_INTERVAL - 2560.
Proof.
  intros zed.
  assert (H0 : sends_at zed 0 = true) by (vm_compute; reflexivity).
  assert (H1 : sends_at zed 1 = true) by (vm_compute; reflexivity).
  split; [exact H0|]. split; [exact H1|].
  pose proof (forward_commands_spaced zed) as H.
  assert (Hrange : forall i ti, nth_error zed i = Some ti ->
     2 ^ 53 <= NewDepthSensorTest.clock ti /\
     NewDepthSensorTest.clock ti <= NewDepthSensorTest.clock_after ti /\
     NewDepthSensorTest.clock_after ti < 2 ^ 62).
  { intros [|[|i]] ti Hi; [| |destruct i; discriminate];
      injection Hi as <-; unfold tick, NewDepthSensorTest.clock, NewDepthSensorTest.clock_after;
      lia. }
  assert (Hmono : forall i j ti tj, (i < j)%nat ->
     nth_error zed i = Some ti -> nth_error zed j = Some tj ->
     NewDepthSensorTest.clock_after ti <= NewDepthSensorTest.clock tj).
  { intros [|[|i]] [|[|j]] ti tj Hij Hi Hj; try lia;
      try (destruct i; discriminate); try (destruct j; discriminate).
    injection Hi as <-. injection Hj as <-.
    unfold tick, NewDepthSensorTest.clock, NewDepthSensorTest.clock_after. lia. }
  exact (H Hrange Hmono 0%nat 1%nat _ _ (Nat.lt_0_succ 0) eq_refl eq_refl H0 H1).
Defined.

(** ** The steering decision and its send *)

(** X19.  The direction chosen by [hough_lines] depends on the sum of the
    two estimates only: left when it is below 615, right when it is above
    655, up in between, both bounds included, and up whenever an estimate
    is missing.  It is never one of the commands ["down"] and ["stop"]. *)
Theorem direction_by_sum (coors : option Z * option Z) :
  let direction := fst (LineDetSteering.choose_direction coors) in
  match coors with
  | (Some left_line_x1, Some right_line_x1) =>
      (left_line_x1 + right_line_x1 < 615 -> direction = "left"%string) /\
      (615 <= left_line_x1 + right_line_x1 <= 655 -> direction = "up"%string) /\
      (655 < left_line_x1 + right_line_x1 -> direction = "right"%string)
  | _ => direction = "up"%string
  end /\
  In direction ["up"; "left"; "right"]%string.
Proof.
  unfold LineDetSteering.choose_direction.
  destruct coors as [[l|] [r|]]; cbn [fst In]; auto.
  destruct (Z.ltb_spec (635 - r - 20) l), (Z.ltb_spec l (635 - r + 20));
    cbn [andb fst]; Ztest; cbn [fst];
    repeat split; intros; auto; try lia.
  all: destruct (Z.ltb_spec l (635 - r - 20)); cbn [fst]; auto; try lia.
  all: rewrite Z.gtb_ltb; destruct (Z.ltb_spec (635 - r + 20) l); cbn [fst]; auto; lia.
Qed.

Lemma direction_by_sum_witness :
  fst (LineDetSteering.choose_direction (Some 300, Some 300)) = "left"%string /\
  fst (LineDetSteering.choose_direction (Some 300, Some 315)) = "up"%string /\
  fst (LineDetSteering.choose_direction (Some 300, Some 355)) = "up"%string /\
  fst (LineDetSteering.choose_direction (Some 300, Some 356)) = "right"%string.
Proof.
  split; [|split; [|split]].
  - apply (proj1 (direction_by_sum (Some 300, Some 300))). lia.
  - apply (proj1 (direction_by_sum (Some 300, Some 315))). lia.
  - apply (proj1 (direction_by_sum (Some 300, Some 355))). lia.
  - apply (proj1 (direction_by_sum (Some 300, Some 356))). lia.
Defined.

Lemma choose_direction_cases (coors : option Z * option Z) :
  exists said,
    LineDetSteering.choose_direction coors = ("up"%string, said) \/
    LineDetSteering.choose_direction coors = ("left"%string, said) \/
    LineDetSteering.choose_direction coors = ("right"%string, said).
Proof.
  unfold LineDetSteering.choose_direction.
  destruct coors as [[l|] [r|]]; eauto.
  destruct ((635 - r - 20 <? l) && (l <? 635 - r + 20)); eauto.
  destruct (l <? 635 - r - 20); eauto.
  destruct (l >? 635 - r + 20); eauto.
Qed.

Lemma choose_direction_silent (coors : option Z * option Z) :
  motor_commands (snd (LineDetSteering.choose_direction coors)) = [].
Proof.
  unfold LineDetSteering.choose_direction.
  destruct coors as [[l|] [r|]]; try reflexivity.
  destruct ((635 - r - 20 <? l) && (l <? 635 - r + 20)); [reflexivity|].
  destruct (l <? 635 - r - 20); [reflexivity|].
  destruct (l >? 635 - r + 20); reflexivity.
Qed.

(** X20.  [hough_lines] reads the clock into [initialTime] just before it
    calls [sendMotorCommand]: with readings of the size [time.time_ns()]
    returns, the call sends no motor command unless about 100 ms pass
    between that reading and the next one.  Below 100 ms less 2560 ns
    nothing is sent, whatever the estimates; above 100 ms plus 2560 ns one
    command is sent, forward at 20 or a turn at 40, never backward or
    stop. *)
Theorem hough_lines_seldom_sends
    (height : Z) (lines : option (list (list LineDet.Segment))) (b : LineDet.Buffers)
    (started clock clock_after : Z) (out : list Output) :
  2 ^ 53 <= started < 2 ^ 62 ->
  snd (LineDetSteering.hough_lines height lines b started clock clock_after) = inr out ->
  (clock - started < MIN_INTERVAL - 2560 -> motor_commands out = []) /\
  (clock - started > MIN_INTERVAL + 2560 ->
     motor_commands out = [Forward 20] \/ motor_commands out = [TurnLeft 40]
     \/ motor_commands out = [TurnRight 40]).
Proof.
  intros Hstarted Hout.
  unfold LineDetSteering.hough_lines, LineDet.draw_lines in Hout.
  destruct (LineDet.estimate height (LineDet.ingest_lines lines b)) as [coors|e];
    [|discriminate].
  pose proof (choose_direction_silent coors) as Hsilent.
  destruct (choose_direction_cases coors) as (said & Hdir).
  destruct (command_due_bracket clock started Hstarted) as [Hdue Hnot].
  unfold MIN_INTERVAL, LineDet.sendMotorCommand in *.
  split; intros Hgap.
  - specialize (Hnot Hgap). rewrite Hnot in Hout.
    destruct Hdir as [Hd|[Hd|Hd]]; rewrite Hd in Hsilent, Hout; cbn [snd] in Hsilent, Hout;
      injection Hout as <-; rewrite motor_commands_app, Hsilent; reflexivity.
  - specialize (Hdue Hgap). rewrite Hdue in Hout.
    destruct Hdir as [Hd|[Hd|Hd]]; rewrite Hd in Hsilent, Hout;
      cbn [snd String.eqb Ascii.eqb Bool.eqb] in Hsilent, Hout;
      injection Hout as <-; rewrite motor_commands_app, Hsilent; cbn; auto.
Qed.

Lemma hough_lines_seldom_sends_witness :
  snd (LineDetSteering.hough_lines 480 (Some [[left_segment]; [right_segment]])
         LineDet.empty_Buffers
         1700000000000000000 1700000000000500000 1700000000000500000)
  = inr [Print "move left"%string] /\
  motor_commands [Print "move left"%string] = [].
Proof.
  assert (E : snd (LineDetSteering.hough_lines 480 (Some [[left_segment]; [right_segment]])
                     LineDet.empty_Buffers
                     1700000000000000000 1700000000000500000 1700000000000500000)
              = inr [Print "move left"%string]) by (vm_compute; reflexivity).
  split; [exact E|].
  pose proof (hough_lines_seldom_sends 480 (Some [[left_segment]; [right_segment]])
                LineDet.empty_Buffers
                1700000000000000000 1700000000000500000 1700000000000500000
                [Print "move left"%string]) as H.
  specialize (H ltac:(lia) E). destruct H as [H _].
  apply H. unfold MIN_INTERVAL. lia.
Defined.

(** X21.  A command that is none of the five known words is dropped
    without a trace, yet it restarts the interval: when due,
    [sendMotorCommand] prints and sends nothing and returns the clock
    reading it took. *)
Theorem unknown_command_dropped (clock clock_after : Z) (command : string) (last : Z) :
  ~ In command ["up"; "down"; "left"; "right"; "stop"]%string ->
  LineDet.command_due clock last = true ->
  LineDet.sendMotorCommand clock clock_after command last = (clock_after, []).
Proof.
  intros Hc Hdue. unfold LineDet.sendMotorCommand. rewrite Hdue.
  cbn [In] in Hc.
  repeat match goal with
  | |- context [String.eqb command ?w] =>
      replace (String.eqb command w) with false
        by (symmetry; apply String.eqb_neq; intros ->; apply Hc; auto 6)
  end.
  reflexivity.
Qed.

Lemma unknown_command_dropped_witness :
  LineDet.sendMotorCommand 200000000 200000001 "forward" 0 = (200000001, []).
Proof.
  apply unknown_command_dropped.
  - cbn [In]. intros [H|[H|[H|[H|[H|[]]]]]]; discriminate.
  - vm_compute. reflexivity.
Defined.

(** ** Invariants of the four lists *)

Lemma is_side_right_slope (seg : LineDet.Segment) :
  is_side RightSide seg = true -> (LineDet.slope_of seg >? lit_0_3)%pf = true.
Proof.
  unfold is_side, side_of. destruct seg as [[[x1 y1] x2] y2].
  destruct (LineDet.slope_of (x1, y1, x2, y2) >? lit_0_3)%pf; [reflexivity|].
  destruct (LineDet.slope_of (x1, y1, x2, y2) <? opp lit_0_3)%pf; [|discriminate].
  destruct (x1 <? 600); discriminate.
Qed.

Lemma is_side_left_slope (seg : LineDet.Segment) :
  is_side LeftSide seg = true -> (LineDet.slope_of seg <? opp lit_0_3)%pf = true.
Proof.
  unfold is_side, side_of. destruct seg as [[[x1 y1] x2] y2].
  destruct (LineDet.slope_of (x1, y1, x2, y2) >? lit_0_3)%pf.
  - destruct (x1 >? 500); discriminate.
  - destruct (LineDet.slope_of (x1, y1, x2, y2) <? opp lit_0_3)%pf; [reflexivity|discriminate].
Qed.

Lemma Forall_slopes (s : Side) (P : float -> Prop) (segs : list LineDet.Segment) :
  (forall seg, is_side s seg = true -> P (LineDet.slope_of seg)) ->
  Forall P (map LineDet.slope_of (filter (is_side s) segs)).
Proof.
  intros H. induction segs as [|seg segs IH]; cbn [filter map]; [constructor|].
  destruct (is_side s seg) eqn:E; [|exact IH].
  cbn [map]. constructor; [now apply H | exact IH].
Qed.

Lemma ingest_lines_all (lines : option (list (list LineDet.Segment))) (b : LineDet.Buffers) :
  exists segs,
    LineDet.ingest_lines lines b =
    {| LineDet.rightSlope :=
         LineDet.rightSlope b ++ map LineDet.slope_of (filter (is_side RightSide) segs);
       LineDet.leftSlope :=
         LineDet.leftSlope b ++ map LineDet.slope_of (filter (is_side LeftSide) segs);
       LineDet.rightIntercept :=
         LineDet.rightIntercept b ++ map yintercept_of (filter (is_side RightSide) segs);
       LineDet.leftIntercept :=
         LineDet.leftIntercept b ++ map yintercept_of (filter (is_side LeftSide) segs) |}.
Proof.
  destruct lines as [lines|].
  - exists (concat lines). now rewrite ingest_lines_concat, ingest_all.
  - exists []. cbn [LineDet.ingest_lines filter map]. rewrite !app_nil_r. now destruct b.
Qed.

(** X22.  [draw_lines] keeps the four lists in step and sorted by sign:
    if each slope list is as long as its intercept list, every right slope
    is above 0.3 and every left slope is below -0.3, then the same holds
    after the call; so no slope in the lists is ever not-a-number. *)
Theorem buffers_stay_paired
    (height : Z) (lines : option (list (list LineDet.Segment))) (b : LineDet.Buffers) :
  let paired (b : LineDet.Buffers) :=
    length (LineDet.rightSlope b) = length (LineDet.rightIntercept b) /\
    length (LineDet.leftSlope b) = length (LineDet.leftIntercept b) /\
    Forall (fun slope => (slope >? lit_0_3)%pf = true) (LineDet.rightSlope b) /\
    Forall (fun slope => (slope <? opp lit_0_3)%pf = true) (LineDet.leftSlope b) in
  paired b ->
  paired (fst (LineDet.draw_lines height lines b)) /\
  Forall (fun slope => isnan slope = false)
    (LineDet.rightSlope (fst (LineDet.draw_lines height lines b))
     ++ LineDet.leftSlope (fst (LineDet.draw_lines height lines b))).
Proof.
  intros paired (Hr & Hl & Hpos & Hneg).
  unfold LineDet.draw_lines. cbn [fst].
  destruct (ingest_lines_all lines b) as (segs & ->).
  assert (Hp : paired
           {| LineDet.rightSlope :=
                LineDet.rightSlope b ++ map LineDet.slope_of (filter (is_side RightSide) segs);
              LineDet.leftSlope :=
                LineDet.leftSlope b ++ map LineDet.slope_of (filter (is_side LeftSide) segs);
              LineDet.rightIntercept :=
                LineDet.rightIntercept b ++ map yintercept_of (filter (is_side RightSide) segs);
              LineDet.leftIntercept :=
                LineDet.leftIntercept b ++ map yintercept_of (filter (is_side LeftSide) segs) |}).
  { unfold paired.
    cbn [LineDet.rightSlope LineDet.leftSlope LineDet.rightIntercept LineDet.leftIntercept].
    rewrite !length_app, !length_map, Hr, Hl.
    repeat split; try reflexivity; apply Forall_app; split; try assumption;
      apply Forall_slopes.
    - exact is_side_right_slope.
    - exact is_side_left_slope. }
  split; [exact Hp|].
  destruct Hp as (_ & _ & Hpos' & Hneg').
  apply Forall_app; split.
  - eapply Forall_impl; [|exact Hpos']. intros slope H.
    unfold gtb in H. fold (ltb lit_0_3 slope) in H. now apply ltb_not_nan in H.
  - eapply Forall_impl; [|exact Hneg']. intros slope H. now apply ltb_not_nan in H.
Qed.

Lemma buffers_stay_paired_witness :
  length (LineDet.rightSlope
            (fst (LineDet.draw_lines 480 (Some [[left_segment]; [right_segment]])
                    LineDet.empty_Buffers)))
  = length (LineDet.rightIntercept
              (fst (LineDet.draw_lines 480 (Some [[left_segment]; [right_segment]])
                      LineDet.empty_Buffers))).
Proof.
  refine (proj1 (proj1 (buffers_stay_paired 480 (Some [[left_segment]; [right_segment]])
                          LineDet.empty_Buffers _))).
  repeat split; constructor.
Defined.

(** ** Samples that are not finite *)

Lemma add_not_finite_l (x y : float) :
  not_finite x = true -> not_finite (add x y) = true.
Proof.
  destruct x as [sx|sx| |sx mx ex]; try discriminate; intros _;
    destruct y as [sy|sy| |sy my ey]; try reflexivity.
  destruct sx, sy; reflexivity.
Qed.

Lemma add_not_finite_r (x y : float) :
  not_finite y = true -> not_finite (add x y) = true.
Proof.
  destruct y as [sy|sy| |sy my ey]; try discriminate; intros _;
    destruct x as [sx|sx| |sx mx ex]; try reflexivity.
  destruct sx, sy; reflexivity.
Qed.

Lemma sum_not_finite (l : list float) :
  forall acc,
  not_finite acc = true \/ existsb not_finite l = true ->
  not_finite (fold_left add l acc) = true.
Proof.
  induction l as [|x l IH]; intros acc H; cbn [fold_left].
  - destruct H as [H|H]; [exact H|discriminate].
  - apply IH. destruct H as [H|H].
    + left. now apply add_not_finite_l.
    + cbn [existsb] in H. apply orb_prop in H as [H|H]; [|now right].
      left. now apply add_not_finite_r.
Qed.

Lemma existsb_firstn_skipn {A} (p : A -> bool) (k : nat) (l : list A) :
  existsb p l = existsb p (firstn k l) || existsb p (skipn k l).
Proof. rewrite <- existsb_app. now rewrite firstn_skipn. Qed.

Lemma add_each_not_finite (r block : list float) :
  length r = length block ->
  existsb not_finite r || existsb not_finite block = true ->
  existsb not_finite (add_each r block) = true.
Proof.
  revert block. induction r as [|x r IH]; intros [|y block] Hlen H; try discriminate.
  unfold add_each. cbn [combine map existsb fst snd]. fold (add_each r block).
  cbn [existsb] in H. apply orb_true_iff.
  destruct (not_finite x) eqn:Hx; [left; now apply add_not_finite_l|].
  destruct (not_finite y) eqn:Hy; [left; now apply add_not_finite_r|].
  right. apply IH; [now injection Hlen|]. exact H.
Qed.

Lemma length_add_each (r block : list float) :
  length (add_each r block) = Nat.min (length r) (length block).
Proof. unfold add_each. now rewrite length_map, length_combine. Qed.

Lemma accumulate_not_finite (blocks : nat) :
  forall r a,
  length r = 8%nat -> (8 * blocks <= length a)%nat ->
  existsb not_finite r || existsb not_finite a = true ->
  length (fst (accumulate blocks r a)) = 8%nat /\
  existsb not_finite (fst (accumulate blocks r a))
  || existsb not_finite (snd (accumulate blocks r a)) = true.
Proof.
  induction blocks as [|blocks IH]; intros r a Hr Ha H; cbn [accumulate fst snd].
  - split; [exact Hr | exact H].
  - assert (Hblock : length (firstn 8 a) = 8%nat) by (rewrite length_firstn; lia).
    apply IH.
    + rewrite length_add_each, Hr, Hblock. reflexivity.
    + rewrite length_skipn. lia.
    + rewrite (existsb_firstn_skipn not_finite 8 a), orb_assoc in H.
      apply orb_true_iff in H as [H|H]; [|rewrite H; apply orb_true_r].
      rewrite add_each_not_finite; [reflexivity | congruence | exact H].
Qed.

Ltac not_finite_sum :=
  first [ assumption
        | apply add_not_finite_l; not_finite_sum
        | apply add_not_finite_r; not_finite_sum ].

Lemma add_pairs_not_finite (r : list float) :
  length r = 8%nat -> existsb not_finite r = true -> not_finite (add_pairs r) = true.
Proof.
  intros Hr H.
  destruct r as [|r0 [|r1 [|r2 [|r3 [|r4 [|r5 [|r6 [|r7 [|]]]]]]]]]; try discriminate.
  unfold add_pairs. cbn [nth existsb] in *. rewrite orb_false_r in H.
  repeat (apply orb_true_iff in H as [H|H]); not_finite_sum.
Qed.

(** A sample that is not finite makes the sum not finite, in whatever
    order the items are added. *)
Lemma pairwise_sum_not_finite (fuel : nat) :
  forall a, existsb not_finite a = true -> not_finite (pairwise_sum fuel a) = true.
Proof.
  induction fuel as [|fuel IH]; intros a H; cbn [pairwise_sum];
    (destruct (Nat.ltb (length a) 8) eqn:H8;
       [apply sum_not_finite; now right|]);
    (destruct (Nat.leb (length a) 128) eqn:H128; [|try reflexivity]).
  1,2: (apply Nat.ltb_ge in H8; apply Nat.leb_le in H128;
        destruct (accumulate_not_finite (Nat.div (length a) 8 - 1) (firstn 8 a) (skipn 8 a))
          as [Hlen Hnf];
        [ rewrite length_firstn; lia
        | rewrite length_skipn;
          pose proof (Nat.Div0.mul_div_le (length a) 8); lia
        | now rewrite <- existsb_firstn_skipn
        | destruct (accumulate _ _ _) as [r rest]; cbn [fst snd] in *;
          apply sum_not_finite;
          apply orb_true_iff in Hnf as [Hnf|Hnf];
          [left; now apply add_pairs_not_finite | now right] ]).
  set (n2 := (Nat.div (length a) 2 - Nat.modulo (Nat.div (length a) 2) 8)%nat).
  rewrite (existsb_firstn_skipn not_finite n2 a) in H.
  apply orb_true_iff in H as [H|H].
  - apply add_not_finite_l. now apply IH.
  - apply add_not_finite_r. now apply IH.
Qed.

(** The length of the array is fuel enough: with that much or more the
    sum is the same, the recursion never running out. *)
Lemma pairwise_sum_fuel (fuel : nat) :
  forall (fuel' : nat) (a : list float),
  (length a <= fuel)%nat -> (length a <= fuel')%nat ->
  pairwise_sum fuel a = pairwise_sum fuel' a.
Proof.
  induction fuel as [|fuel IH]; intros fuel' a Hf Hf'.
  - destruct a; [|cbn [length] in Hf; lia]. now destruct fuel'.
  - destruct fuel' as [|fuel'].
    + destruct a; [|cbn [length] in Hf'; lia]. reflexivity.
    + cbn [pairwise_sum].
      destruct (Nat.ltb (length a) 8) eqn:H8; [reflexivity|].
      destruct (Nat.leb (length a) 128) eqn:H128; [reflexivity|].
      apply Nat.leb_gt in H128.
      set (n2 := (Nat.div (length a) 2 - Nat.modulo (Nat.div (length a) 2) 8)%nat).
      assert (Hn2 : (0 < n2 < length a)%nat).
      { unfold n2.
        pose proof (Nat.mod_upper_bound (Nat.div (length a) 2) 8 ltac:(lia)).
        pose proof (Nat.Div0.mul_div_le (length a) 2).
        pose proof (Nat.mul_succ_div_gt (length a) 2 ltac:(lia)). lia. }
      f_equal; apply IH; rewrite ?length_firstn, ?length_skipn; lia.
Qed.

Lemma mean_not_finite (l : list float) :
  existsb not_finite l = true -> not_finite (np_mean l) = true.
Proof.
  intros H. unfold np_mean, np_sum.
  pose proof (add_not_finite_r (S754_zero false) _
                (pairwise_sum_not_finite (length l) l H)) as Hs.
  destruct (add (S754_zero false) (pairwise_sum (length l) l)) as [sx|sx| |sx mx ex];
    try discriminate;
    destruct (of_int (Z.of_nat (length l))); reflexivity.
Qed.

Lemma line_x_not_finite (y avgIntercept avgSlope : float) :
  not_finite avgIntercept = true -> not_finite avgSlope = true ->
  LineDet.line_x y avgIntercept avgSlope = nan.
Proof.
  intros Hi Hs. unfold LineDet.line_x.
  assert (Hn : not_finite (sub y avgIntercept) = true).
  { destruct avgIntercept as [si|si| |si mi ei]; try discriminate;
      destruct y as [sy|sy| |sy my ey]; try reflexivity.
    destruct sy, si; reflexivity. }
  destruct (sub y avgIntercept) as [sx|sx| |sx mx ex]; try discriminate;
    destruct avgSlope as [ss|ss| |ss ms es]; try discriminate; reflexivity.
Qed.

(** The sample of a vertical segment: neither its slope nor its intercept
    is finite. *)
Lemma vertical_sample_not_finite (x y1 y2 : Z) :
  not_finite (LineDet.slope_of (x, y1, x, y2)) = true /\
  not_finite (yintercept_of (x, y1, x, y2)) = true.
Proof.
  unfold yintercept_of. unfold LineDet.slope_of. rewrite Z.sub_diag.
  change (of_int 0) with (S754_zero false).
  assert (Hs : not_finite (div (of_int (y1 - y2)) (S754_zero false)) = true)
    by (destruct (of_int (y1 - y2)); reflexivity).
  split; [exact Hs|].
  destruct (div (of_int (y1 - y2)) (S754_zero false)) as [ss|ss| |ss ms es];
    try discriminate.
  - destruct (of_int x) as [sx|sx| |sx mx ex]; destruct (of_int y2) as [sy|sy| |sy my ey];
      try reflexivity; destruct ss, sx, sy; reflexivity.
  - destruct (of_int x) as [sx|sx| |sx mx ex]; destruct (of_int y2) as [sy|sy| |sy my ey];
      reflexivity.
Qed.

(** X23.  One sample that is not finite blinds a side.  The sample of a
    vertical segment is such a sample: neither its slope nor its intercept
    is finite.  As long as the last 30 right slopes and the last 30 right
    intercepts each hold a sample that is not finite, [draw_lines] returns
    no right estimate. *)
Theorem not_finite_sample_blinds_right :
  (forall x y1 y2,
     not_finite (LineDet.slope_of (x, y1, x, y2)) = true /\
     not_finite (yintercept_of (x, y1, x, y2)) = true) /\
  (forall height b,
     existsb not_finite (last_items 30 (LineDet.rightSlope b)) = true ->
     existsb not_finite (last_items 30 (LineDet.rightIntercept b)) = true ->
     match LineDet.estimate height b with
     | LineDet.Return (_, right_line_x1) => right_line_x1 = None
     | LineDet.Raise e => e = OverflowError
     end).
Proof.
  split; [exact vertical_sample_not_finite|].
  intros height b Hs Hi. unfold LineDet.estimate.
  rewrite !(line_x_not_finite _ _ _ (mean_not_finite _ Hi) (mean_not_finite _ Hs)).
  destruct (int (LineDet.line_x (mul lit_0_65 (of_int height)) _ _)) as [[]|x1];
    cbn [LineDet.except]; try reflexivity.
  destruct (int (LineDet.line_x (of_int height) _ _)) as [[]|x2];
    cbn [LineDet.except int]; reflexivity.
Qed.

Lemma not_finite_sample_blinds_right_witness :
  let b := fst (LineDet.draw_lines 480
                  (Some [[left_segment]; [right_segment]; [vertical_segment]; [right_segment]])
                  LineDet.empty_Buffers) in
  length (LineDet.rightSlope b) = 3%nat /\
  match LineDet.estimate 480 b with
  | LineDet.Return (_, right_line_x1) => right_line_x1 = None
  | LineDet.Raise e => e = OverflowError
  end.
Proof.
  intros b.
  assert (H1 : existsb not_finite (last_items 30 (LineDet.rightSlope b)) = true)
    by (vm_compute; reflexivity).
  assert (H2 : existsb not_finite (last_items 30 (LineDet.rightIntercept b)) = true)
    by (vm_compute; reflexivity).
  split; [vm_compute; reflexivity|].
  exact (proj2 not_finite_sample_blinds_right 480 b H1 H2).
Defined.

(** ** The corridor run *)

Lemma while_returned_shorter {I S : Type} (cond : S -> bool) (body : I -> S -> S)
    (inputs : list I) (s0 s : S) (rest : list I) :
  cond s0 = true ->
  while cond body inputs s0 = Returned s rest ->
  (length rest < length inputs)%nat /\ exists before, inputs = before ++ rest.
Proof.
  intros H0 Hrun.
  destruct (while_returned_last cond body inputs s0 s rest H0 Hrun)
    as (before & i & -> & _).
  split.
  - rewrite length_app. cbn [length]. lia.
  - exists (before ++ [i]). now rewrite <- app_assoc.
Qed.

Lemma length_left_of (zed : list DepthSensorCorridor.Shot) (rest : list Grab) :
  (length rest <= length zed)%nat ->
  length (DepthSensorCorridor.left_of zed rest) = length rest.
Proof.
  intros H. unfold DepthSensorCorridor.left_of. rewrite length_skipn. lia.
Qed.

Lemma In_left_of (zed : list DepthSensorCorridor.Shot) (rest : list Grab)
    (g : DepthSensorCorridor.Shot) :
  In g (DepthSensorCorridor.left_of zed rest) -> In g zed.
Proof.
  unfold DepthSensorCorridor.left_of.
  generalize (length zed - length rest)%nat. intros n. revert zed.
  induction n as [|n IH]; intros [|a zed]; cbn [skipn]; auto.
  intros H. right. now apply IH.
Qed.

(** The grabs left after the two capture loops of an iteration. *)
Lemma cycle_consumes (zed : list DepthSensorCorridor.Shot)
    (s1 s2 : DepthSensorTests.Capture) (rest1 rest2 : list Grab) :
  DepthSensorTests.captureImagesUntilCloseToObstacle (map DepthSensorCorridor.shot zed)
    = Returned s1 rest1 ->
  DepthSensorTests.captureImagesUntilClear
    (map DepthSensorCorridor.shot (DepthSensorCorridor.left_of zed rest1))
    = Returned s2 rest2 ->
  (length (DepthSensorCorridor.left_of (DepthSensorCorridor.left_of zed rest1) rest2) + 2
   <= length zed)%nat.
Proof.
  intros H1 H2.
  destruct (while_returned_shorter _ _ _ _ _ _ eq_refl H1) as [L1 _].
  destruct (while_returned_shorter _ _ _ _ _ _ eq_refl H2) as [L2 _].
  rewrite length_map in L1, L2.
  rewrite length_left_of in L2 by lia.
  rewrite !length_left_of; rewrite ?length_left_of; lia.
Qed.

(** The loop ends by its condition, not for lack of fuel: any fuel above
    the number of grabs gives the same run. *)
Lemma corridor_fuel (motor : bool) (initial : option float) :
  forall fuel fuel' d zed,
  (length zed < fuel)%nat -> (length zed < fuel')%nat ->
  DepthSensorCorridor.corridor fuel motor initial d zed
  = DepthSensorCorridor.corridor fuel' motor initial d zed.
Proof.
  induction fuel as [|fuel IH]; intros fuel' d zed Hf Hf'; [lia|].
  destruct fuel' as [|fuel']; [lia|].
  cbn [DepthSensorCorridor.corridor].
  destruct (d <? of_int 1000)%pf; [|reflexivity].
  destruct (DepthSensorTests.captureImagesUntilCloseToObstacle _) as [s1 rest1|s1] eqn:H1;
    [|reflexivity].
  destruct (DepthSensorTests.captureImagesUntilClear _) as [s2 rest2|s2] eqn:H2;
    [|reflexivity].
  pose proof (cycle_consumes zed s1 s2 rest1 rest2 H1 H2) as Hlen.
  destruct (DepthSensorCorridor.left_of _ rest2) as [|g zed3]; [reflexivity|].
  cbn [length] in Hlen.
  destruct (is_success (error (DepthSensorCorridor.shot g))).
  - destruct initial as [x0|]; [|reflexivity].
    rewrite (IH fuel') by lia. reflexivity.
  - rewrite (IH fuel') by lia. reflexivity.
Qed.

(** Without an initial pose the loop never ends by its condition. *)
Lemma corridor_without_start (motor : bool) :
  forall fuel zed,
  snd (DepthSensorCorridor.corridor fuel motor None (of_int 0) zed)
    = DepthSensorCorridor.Unended \/
  snd (DepthSensorCorridor.corridor fuel motor None (of_int 0) zed)
    = DepthSensorCorridor.TypeError.
Proof.
  induction fuel as [|fuel IH]; intros zed; cbn [DepthSensorCorridor.corridor]; [auto|].
  change (of_int 0 <? of_int 1000)%pf with true. cbv iota.
  destruct (DepthSensorTests.captureImagesUntilCloseToObstacle _) as [s1 rest1|s1]; [|auto].
  destruct (DepthSensorTests.captureImagesUntilClear _) as [s2 rest2|s2]; [|auto].
  destruct (DepthSensorCorridor.left_of _ rest2) as [|g zed3]; [auto|].
  destruct (is_success (error (DepthSensorCorridor.shot g))); [auto|].
  specialize (IH zed3).
  destruct (DepthSensorCorridor.corridor fuel motor None (of_int 0) zed3) as [later ending].
  exact IH.
Qed.

(** X24.  [zigzagDownCorridorTest] exits with status 1, having done
    nothing, when positional tracking cannot be enabled.  When its first
    grab fails it keeps no initial pose and can never end normally: it runs
    until the first successful pose grab at the end of an avoidance cycle,
    where [initialTranslationData[0]] raises [TypeError]; so it does when
    the next three grabs read at most 100 cm, read at least 125 cm, and
    succeed. *)
Theorem corridor_run_needs_first_pose
    (motor : bool) (err : ERROR_CODE) (zed : list DepthSensorCorridor.Shot) :
  (is_success err = false ->
   DepthSensorCorridor.zigzagDownCorridorTest motor err zed
   = ([], DepthSensorCorridor.Exit 1)) /\
  (is_success err = true ->
   forall g rest, zed = g :: rest ->
   is_success (error (DepthSensorCorridor.shot g)) = false ->
   (snd (DepthSensorCorridor.zigzagDownCorridorTest motor err zed)
      = DepthSensorCorridor.Unended \/
    snd (DepthSensorCorridor.zigzagDownCorridorTest motor err zed)
      = DepthSensorCorridor.TypeError) /\
   (forall approach clear pose later near far,
      rest = approach :: clear :: pose :: later ->
      sample (DepthSensorCorridor.shot approach) = Some near ->
      (near <=? of_int 100)%pf = true ->
      sample (DepthSensorCorridor.shot clear) = Some far ->
      (far >=? of_int 125)%pf = true ->
      is_success (error (DepthSensorCorridor.shot pose)) = true ->
      snd (DepthSensorCorridor.zigzagDownCorridorTest motor err zed)
        = DepthSensorCorridor.TypeError)).
Proof.
  unfold DepthSensorCorridor.zigzagDownCorridorTest.
  split; intros Herr; rewrite Herr; [reflexivity|].
  intros g rest -> Hg. rewrite Hg. split; [apply corridor_without_start|].
  intros approach clear pose later near far -> Ha Hnear Hc Hfar Hp.
  cbn [DepthSensorCorridor.corridor length].
  change (of_int 0 <? of_int 1000)%pf with true. cbv iota.
  cbn [map].
  (* the approach loop returns at its first grab *)
  assert (H1 : DepthSensorTests.captureImagesUntilCloseToObstacle
                 (DepthSensorCorridor.shot approach :: DepthSensorCorridor.shot clear
                    :: DepthSensorCorridor.shot pose :: map DepthSensorCorridor.shot later)
               = Returned (DepthSensorTests.capture_body (DepthSensorCorridor.shot approach)
                             DepthSensorTests.capture_init)
                   (DepthSensorCorridor.shot clear :: DepthSensorCorridor.shot pose
                      :: map DepthSensorCorridor.shot later)).
  { unfold DepthSensorTests.captureImagesUntilCloseToObstacle.
    rewrite while_step by reflexivity. apply while_exit.
    unfold DepthSensorTests.approaching. rewrite depthValue_capture_body, Ha.
    change (of_int DepthSensorTests.MIN_THRESHOLD_DISTANCE) with (of_int 100).
    rewrite gtb_negb_leb, Hnear; [reflexivity | exact (sample_not_nan _ _ Ha) | reflexivity]. }
  rewrite H1.
  assert (E1 : DepthSensorCorridor.left_of (approach :: clear :: pose :: later)
                 (DepthSensorCorridor.shot clear :: DepthSensorCorridor.shot pose
                    :: map DepthSensorCorridor.shot later)
               = clear :: pose :: later).
  { unfold DepthSensorCorridor.left_of. cbn [length]. rewrite length_map.
    replace (S (S (S (length later))) - S (S (length later)))%nat with 1%nat by lia.
    reflexivity. }
  rewrite E1. cbn [map].
  assert (H2 : DepthSensorTests.captureImagesUntilClear
                 (DepthSensorCorridor.shot clear :: DepthSensorCorridor.shot pose
                    :: map DepthSensorCorridor.shot later)
               = Returned (DepthSensorTests.capture_body (DepthSensorCorridor.shot clear)
                             DepthSensorTests.capture_init)
                   (DepthSensorCorridor.shot pose :: map DepthSensorCorridor.shot later)).
  { unfold DepthSensorTests.captureImagesUntilClear.
    rewrite while_step by reflexivity. apply while_exit.
    unfold DepthSensorTests.blocked. rewrite depthValue_capture_body, Hc.
    change (of_int DepthSensorTests.MAX_THRESHOLD_DISTANCE) with (of_int 125).
    rewrite ltb_negb_geb, Hfar; [reflexivity | exact (sample_not_nan _ _ Hc) | reflexivity]. }
  rewrite H2.
  assert (E2 : DepthSensorCorridor.left_of (clear :: pose :: later)
                 (DepthSensorCorridor.shot pose :: map DepthSensorCorridor.shot later)
               = pose :: later).
  { unfold DepthSensorCorridor.left_of. cbn [length]. rewrite length_map.
    replace (S (S (length later)) - S (length later))%nat with 1%nat by lia.
    reflexivity. }
  rewrite E2, Hp. reflexivity.
Qed.

Lemma corridor_ends_far (motor : bool) (initial : float) :
  forall fuel d0 zed out,
  DepthSensorCorridor.corridor fuel motor (Some initial) d0 zed
    = (out, DepthSensorCorridor.Ended) ->
  ((d0 <? of_int 1000)%pf = false /\ out = []) \/
  exists before d g,
    out = before ++ [DepthSensorCorridor.PrintDistanceFromStart d] /\
    (d <? of_int 1000)%pf = false /\
    In g zed /\ is_success (error (DepthSensorCorridor.shot g)) = true /\
    d = DepthSensorCorridor.abs (sub initial (DepthSensorCorridor.translation g)).
Proof.
  induction fuel as [|fuel IH]; intros d0 zed out; cbn [DepthSensorCorridor.corridor];
    [discriminate|].
  destruct (d0 <? of_int 1000)%pf eqn:Hd0.
  2:{ intros E. injection E as <-. auto. }
  destruct (DepthSensorTests.captureImagesUntilCloseToObstacle _) as [s1 rest1|s1];
    [|discriminate].
  destruct (DepthSensorTests.captureImagesUntilClear _) as [s2 rest2|s2]; [|discriminate].
  destruct (DepthSensorCorridor.left_of _ rest2) as [|g zed3] eqn:Hleft; [discriminate|].
  assert (Hin : forall g', In g' (g :: zed3) -> In g' zed).
  { intros g' Hg'. rewrite <- Hleft in Hg'.
    apply In_left_of in Hg'. now apply In_left_of in Hg'. }
  destruct (is_success (error (DepthSensorCorridor.shot g))) eqn:Hok.
  - destruct (DepthSensorCorridor.corridor fuel motor (Some initial) _ zed3)
      as [later ending] eqn:Hrec.
    intros E. injection E as <- ->. right.
    destruct (IH _ _ _ Hrec) as [[Hfar ->] | (before & d & g' & -> & Hfar & Hg' & Hok' & Hd)].
    + eexists _, _, g. split; [reflexivity|]. split; [exact Hfar|].
      split; [apply Hin; now left|]. split; [exact Hok | reflexivity].
    + match goal with
      | |- exists _ _ _, ?c ++ ?p :: _ = _ /\ _ => exists (c ++ p :: before), d, g'; split;
            [exact (app_assoc c (p :: before) _)|]
      end.
      split; [exact Hfar|]. split; [apply Hin; now right|]. split; assumption.
  - destruct (DepthSensorCorridor.corridor fuel motor (Some initial) d0 zed3)
      as [later ending] eqn:Hrec.
    intros E. injection E as <- ->. right.
    destruct (IH _ _ _ Hrec) as [[Hfar _] | (before & d & g' & -> & Hfar & Hg' & Hok' & Hd)].
    + congruence.
    + match goal with
      | |- exists _ _ _, ?c ++ _ = _ /\ _ => exists (c ++ before), d, g'; split;
            [exact (app_assoc c before _)|]
      end.
      split; [exact Hfar|]. split; [apply Hin; now right|]. split; assumption.
Qed.

(** X25.  When [zigzagDownCorridorTest] comes to its end, the last thing
    it did was to print a distance from start that is not below 1000: the
    absolute difference of the first coordinates of the initial pose and of
    the pose after a later successful grab, which is at least 1000, or
    not-a-number when a pose is. *)
Theorem corridor_run_ends_far
    (motor : bool) (err : ERROR_CODE) (zed : list DepthSensorCorridor.Shot)
    (out : list DepthSensorCorridor.Line) :
  DepthSensorCorridor.zigzagDownCorridorTest motor err zed
    = (out, DepthSensorCorridor.Ended) ->
  exists first rest before d g,
    zed = first :: rest /\
    is_success (error (DepthSensorCorridor.shot first)) = true /\
    out = before ++ [DepthSensorCorridor.PrintDistanceFromStart d] /\
    In g rest /\ is_success (error (DepthSensorCorridor.shot g)) = true /\
    d = DepthSensorCorridor.abs
          (sub (DepthSensorCorridor.translation first) (DepthSensorCorridor.translation g)) /\
    (d <? of_int 1000)%pf = false /\
    (isnan d = false -> (of_int 1000 <=? d)%pf = true).
Proof.
  unfold DepthSensorCorridor.zigzagDownCorridorTest.
  destruct (is_success err); [|discriminate].
  destruct zed as [|first rest]; [discriminate|].
  destruct (is_success (error (DepthSensorCorridor.shot first))) eqn:Hfirst.
  - intros Hrun.
    destruct (corridor_ends_far _ _ _ _ _ _ Hrun)
      as [[Hfar _] | (before & d & g & -> & Hfar & Hg & Hok & Hd)]; [discriminate|].
    exists first, rest, before, d, g. repeat split; auto.
    intros Nd. rewrite ltb_negb_leb in Hfar by (exact Nd || reflexivity).
    now apply negb_false_iff in Hfar.
  - intros Hrun.
    pose proof (corridor_without_start motor (S (length rest)) rest) as H.
    rewrite Hrun in H. cbn [snd] in H. destruct H; discriminate.
Qed.

Lemma corridor_run_ends_far_witness :
  let at_start := {| DepthSensorCorridor.shot := grabbed (flat_frame 200);
                     DepthSensorCorridor.translation := of_int 0 |} in
  let near := {| DepthSensorCorridor.shot := grabbed (flat_frame 50);
                 DepthSensorCorridor.translation := of_int 400 |} in
  let clear := {| DepthSensorCorridor.shot := grabbed (flat_frame 200);
                  DepthSensorCorridor.translation := of_int 400 |} in
  let far := {| DepthSensorCorridor.shot := grabbed (flat_frame 200);
                DepthSensorCorridor.translation := of_int (-1200) |} in
  exists out d,
    DepthSensorCorridor.zigzagDownCorridorTest true SUCCESS [at_start; near; clear; far]
      = (out ++ [DepthSensorCorridor.PrintDistanceFromStart d], DepthSensorCorridor.Ended)
    /\ (of_int 1000 <=? d)%pf = true.
Proof.
  intros at_start near clear far.
  destruct (DepthSensorCorridor.zigzagDownCorridorTest true SUCCESS
              [at_start; near; clear; far]) as [out ending] eqn:Hrun.
  assert (Hend : ending = DepthSensorCorridor.Ended).
  { apply (f_equal snd) in Hrun. cbn [snd] in Hrun. rewrite <- Hrun.
    vm_compute. reflexivity. }
  subst ending.
  destruct (corridor_run_ends_far true SUCCESS _ out Hrun)
    as (first & rest & before & d & g & Hzed & _ & -> & Hg & _ & Hd & _ & Hfar).
  exists before, d. split; [reflexivity|]. apply Hfar.
  injection Hzed as <- <-.
  destruct Hg as [<-|[<-|[<-|[]]]]; rewrite Hd; vm_compute; reflexivity.
Defined.

Lemma corridor_run_needs_first_pose_witness :
  let lost := {| DepthSensorCorridor.shot := failed_grab;
                 DepthSensorCorridor.translation := nan |} in
  let near := {| DepthSensorCorridor.shot := grabbed (flat_frame 50);
                 DepthSensorCorridor.translation := of_int 400 |} in
  let clear := {| DepthSensorCorridor.shot := grabbed (flat_frame 200);
                  DepthSensorCorridor.translation := of_int 400 |} in
  snd (DepthSensorCorridor.zigzagDownCorridorTest true SUCCESS [lost; near; clear; clear])
  = DepthSensorCorridor.TypeError.
Proof.
  intros lost near clear.
  refine (proj2 (proj2 (corridor_run_needs_first_pose true SUCCESS
                          [lost; near; clear; clear]) eq_refl lost [near; clear; clear]
                   eq_refl eq_refl)
            near clear clear [] (of_int 50) (of_int 200) eq_refl _ _ _ _ eq_refl);
    vm_compute; reflexivity.
Defined.
